(** * weather_api: the DC bikeshare weather module

    A shallow embedding of [src/weather_api.py]: the historical collection
    loop ([fetch_historical_weather]), the NOAA loader
    ([load_noaa_weather_data]), the categorisation step
    ([create_weather_categories]) and the summary
    ([get_weather_summary]), followed by the properties the specification
    states about them; then the request for the current weather
    ([fetch_current_weather]) and further properties of the five
    functions and of their compositions. *)

From Stdlib Require Import ZArith Floats Lia.
From stdpp Require Import gmap strings list.

Local Open Scope Z_scope.
Set Warnings "-register-all,-inexact-float".

(** ** Python values and exceptions *)

(** The objects that reach this module: the scalars of a table cell and of
    a decoded JSON document, calendar dates, and the two JSON containers. A
    float is an IEEE binary64, as in Python; an int of a table cell is the
    cell of an int64 column. A dict keeps its items in insertion order and
    has no repeated key. *)
Inductive value : Type :=
| VNone
| VBool (b : bool)
| VInt (n : Z)
| VFloat (x : float)
| VStr (s : string)
| VDate (ordinal : Z)
| VList (items : list value)
| VDict (items : list (string * value)).

Inductive exn : Type :=
| ValueError (msg : string)
| TypeError
| KeyError (key : string)
| IndexError
| OverflowError
| JSONDecodeError
| ConnectionError
| ParserError.

(** A call either returns or raises. *)
Inductive result (A : Type) : Type :=
| Ok (a : A)
| Raise (e : exn).
Arguments Ok {A} a.
Arguments Raise {A} e.

#[global] Instance result_ret : MRet result := fun A a => Ok a.
#[global] Instance result_bind : MBind result := fun A B f m =>
  match m with
  | Ok a => f a
  | Raise e => Raise e
  end.
#[global] Instance result_fmap : FMap result := fun A B f m =>
  match m with
  | Ok a => Ok (f a)
  | Raise e => Raise e
  end.

Definition is_Ok {A} (m : result A) : Prop := exists a, m = Ok a.

(** [Series.apply(f)] and the element-wise operators: [f] on every cell in
    order, the first exception ending the traversal. *)
Fixpoint traverse {A B} (f : A -> result B) (l : list A) : result (list B) :=
  match l with
  | [] => Ok []
  | a :: l' => b ← f a; bs ← traverse f l'; Ok (b :: bs)
  end.

(** A computation over a state [S]: it returns or raises, and leaves a
    state behind either way. *)
Definition M (S A : Type) : Type := S -> result A * S.

#[global] Instance M_ret {S} : MRet (M S) := fun A a st => (Ok a, st).
#[global] Instance M_bind {S} : MBind (M S) := fun A B f m st =>
  match m st with
  | (Ok a, st') => f a st'
  | (Raise e, st') => (Raise e, st')
  end.

Definition lift {S A} (m : result A) : M S A := fun st => (m, st).

(** [try: body except Exception as e: handler] *)
Definition try_except {S A} (body : M S A) (handler : exn -> M S A) : M S A :=
  fun st =>
    match body st with
    | (Ok a, st') => (Ok a, st')
    | (Raise e, st') => handler e st'
    end.

(** ** Numbers *)

(** [float(k)] for an int of the int64 range, rounded to nearest; exact for
    every [k] with [|k| <= 2^53], so for the literals of this module, where
    Python's exact comparison of a float with an int and the float
    comparison below agree. *)
Definition float_of_int (k : Z) : float :=
  let x := if Z.abs k <? 2 ^ 63
           then PrimFloat.of_uint63 (Uint63.of_Z (Z.abs k))
           else 0x1p63%float in
  if k <? 0 then PrimFloat.opp x else x.

(** [v < k] for an int literal [k], as Python compares two objects:
    defined on floats, ints and bools (a bool is the int 0 or 1), a
    [TypeError] on every other object. A comparison with NaN is false. *)
Definition py_lt (v : value) (k : Z) : result bool :=
  match v with
  | VFloat x => Ok (PrimFloat.ltb x (float_of_int k))
  | VInt n => Ok (n <? k)
  | VBool b => Ok (Z.b2z b <? k)
  | _ => Raise TypeError
  end.

(** [v > k] for an int literal [k], on a cell of the column in [s > k]:
    as above on numbers; a [None] cell, which an object column may hold,
    is a missing value and compares false, as NaN does; a [TypeError] on
    every other object. *)
Definition py_gt (v : value) (k : Z) : result bool :=
  match v with
  | VFloat x => Ok (PrimFloat.ltb (float_of_int k) x)
  | VInt n => Ok (k <? n)
  | VBool b => Ok (k <? Z.b2z b)
  | VNone => Ok false
  | _ => Raise TypeError
  end.

(** ** create_weather_categories: the cell functions *)

(** The nested [categorize_temp] of [create_weather_categories]. *)
Definition categorize_temp (temp : value) : result string :=
  b ← py_lt temp 32;
  if b : bool then Ok "Freezing" else
  b ← py_lt temp 50;
  if b : bool then Ok "Cold" else
  b ← py_lt temp 70;
  if b : bool then Ok "Mild" else
  b ← py_lt temp 85;
  if b : bool then Ok "Warm" else
  Ok "Hot".

(** [cell == s] for a string literal: true on that very string, false on
    every other object. *)
Definition py_eq_str (v : value) (s : string) : bool :=
  match v with
  | VStr s' => String.eqb s' s
  | _ => false
  end.

(** [Series.isin(values)] on one cell, for a list of string literals: an
    object that is no string, a container included, is in no such list. *)
Definition isin_cell (values : list string) (v : value) : bool :=
  existsb (py_eq_str v) values.

(** ** Tables *)

(** A [Series] is the list of its cells; a [DataFrame] is the ordered list
    of its labelled columns. Labels are unique in the frames pandas builds
    from a file or from records, and lookups below take the first column
    with the label. The row index is the default one and is left out. *)
Abbreviation Series := (list value).
Abbreviation DataFrame := (list (string * Series)).

(** [df.columns] *)
Definition columns (df : DataFrame) : list string := df.*1.

(** [c in df.columns] *)
Definition contains (c : string) (cols : list string) : bool :=
  existsb (String.eqb c) cols.

(** [df[c]]: a [KeyError] when no column has the label. *)
Fixpoint getitem (df : DataFrame) (c : string) : result Series :=
  match df with
  | [] => Raise (KeyError c)
  | (k, s) :: df' => if String.eqb k c then Ok s else getitem df' c
  end.

(** [df[c] = s]: the column is replaced where it stands, or added last. *)
Fixpoint setitem (df : DataFrame) (c : string) (s : Series) : DataFrame :=
  match df with
  | [] => [(c, s)]
  | (k, s0) :: df' =>
      if String.eqb k c then (k, s) :: df' else (k, s0) :: setitem df' c s
  end.

(** ** Objects and references *)

(** Frames are mutable objects: a variable holds a reference, and the
    store maps each live reference to the frame it denotes. Computations
    thread the store and may raise. *)
Abbreviation ref := positive.
Abbreviation store := (gmap positive DataFrame).
Abbreviation Py := (M store).

(** The frame behind [r]. The store of a running program has a frame
    behind every reference in use; a reference with none is an error. *)
Definition deref (r : ref) : Py DataFrame := fun h =>
  match h !! r with
  | Some df => (Ok df, h)
  | None => (Raise TypeError, h)
  end.

(** A new object holding [df], at a reference not in use. *)
Definition alloc (df : DataFrame) : Py ref := fun h =>
  let r' := fresh (dom h) in (Ok r', <[r' := df]> h).

(** [r.copy()]: a new object with the contents of [r]. *)
Definition copy (r : ref) : Py ref :=
  df ← deref r; alloc df.

(** [r.columns] *)
Definition df_columns (r : ref) : Py (list string) :=
  df ← deref r; mret (columns df).

(** [r[c]] *)
Definition df_getitem (r : ref) (c : string) : Py Series :=
  df ← deref r; lift (getitem df c).

Definition assign (r : ref) (df : DataFrame) : Py unit := fun h =>
  (Ok (), <[r := df]> h).

(** [r[c] = s]: the object behind [r] is updated in place. *)
Definition df_setitem (r : ref) (c : string) (s : Series) : Py unit :=
  df ← deref r; assign r (setitem df c s).

(** ** create_weather_categories *)

(** The two [if] statements of the body, on the object [df]. *)
Definition add_temp_category (df : ref) : Py unit :=
  cols ← df_columns df;
  if contains "temp_avg" cols then
    temp_avg ← df_getitem df "temp_avg";
    cats ← lift (traverse (fun t => VStr <$> categorize_temp t) temp_avg);
    df_setitem df "temp_category" cats
  else mret ().

Definition add_condition_flags (df : ref) : Py unit :=
  cols ← df_columns df;
  if contains "weather_main" cols then
    weather_main ← df_getitem df "weather_main";
    df_setitem df "is_clear"
      ((fun v => VBool (py_eq_str v "Clear")) <$> weather_main);;
    weather_main ← df_getitem df "weather_main";
    df_setitem df "is_rainy"
      ((fun v => VBool (isin_cell ["Rain"; "Drizzle"; "Thunderstorm"] v))
         <$> weather_main);;
    weather_main ← df_getitem df "weather_main";
    df_setitem df "is_snowy"
      ((fun v => VBool (isin_cell ["Snow"; "Sleet"] v)) <$> weather_main)
  else mret ().

Definition create_weather_categories (weather_df : ref) : Py ref :=
  df ← copy weather_df;
  add_temp_category df;;
  add_condition_flags df;;
  mret df.

(** The table [create_weather_categories] builds from the contents [df] of
    its argument, as a function of [df]; [create_weather_categories_run]
    below shows the two agree. *)
Definition categories_of (temp_avg : Series) : result Series :=
  traverse (fun t => VStr <$> categorize_temp t) temp_avg.

Definition with_flags (df : DataFrame) (weather_main : Series) : DataFrame :=
  let df1 := setitem df "is_clear"
               ((fun v => VBool (py_eq_str v "Clear")) <$> weather_main) in
  let df2 := setitem df1 "is_rainy"
               ((fun v => VBool (isin_cell ["Rain"; "Drizzle"; "Thunderstorm"] v))
                  <$> weather_main) in
  setitem df2 "is_snowy"
    ((fun v => VBool (isin_cell ["Snow"; "Sleet"] v)) <$> weather_main).

Definition categorized (df : DataFrame) : result DataFrame :=
  df1 ← match getitem df "temp_avg" with
        | Ok temp_avg =>
            cats ← categories_of temp_avg; Ok (setitem df "temp_category" cats)
        | Raise _ => Ok df
        end;
  match getitem df1 "weather_main" with
  | Ok weather_main => Ok (with_flags df1 weather_main)
  | Raise _ => Ok df1
  end.

(** ** Element-wise arithmetic *)

Definition wrap64 (n : Z) : Z := (n + 2 ^ 63) mod 2 ^ 64 - 2 ^ 63.

(** The float64 of a number cell; int64 values convert with rounding to
    nearest, as [float_of_int] does on that range. *)
Definition to_float (v : value) : option float :=
  match v with
  | VFloat x => Some x
  | VInt n => Some (float_of_int n)
  | VBool b => Some (if b then 1%float else 0%float)
  | _ => None
  end.

(** [a + b] on two cells of the same row: float64 addition as soon as one
    side is a float, wrapping int64 addition on ints, [or] on two cells of
    bool columns, concatenation on two strings or two lists, and a
    [TypeError] otherwise. The ints are those of int64 columns, as in
    [value]: a column of integers from [2^63] on, which pandas reads as
    uint64, is not among the tables described here. *)
Definition py_add (a b : value) : result value :=
  match a, b with
  | VBool x, VBool y => Ok (VBool (x || y))
  | VInt m, VInt n => Ok (VInt (wrap64 (m + n)))
  | VInt m, VBool y => Ok (VInt (wrap64 (m + Z.b2z y)))
  | VBool x, VInt n => Ok (VInt (wrap64 (Z.b2z x + n)))
  | VStr s, VStr t => Ok (VStr (s +:+ t))
  | VList xs, VList ys => Ok (VList (xs ++ ys))
  | _, _ =>
      match a, b, to_float a, to_float b with
      | VFloat _, _, Some x, Some y
      | _, VFloat _, Some x, Some y => Ok (VFloat (x + y)%float)
      | _, _, _, _ => Raise TypeError
      end
  end.

(** [a / k] for an int literal [k]: true division, in float64. *)
Definition py_truediv (a : value) (k : Z) : result value :=
  match to_float a with
  | Some x => Ok (VFloat (x / float_of_int k)%float)
  | None => Raise TypeError
  end.

(** Two columns of one frame, cell by cell; they have the same rows. *)
Fixpoint traverse2 {A B C} (f : A -> B -> result C) (l1 : list A) (l2 : list B)
  : result (list C) :=
  match l1, l2 with
  | a :: l1', b :: l2' => c ← f a b; cs ← traverse2 f l1' l2'; Ok (c :: cs)
  | _, _ => Ok []
  end.

(** [s1 + s2], [s / k] and [s > k] on columns. *)
Definition series_add (s1 s2 : Series) : result Series := traverse2 py_add s1 s2.
Definition series_truediv (s : Series) (k : Z) : result Series :=
  traverse (fun v => py_truediv v k) s.
Definition series_gt (s : Series) (k : Z) : result (list bool) :=
  traverse (fun v => py_gt v k) s.

(** ** The pandas entry points the module calls *)

(** What the module takes from pandas without looking inside: the CSV
    reader, the date parser behind [pd.to_datetime(s).dt.date], and the
    numeric reductions of a column, whose float results depend on the
    library's order of summation. Each may raise. *)
Record pandas : Type := {
  read_csv : string -> result DataFrame;
  to_datetime_date : Series -> result Series;
  Series_mean : Series -> result value;
  Series_min : Series -> result value;
  Series_max : Series -> result value;
  Series_sum : Series -> result value
}.

(** ** load_noaa_weather_data *)

Definition column_mapping : list (string * string) :=
  [("TMAX", "temp_max"); ("TMIN", "temp_min"); ("PRCP", "precipitation");
   ("AWND", "wind_speed"); ("SNOW", "snow"); ("SNWD", "snow_depth")].

(** One turn of [for old_col, new_col in column_mapping.items()]. *)
Definition copy_column (df : DataFrame) (item : string * string)
  : result DataFrame :=
  let '(old_col, new_col) := item in
  if contains old_col (columns df) then
    s ← getitem df old_col; Ok (setitem df new_col s)
  else Ok df.

Fixpoint for_each {A B} (body : A -> B -> result A) (items : list B) (a : A)
  : result A :=
  match items with
  | [] => Ok a
  | item :: items' => a' ← body a item; for_each body items' a'
  end.

(** The two [if] statements that derive a column. *)
Definition add_temp_avg (df : DataFrame) : result DataFrame :=
  if contains "temp_max" (columns df) && contains "temp_min" (columns df) then
    temp_max ← getitem df "temp_max";
    temp_min ← getitem df "temp_min";
    total ← series_add temp_max temp_min;
    temp_avg ← series_truediv total 2;
    Ok (setitem df "temp_avg" temp_avg)
  else Ok df.

Definition add_is_rainy (df : DataFrame) : result DataFrame :=
  if contains "precipitation" (columns df) then
    precipitation ← getitem df "precipitation";
    is_rainy ← series_gt precipitation 0;
    Ok (setitem df "is_rainy" (VBool <$> is_rainy))
  else Ok df.

(** The frame is created by [read_csv] inside the call and nothing else
    refers to it before it is returned, so its updates in place are
    written as successive values of [df]. *)
Definition load_noaa_weather_data (pd : pandas) (file_path : string)
  : result DataFrame :=
  df ← read_csv pd file_path;
  DATE ← getitem df "DATE";
  date ← to_datetime_date pd DATE;
  let df := setitem df "date" date in
  df ← for_each copy_column column_mapping df;
  df ← add_temp_avg df;
  df ← add_is_rainy df;
  Ok df.

(** ** get_weather_summary *)

(** A value of the summary dict: a scalar, or the dict of counts. *)
Inductive metric : Type :=
| Scalar (v : value)
| Counts (d : list (value * Z)).

(** [d[k] = v] on a dict in insertion order. *)
Fixpoint dict_set {V} (d : list (string * V)) (k : string) (v : V)
  : list (string * V) :=
  match d with
  | [] => [(k, v)]
  | (k0, v0) :: d' =>
      if String.eqb k0 k then (k0, v) :: d' else (k0, v0) :: dict_set d' k v
  end.

Fixpoint dict_get {V} (d : list (string * V)) (k : string) : option V :=
  match d with
  | [] => None
  | (k0, v0) :: d' => if String.eqb k0 k then Some v0 else dict_get d' k
  end.

(** A missing cell: [None] or NaN. *)
Definition is_null (v : value) : bool :=
  match v with
  | VNone => true
  | VFloat x => PrimFloat.is_nan x
  | _ => false
  end.

Definition hashable (v : value) : bool :=
  match v with
  | VList _ | VDict _ => false
  | _ => true
  end.

(** The integer a float denotes, when it denotes one. *)
Definition float_to_Z (x : float) : option Z :=
  match Prim2SF x with
  | S754_zero _ => Some 0
  | S754_finite s m e =>
      let n := if s then Z.neg m else Z.pos m in
      if 0 <=? e then Some (n * 2 ^ e)
      else if n mod 2 ^ (- e) =? 0 then Some (n / 2 ^ (- e)) else None
  | _ => None
  end.

Definition int_eq_float (n : Z) (x : float) : bool :=
  match float_to_Z x with
  | Some m => n =? m
  | None => false
  end.

(** [a == b] on hashable cells: numbers compare by value across int, bool
    and float; a string, a date or [None] equals only its like. *)
Definition py_eq (a b : value) : bool :=
  match a, b with
  | VNone, VNone => true
  | VStr s, VStr t => String.eqb s t
  | VDate d, VDate e => d =? e
  | VFloat x, VFloat y => PrimFloat.eqb x y
  | VFloat x, VInt n | VInt n, VFloat x => int_eq_float n x
  | VFloat x, VBool c | VBool c, VFloat x => int_eq_float (Z.b2z c) x
  | VInt m, VInt n => m =? n
  | VInt m, VBool c | VBool c, VInt m => m =? Z.b2z c
  | VBool c, VBool d => Bool.eqb c d
  | _, _ => false
  end.

(** One more occurrence of [v] in the counts. *)
Fixpoint count_one (d : list (value * Z)) (v : value) : list (value * Z) :=
  match d with
  | [] => [(v, 1)]
  | (k, n) :: d' => if py_eq k v then (k, n + 1) :: d' else (k, n) :: count_one d' v
  end.

(** [s.value_counts().to_dict()]: the occurrences of each value, missing
    cells dropped; a cell that cannot be hashed is a [TypeError]. The
    result is a dict, read by key: the order of its items (by falling
    count in pandas) is not part of it. *)
Definition value_counts (s : Series) : result (list (value * Z)) :=
  let present := List.filter (fun v => negb (is_null v)) s in
  if forallb hashable present then Ok (fold_left count_one present [])
  else Raise TypeError.

(** [mask.sum()] on the boolean column a comparison returns. *)
Definition count_true (mask : list bool) : Z :=
  Z.of_nat (length (List.filter id mask)).

(** The three [if] statements of the body, each on the dict so far. *)
Definition temperature_metrics (pd : pandas) (weather_df : DataFrame)
  (summary : list (string * metric)) : result (list (string * metric)) :=
  if contains "temp_avg" (columns weather_df) then
    temp_avg ← getitem weather_df "temp_avg";
    avg ← Series_mean pd temp_avg;
    let summary := dict_set summary "avg_temp" (Scalar avg) in
    temp_avg ← getitem weather_df "temp_avg";
    lo ← Series_min pd temp_avg;
    let summary := dict_set summary "min_temp" (Scalar lo) in
    temp_avg ← getitem weather_df "temp_avg";
    hi ← Series_max pd temp_avg;
    Ok (dict_set summary "max_temp" (Scalar hi))
  else Ok summary.

Definition precipitation_metrics (pd : pandas) (weather_df : DataFrame)
  (summary : list (string * metric)) : result (list (string * metric)) :=
  if contains "precipitation" (columns weather_df) then
    precipitation ← getitem weather_df "precipitation";
    total ← Series_sum pd precipitation;
    let summary := dict_set summary "total_precip" (Scalar total) in
    precipitation ← getitem weather_df "precipitation";
    mask ← series_gt precipitation 0;
    Ok (dict_set summary "rainy_days" (Scalar (VInt (count_true mask))))
  else Ok summary.

Definition condition_metrics (weather_df : DataFrame)
  (summary : list (string * metric)) : result (list (string * metric)) :=
  if contains "weather_main" (columns weather_df) then
    weather_main ← getitem weather_df "weather_main";
    counts ← value_counts weather_main;
    Ok (dict_set summary "weather_distribution" (Counts counts))
  else Ok summary.

Definition get_weather_summary (pd : pandas) (weather_df : DataFrame)
  : result (list (string * metric)) :=
  let summary := [] in
  summary ← temperature_metrics pd weather_df summary;
  summary ← precipitation_metrics pd weather_df summary;
  summary ← condition_metrics weather_df summary;
  Ok summary.

(** ** fetch_historical_weather *)

(** A naive [datetime]: the proleptic ordinal of its day and the
    microsecond within the day. *)
Record datetime : Type := { ordinal : Z; microsecond : Z }.

(** [a <= b] *)
Definition datetime_le (a b : datetime) : bool :=
  (ordinal a <? ordinal b) ||
  ((ordinal a =? ordinal b) && (microsecond a <=? microsecond b)).

(** [date.max.toordinal()], 31 December 9999. *)
Definition MAXORDINAL : Z := 3652059.

(** [d + timedelta(days=1)] *)
Definition add_day (d : datetime) : result datetime :=
  if MAXORDINAL <? ordinal d + 1 then Raise OverflowError
  else Ok {| ordinal := ordinal d + 1; microsecond := microsecond d |}.

Definition DC_LAT : float := 38.9072%float.
Definition DC_LON : float := (-77.0369)%float.

(** The [params] of one request. *)
Record request : Type := {
  lat : float; lon : float; dt : Z; appid : string; units : string
}.

(** What [requests.get] hands back: a status and the outcome of
    [response.json()]. *)
Record response : Type := { status_code : Z; json : result value }.

(** [requests.get] returns a response or raises. *)
Inductive http_outcome : Type :=
| Replied (r : response)
| Failed (e : exn).

(** What surrounds a run: the key of the process environment, the local
    time zone behind [int(time.mktime(d.timetuple()))], taken on the dates
    it accepts, and the remote service, which answers the [n]-th request
    of the run as it sees fit. *)
Record environment : Type := {
  API_KEY : option string;
  mktime : datetime -> Z;
  server : nat -> request -> http_outcome
}.

(** The lines written to the console. *)
Inductive message : Type :=
| Fetching (start_day end_day : Z)
| Fetched (day : Z)
| RateLimited
| StatusError (status : Z) (day : Z)
| FetchError (current_date : datetime) (e : exn)
| Summary (rows : nat).

(** The effects of a run, in order. *)
Inductive event : Type :=
| Get (params : request)
| Sleep (seconds : Z)
| Print (line : message).

Fixpoint requests_made (trace : list event) : nat :=
  match trace with
  | [] => O
  | Get _ :: trace' => S (requests_made trace')
  | _ :: trace' => requests_made trace'
  end.

(** A record of the collection, one dict per fetched day. *)
Abbreviation record := (list (string * value)).

(** The local variables of the loop and the effects so far. *)
Record fetch_state : Type := {
  weather_data : list record;
  current_date : datetime;
  trace : list event
}.

Definition log (e : event) (st : fetch_state) : fetch_state :=
  {| weather_data := weather_data st;
     current_date := current_date st;
     trace := trace st ++ [e] |}.

Definition print (line : message) : M fetch_state unit :=
  fun st => (Ok (), log (Print line) st).

Definition sleep (seconds : Z) : M fetch_state unit :=
  fun st => (Ok (), log (Sleep seconds) st).

Definition raise {A} (e : exn) : M fetch_state A := fun st => (Raise e, st).

Definition requests_get (env : environment) (params : request)
  : M fetch_state response :=
  fun st =>
    match server env (requests_made (trace st)) params with
    | Replied r => (Ok r, log (Get params) st)
    | Failed e => (Raise e, log (Get params) st)
    end.

(** [weather_data.append(row)] *)
Definition append (row : record) : M fetch_state unit :=
  fun st =>
    (Ok (), {| weather_data := weather_data st ++ [row];
               current_date := current_date st;
               trace := trace st |}).

Definition set_current_date (d : datetime) (st : fetch_state) : fetch_state :=
  {| weather_data := weather_data st; current_date := d; trace := trace st |}.

(** [v[k]] for a string key. *)
Definition subscript (v : value) (k : string) : result value :=
  match v with
  | VDict items =>
      match dict_get items k with
      | Some x => Ok x
      | None => Raise (KeyError k)
      end
  | _ => Raise TypeError
  end.

(** [v[0]] *)
Definition subscript0 (v : value) : result value :=
  match v with
  | VList (x :: _) => Ok x
  | VList [] => Raise IndexError
  | VStr (String c _) => Ok (VStr (String c EmptyString))
  | VStr EmptyString => Raise IndexError
  | VDict _ => Raise (KeyError "0")
  | _ => Raise TypeError
  end.

(** The dict appended for a day, its items evaluated in order. *)
Definition observation (current_date : datetime) (daily_data : value)
  : result record :=
  temp ← subscript daily_data "temp";
  feels_like ← subscript daily_data "feels_like";
  humidity ← subscript daily_data "humidity";
  clouds ← subscript daily_data "clouds";
  wind_speed ← subscript daily_data "wind_speed";
  weather ← subscript daily_data "weather";
  first ← subscript0 weather;
  weather_main ← subscript first "main";
  weather ← subscript daily_data "weather";
  first ← subscript0 weather;
  weather_desc ← subscript first "description";
  Ok [("date", VDate (ordinal current_date)); ("temp", temp);
      ("feels_like", feels_like); ("humidity", humidity);
      ("clouds", clouds); ("wind_speed", wind_speed);
      ("weather_main", weather_main); ("weather_desc", weather_desc)].

(** How an iteration of the [while] ends: at [continue], or at the end of
    the [try] statement. *)
Inductive flow : Type := Continue | FallThrough.

(** The [params] dict for a day. *)
Definition params_for (env : environment) (api_key : string)
  (current_date : datetime) : request :=
  let timestamp := mktime env current_date in
  {| lat := DC_LAT; lon := DC_LON; dt := timestamp;
     appid := api_key; units := "imperial" |}.

(** What [requests.get] will meet in a state, and the state once the
    request is sent. *)
Definition answer (env : environment) (api_key : string) (st : fetch_state)
  : http_outcome :=
  server env (requests_made (trace st)) (params_for env api_key (current_date st)).

Definition requested (env : environment) (api_key : string) (st : fetch_state)
  : fetch_state :=
  log (Get (params_for env api_key (current_date st))) st.

(** The [try] statement of the loop body. *)
Definition try_request (env : environment) (api_key : string)
  : M fetch_state flow :=
  fun st =>
  let current_date := current_date st in
  let params := params_for env api_key current_date in
  try_except
    (response ← requests_get env params;
     k ← (if status_code response =? 200 then
            data ← lift (json response);
            daily_data ← lift (subscript data "current");
            row ← lift (observation current_date daily_data);
            append row;;
            print (Fetched (ordinal current_date));;
            mret FallThrough
          else if status_code response =? 401 then
            raise (ValueError "Invalid API key")
          else if status_code response =? 429 then
            print RateLimited;;
            sleep 60;;
            mret Continue
          else
            print (StatusError (status_code response) (ordinal current_date));;
            mret FallThrough);
     match k with
     | Continue => mret Continue
     | FallThrough => sleep 1;; mret FallThrough
     end)
    (fun e => print (FetchError current_date e);; mret FallThrough)
    st.

(** [while current_date <= end_date]: the loop runs as long as the service
    keeps answering 429, so a run is given a number of iterations it may
    take and [None] is a run that needs more. *)
Fixpoint while_loop (env : environment) (api_key : string) (end_date : datetime)
  (fuel : nat) (st : fetch_state) : option (result unit * fetch_state) :=
  if datetime_le (current_date st) end_date then
    match fuel with
    | O => None
    | S fuel' =>
        match try_request env api_key st with
        | (Ok Continue, st') => while_loop env api_key end_date fuel' st'
        | (Ok FallThrough, st') =>
            match add_day (current_date st') with
            | Ok d =>
                while_loop env api_key end_date fuel' (set_current_date d st')
            | Raise e => Some (Raise e, st')
            end
        | (Raise e, st') => Some (Raise e, st')
        end
    end
  else Some (Ok (), st).

(** [pd.DataFrame(records)]: a column per key of the records, in the order
    of the keys, and no column at all for an empty list. The cells are
    those of the records; the common type pandas then gives a column (an
    int next to a float becomes that float, [None] next to numbers
    becomes NaN) is left out, and what is proved of a fetched table
    concerns its labels, their order, its rows and its dates, which that
    conversion leaves alone. *)
Definition DataFrame_of_records (records : list record) : DataFrame :=
  match records with
  | [] => []
  | first :: _ =>
      (fun k => (k, (fun r => default (VFloat nan) (dict_get r k)) <$> records))
        <$> first.*1
  end.

(** [if api_key is None: api_key = API_KEY] *)
Definition default_key (env : environment) (api_key : option string)
  : option string :=
  match api_key with
  | None => API_KEY env
  | Some k => Some k
  end.

(** The call: what it returns or raises, and the effects it had. *)
Definition fetch_historical_weather (env : environment) (fuel : nat)
  (start_date end_date : datetime) (api_key : option string)
  : option (result DataFrame * list event) :=
  let api_key := default_key env api_key in
  match api_key with
  | None | Some EmptyString =>
      Some (Raise (ValueError "API key not found. Set OPENWEATHER_API_KEY in .env file"), [])
  | Some key =>
      let st := {| weather_data := [];
                   current_date := start_date;
                   trace := [Print (Fetching (ordinal start_date) (ordinal end_date))] |} in
      match while_loop env key end_date fuel st with
      | None => None
      | Some (Raise e, st') => Some (Raise e, trace st')
      | Some (Ok _, st') =>
          let df := DataFrame_of_records (weather_data st') in
          Some (Ok df, trace st' ++ [Print (Summary (length (weather_data st')))])
      end
  end.

(** ** The specification's wording *)

(** [v >= k] for an int literal [k], the lower bound of a band. *)
Definition py_ge (v : value) (k : Z) : result bool :=
  match v with
  | VFloat x => Ok (PrimFloat.leb (float_of_int k) x)
  | VInt n => Ok (k <=? n)
  | VBool b => Ok (k <=? Z.b2z b)
  | _ => Raise TypeError
  end.

(** The cells a temperature column is made of. *)
Definition is_number (v : value) : bool :=
  match v with
  | VFloat _ | VInt _ | VBool _ => true
  | _ => false
  end.


(** The temperature bands, lower bounds inclusive, for a cell [t] of
    [temp_avg] and the label [c] of its row. *)
Definition in_band (t : value) (c : string) : Prop :=
  (py_lt t 32 = Ok true -> c = "Freezing") /\
  (py_ge t 32 = Ok true -> py_lt t 50 = Ok true -> c = "Cold") /\
  (py_ge t 50 = Ok true -> py_lt t 70 = Ok true -> c = "Mild") /\
  (py_ge t 70 = Ok true -> py_lt t 85 = Ok true -> c = "Warm") /\
  (py_ge t 85 = Ok true -> c = "Hot").

Definition labelled_by_band (temp_avg temp_category : Series) : Prop :=
  length temp_category = length temp_avg /\
  forall i t, temp_avg !! i = Some t ->
    exists c, temp_category !! i = Some (VStr c) /\ in_band t c.

(** The condition flags of a row, by exact membership of its
    [weather_main]. *)
Definition flags_of (v : value) (is_clear is_rainy is_snowy : bool) : Prop :=
  (is_clear = true <-> v = VStr "Clear") /\
  (is_rainy = true <->
     v = VStr "Rain" \/ v = VStr "Drizzle" \/ v = VStr "Thunderstorm") /\
  (is_snowy = true <-> v = VStr "Snow" \/ v = VStr "Sleet").

Definition flagged_by_condition (weather_main is_clear is_rainy is_snowy : Series)
  : Prop :=
  length is_clear = length weather_main /\
  length is_rainy = length weather_main /\
  length is_snowy = length weather_main /\
  forall i v, weather_main !! i = Some v ->
    exists c r s,
      is_clear !! i = Some (VBool c) /\
      is_rainy !! i = Some (VBool r) /\
      is_snowy !! i = Some (VBool s) /\
      flags_of v c r s.

(** Every cell of a [temp_avg] column, when the table has one, is a
    number. *)
Definition temp_avg_numeric (df : DataFrame) : Prop :=
  forall temp_avg, getitem df "temp_avg" = Ok temp_avg ->
                   Forall (fun v => is_number v = true) temp_avg.

(** The source column copied to [c], if [c] is a canonical name. *)
Fixpoint source_of (mapping : list (string * string)) (c : string)
  : option string :=
  match mapping with
  | [] => None
  | (old_col, new_col) :: mapping' =>
      if String.eqb new_col c then Some old_col else source_of mapping' c
  end.

(** [temp_avg] is the mean of [temp_max] and [temp_min], row by row. *)
Definition row_means (temp_max temp_min temp_avg : Series) : Prop :=
  forall i a b, temp_max !! i = Some a -> temp_min !! i = Some b ->
    exists total mean,
      py_add a b = Ok total /\ py_truediv total 2 = Ok mean /\
      temp_avg !! i = Some mean.

(** [is_rainy] tells, row by row, whether [precipitation] is above 0. *)
Definition row_rainy (precipitation is_rainy : Series) : Prop :=
  forall i v, precipitation !! i = Some v ->
    exists wet, py_gt v 0 = Ok wet /\ is_rainy !! i = Some (VBool wet).

(** The keys of the summary: those whose column the table has. *)
Definition summary_keys (df : DataFrame) : list string :=
  (if contains "temp_avg" (columns df)
   then ["avg_temp"; "min_temp"; "max_temp"] else []) ++
  (if contains "precipitation" (columns df)
   then ["total_precip"; "rainy_days"] else []) ++
  (if contains "weather_main" (columns df)
   then ["weather_distribution"] else []).

(** The rows of a column that hold the string [s], and the count a dict of
    counts gives for a value. *)
Definition occurrences (s : string) (col : Series) : Z :=
  Z.of_nat (length (List.filter (fun v => py_eq_str v s) col)).

Fixpoint counts_get (d : list (value * Z)) (v : value) : option Z :=
  match d with
  | [] => None
  | (k, n) :: d' => if py_eq k v then Some n else counts_get d' v
  end.

(** The rows of a mask that are true, through the comparison that gave it. *)
Definition rows_above (precipitation : Series) (k : Z) : Z :=
  Z.of_nat (length (List.filter (fun v => match py_gt v k with
                                          | Ok true => true
                                          | _ => false
                                          end) precipitation)).

(** A frame as pandas builds it: its labels are unique and its columns
    have one length, the number of rows. *)
Definition rectangular (n : nat) (df : DataFrame) : Prop :=
  Forall (fun col => length col.2 = n) df.

Definition well_formed (df : DataFrame) : Prop :=
  NoDup (columns df) /\ exists n, rectangular n df.

(** ** Sample inputs *)

Definition sample_temps : Series :=
  [VFloat 20; VFloat 40; VFloat 60; VFloat 80; VFloat 90;
   VFloat 32; VInt 50; VFloat 70; VInt 85].

Definition sample_conditions : Series :=
  [VStr "Clear"; VStr "Rain"; VStr "Snow"; VStr "Mist"; VStr "Drizzle";
   VStr "Thunderstorm"; VStr "Sleet"; VStr "clear"; VNone].

Definition sample_frame : DataFrame :=
  [("temp_avg", sample_temps);
   ("weather_main", sample_conditions);
   ("is_rainy", [VBool true; VBool true; VBool true; VBool true; VBool true;
                 VBool true; VBool true; VBool true; VBool true])].

Definition sample_store : store := {[ 1%positive := sample_frame ]}.

(** pandas over one station file: the reader returns the file, every row
    parses to the same date, and the reductions are not looked at. *)
Definition sample_pandas (file : DataFrame) : pandas :=
  {| read_csv := fun _ => Ok file;
     to_datetime_date := fun s => Ok ((fun _ => VDate 738886) <$> s);
     Series_mean := fun _ => Ok (VFloat 0);
     Series_min := fun _ => Ok (VFloat 0);
     Series_max := fun _ => Ok (VFloat 0);
     Series_sum := fun _ => Ok (VFloat 0) |}.

(** Station files: one with the columns DATE and TMAX only, one that also
    has a column under the canonical name temp_min, one that has columns
    named temp_avg and is_rainy and no measurement, and a usual one. *)
Definition tmax_only : DataFrame :=
  [("DATE", [VStr "2024-01-01"; VStr "2024-01-02"]);
   ("TMAX", [VInt 45; VInt 50])].

Definition tmax_and_temp_min : DataFrame :=
  [("DATE", [VStr "2024-01-01"; VStr "2024-01-02"]);
   ("TMAX", [VInt 45; VInt 50]);
   ("temp_min", [VInt 30; VInt 31])].

Definition with_own_derived : DataFrame :=
  [("DATE", [VStr "2024-01-01"; VStr "2024-01-02"]);
   ("temp_avg", [VFloat 37.5; VFloat 40]);
   ("is_rainy", [VBool false; VBool true])].

Definition station_file : DataFrame :=
  [("DATE", [VStr "2024-01-01"; VStr "2024-01-02"]);
   ("TMAX", [VInt 45; VInt 50]);
   ("TMIN", [VFloat 30; VFloat 31.5]);
   ("PRCP", [VFloat 0; VFloat 0.25])].

(** A merged table, and reductions that stand for those of pandas. *)
Definition summary_pandas : pandas :=
  {| read_csv := fun _ => Raise ParserError;
     to_datetime_date := fun _ => Raise (ValueError "no dates");
     Series_mean := fun s => Ok (VStr "mean");
     Series_min := fun s => Ok (VStr "min");
     Series_max := fun s => Ok (VStr "max");
     Series_sum := fun s => Ok (VStr "sum") |}.

Definition merged_frame : DataFrame :=
  [("temp_avg", [VFloat 37.5; VFloat 40.75; VFloat 61]);
   ("precipitation", [VFloat 0; VFloat 0.25; VFloat 1.5]);
   ("weather_main", [VStr "Rain"; VStr "Clear"; VStr "Rain"])].

(** A service that rejects the key on the first request of a run, answers
    429 to the second, and serves every later one. *)
Definition clear_day : value :=
  VDict [("current",
          VDict [("temp", VFloat 41.5); ("feels_like", VFloat 38);
                 ("humidity", VInt 60); ("clouds", VInt 20);
                 ("wind_speed", VFloat 5.5);
                 ("weather",
                  VList [VDict [("main", VStr "Clear");
                                ("description", VStr "clear sky")]])])].

Definition moody_server (n : nat) (params : request) : http_outcome :=
  match n with
  | O => Replied {| status_code := 401; json := Raise JSONDecodeError |}
  | 1%nat => Replied {| status_code := 429; json := Raise JSONDecodeError |}
  | _ => Replied {| status_code := 200; json := Ok clear_day |}
  end.

Definition sample_env : environment :=
  {| API_KEY := Some "secret";
     mktime := fun d => (ordinal d - 719163) * 86400;
     server := moody_server |}.

Definition midnight (day : Z) : datetime :=
  {| ordinal := day; microsecond := 0 |}.


(** ** Runs of the collector *)

(** The requests among the effects of a run, in order. *)
Fixpoint requests_of (trace : list event) : list request :=
  match trace with
  | [] => []
  | Get params :: trace' => params :: requests_of trace'
  | _ :: trace' => requests_of trace'
  end.

(** The keys of the dict appended for a day. *)
Definition record_keys : list string :=
  ["date"; "temp"; "feels_like"; "humidity"; "clouds"; "wind_speed";
   "weather_main"; "weather_desc"].

(** The day after [d], at the same time of day, and the [n] dates from [d]
    on. *)
Definition next_day (d : datetime) : datetime :=
  {| ordinal := ordinal d + 1; microsecond := microsecond d |}.

Fixpoint days_from (d : datetime) (n : nat) : list datetime :=
  match n with
  | O => []
  | S n' => d :: days_from (next_day d) n'
  end.

(** The number of dates [start_date], [start_date + 1 day], ... that are
    [<= end_date]. *)
Definition days_in_range (start_date end_date : datetime) : nat :=
  if datetime_le start_date end_date then
    Z.to_nat (ordinal end_date - ordinal start_date +
              (if microsecond start_date <=? microsecond end_date then 1 else 0))
  else O.

(** A service that never answers 429, and one that always does. *)
Definition never_limited (env : environment) : Prop :=
  forall n params r, server env n params = Replied r -> status_code r <> 429.

Definition always_limited (env : environment) : Prop :=
  forall n params, exists r,
    server env n params = Replied r /\ status_code r = 429.

(** The days of a date column, earliest first and none twice, and the
    dates of a list of requests, none before an earlier one. *)
Fixpoint increasing (days : list Z) : Prop :=
  match days with
  | [] => True
  | d :: days' => Forall (fun d' => d < d') days' /\ increasing days'
  end.

Fixpoint in_order (dates : list datetime) : Prop :=
  match dates with
  | [] => True
  | d :: dates' =>
      Forall (fun d' => ordinal d <= ordinal d') dates' /\ in_order dates'
  end.

(** A date of the loop over a range: [start_date] a whole number of days
    later, and [<= end_date]. *)
Definition in_range (start_date end_date d : datetime) : Prop :=
  microsecond d = microsecond start_date /\
  ordinal start_date <= ordinal d /\
  datetime_le d end_date = true.

(** What the loop keeps true of the rows, with [start_date] the date it
    began with: every row has the eight keys, and the dates of the rows
    increase, within the range and before the current date. *)
Definition rows_in_order (start_date end_date : datetime) (st : fetch_state)
  : Prop :=
  Forall (fun row : record => row.*1 = record_keys) (weather_data st) /\
  exists days,
    (fun row : record => dict_get row "date") <$> weather_data st
      = (fun d => Some (VDate d)) <$> days /\
    increasing days /\
    Forall (fun d => ordinal start_date <= d <= ordinal end_date /\
                     d < ordinal (current_date st)) days.


(** The state the loop starts in, and what it keeps true of the requests
    sent so far: they are those of dates of the range, in order, none
    later than the current date. *)
Definition initial_state (start_date end_date : datetime) : fetch_state :=
  {| weather_data := [];
     current_date := start_date;
     trace := [Print (Fetching (ordinal start_date) (ordinal end_date))] |}.

Definition requests_in_order (env : environment) (api_key : string)
  (start_date end_date : datetime) (st : fetch_state) : Prop :=
  microsecond (current_date st) = microsecond start_date /\
  ordinal start_date <= ordinal (current_date st) /\
  exists dates,
    requests_of (trace st) = params_for env api_key <$> dates /\
    in_order dates /\
    Forall (in_range start_date end_date) dates /\
    Forall (fun d => ordinal d <= ordinal (current_date st)) dates.

(** A service that answers every request with the weather of a day: a
    status 200 and a body that has the keys the loop reads. *)
Definition serves_every_day (env : environment) : Prop :=
  forall n params, exists r data daily,
    server env n params = Replied r /\ status_code r = 200 /\
    json r = Ok data /\ subscript data "current" = Ok daily /\
    forall d, is_Ok (observation d daily).

(** Sample services: one that serves every request, with no key in the
    environment, and one that answers 429 to every request. *)
Definition steady_env : environment :=
  {| API_KEY := None;
     mktime := fun d => (ordinal d - 719163) * 86400;
     server := fun _ _ => Replied {| status_code := 200; json := Ok clear_day |} |}.

Definition busy_env : environment :=
  {| API_KEY := Some "secret";
     mktime := fun d => (ordinal d - 719163) * 86400;
     server := fun _ _ =>
       Replied {| status_code := 429; json := Raise JSONDecodeError |} |}.

(** ** fetch_current_weather *)

Module Current.

(** The [params] of the request: those of the collector without [dt]. *)
Record params : Type := {
  lat : float; lon : float; appid : string; units : string
}.

(** What the call raises: an exception of the kinds above, from the key
    check, [requests.get] or [response.json()], or the plain
    [Exception(f"Error fetching weather: {response.status_code}")]. *)
Inductive raised : Type :=
| Builtin (e : exn)
| ErrorFetchingWeather (status_code : Z).

Inductive outcome : Type :=
| Returns (v : value)
| Raises (e : raised).

Definition params_for (api_key : string) : params :=
  {| lat := DC_LAT; lon := DC_LON; appid := api_key; units := "imperial" |}.

End Current.

(** The call, against the service behind the current-weather URL: what it
    returns or raises, and the requests it sent. The key of the
    environment is the one the collector falls back to. *)
Definition fetch_current_weather (env : environment)
  (service : Current.params -> http_outcome) (api_key : option string)
  : Current.outcome * list Current.params :=
  let api_key := default_key env api_key in
  match api_key with
  | None | Some EmptyString =>
      (Current.Raises (Current.Builtin (ValueError "API key not found")), [])
  | Some key =>
      let params := Current.params_for key in
      match service params with
      | Failed e => (Current.Raises (Current.Builtin e), [params])
      | Replied response =>
          if status_code response =? 200 then
            match json response with
            | Ok v => (Current.Returns v, [params])
            | Raise e => (Current.Raises (Current.Builtin e), [params])
            end
          else
            (Current.Raises (Current.ErrorFetchingWeather (status_code response)),
             [params])
      end
  end.

(** Sample services for the current weather: one that serves, one that
    answers 429. *)
Definition current_clear (p : Current.params) : http_outcome :=
  Replied {| status_code := 200; json := Ok clear_day |}.

Definition current_busy (p : Current.params) : http_outcome :=
  Replied {| status_code := 429; json := Raise JSONDecodeError |}.

(** ** Tables that grow *)

(** The labels [load_noaa_weather_data] writes, and those
    [create_weather_categories] writes. *)
Definition loader_columns : list string :=
  ["date"; "temp_max"; "temp_min"; "precipitation"; "wind_speed"; "snow";
   "snow_depth"; "temp_avg"; "is_rainy"].

Definition category_columns : list string :=
  ["temp_category"; "is_clear"; "is_rainy"; "is_snowy"].

(** [df'] has the columns of [df], in their order, then new ones with
    labels among [names]. *)
Definition extends_by (names : list string) (df df' : DataFrame) : Prop :=
  exists added,
    columns df' = columns df ++ added /\
    Forall (fun c => In c names) added.

(** ** The bands, read both ways *)

(** The label [c] of a temperature cell [t], as the tests of
    [categorize_temp] decide it: each label stands for its band and for
    nothing else, but for [Hot], which a cell that compares with nothing,
    NaN, receives as well. *)
Definition band_of (t : value) (c : string) : Prop :=
  (c = "Freezing" <-> py_lt t 32 = Ok true) /\
  (c = "Cold" <-> py_ge t 32 = Ok true /\ py_lt t 50 = Ok true) /\
  (c = "Mild" <-> py_ge t 50 = Ok true /\ py_lt t 70 = Ok true) /\
  (c = "Warm" <-> py_ge t 70 = Ok true /\ py_lt t 85 = Ok true) /\
  (c = "Hot" <-> py_ge t 85 = Ok true \/ is_null t = true).

(** A table whose temperatures cannot all be compared. *)
Definition unreadable_frame : DataFrame :=
  [("temp_avg", [VFloat 20; VStr "n/a"]);
   ("weather_main", [VStr "Clear"; VStr "Rain"])].

(** ** Counts *)

(** The rows a dict of counts accounts for. *)
Definition counted (counts : list (value * Z)) : Z :=
  fold_right (fun item total => item.2 + total) 0 counts.

(** The rows of a column that hold a value, the others being missing. *)
Definition present (col : Series) : list value :=
  List.filter (fun v => negb (is_null v)) col.

(** A table whose precipitation has a trace mark among the numbers. *)
Definition trace_precipitation : DataFrame :=
  [("precipitation", [VFloat 0; VStr "T"; VFloat 0.5])].

(** * Properties *)

(** ** Numbers and cells *)

(** The order of binary64 values: [x < a <= b <= x] is impossible. *)
Lemma SFcompare_chain x a b :
  SFltb x a = true -> SFleb a b = true -> SFleb b x = true -> False.
Proof.
  unfold SFltb, SFleb, SFcompare.
  destruct x as [sx|sx| |sx mx ex], a as [sa|sa| |sa ma ea],
           b as [sb|sb| |sb mb eb];
    try discriminate;
    repeat match goal with s : bool |- _ => destruct s end;
    try discriminate;
    change (PosDef.Pos.compare_cont Eq) with Pos.compare;
    repeat match goal with
    | |- context [ (?p ?= ?q)%Z ] => destruct (Z.compare_spec p q)
    | |- context [ (?p ?= ?q)%positive ] => destruct (Pos.compare_spec p q)
    end; simpl; try discriminate; intros; lia.
Qed.

Lemma float_lt_le_le x a b :
  PrimFloat.ltb x a = true -> PrimFloat.leb a b = true ->
  PrimFloat.leb b x = true -> False.
Proof. rewrite ltb_spec, !leb_spec. apply SFcompare_chain. Qed.

(** A cell at or above the literal [k2] is not below a literal [k1 <= k2]. *)
Lemma py_ge_not_lt v k1 k2 :
  k1 <= k2 ->
  PrimFloat.leb (float_of_int k1) (float_of_int k2) = true ->
  py_ge v k2 = Ok true -> py_lt v k1 = Ok false.
Proof.
  intros Hk Hf. destruct v as [|b|n|x| | | |]; simpl; try discriminate;
    intros [= H]; f_equal.
  - destruct b; simpl in *; lia.
  - lia.
  - destruct (PrimFloat.ltb x (float_of_int k1)) eqn:E; [|reflexivity].
    destruct (float_lt_le_le _ _ _ E Hf H).
Qed.

Lemma categorize_temp_number v :
  is_number v = true -> is_Ok (categorize_temp v).
Proof.
  unfold categorize_temp, is_Ok.
  destruct v; try discriminate; intros _; simpl;
    repeat match goal with
    | |- context [if ?b then _ else _] => destruct b; simpl
    end; eexists; reflexivity.
Qed.

Lemma categorize_temp_Ok_number v c :
  categorize_temp v = Ok c -> is_number v = true.
Proof. destruct v; try reflexivity; discriminate. Qed.

(** A cell that is no number in any band, NaN, falls through every test. *)
Example categorize_temp_nan : categorize_temp (VFloat nan) = Ok "Hot".
Proof. reflexivity. Qed.

(** The thresholds of [categorize_temp], lower bounds inclusive. *)
Lemma categorize_temp_thresholds v c :
  categorize_temp v = Ok c ->
  (py_lt v 32 = Ok true -> c = "Freezing") /\
  (py_ge v 32 = Ok true -> py_lt v 50 = Ok true -> c = "Cold") /\
  (py_ge v 50 = Ok true -> py_lt v 70 = Ok true -> c = "Mild") /\
  (py_ge v 70 = Ok true -> py_lt v 85 = Ok true -> c = "Warm") /\
  (py_ge v 85 = Ok true -> c = "Hot").
Proof.
  unfold categorize_temp. intros Hc.
  assert (L : forall k1 k2, (k1 <=? k2) = true ->
            PrimFloat.leb (float_of_int k1) (float_of_int k2) = true ->
            py_ge v k2 = Ok true -> py_lt v k1 = Ok false).
  { intros k1 k2 H1 H2. apply py_ge_not_lt; [lia | exact H2]. }
  repeat split; intros;
    repeat match goal with
    | H : py_ge v ?k2 = Ok true |- _ =>
        match goal with
        | _ : context [py_lt v ?k1] |- _ =>
            lazymatch goal with
            | _ : py_lt v k1 = _ |- _ => fail
            | _ => assert (py_lt v k1 = Ok false)
                     by (apply (L k1 k2); [reflexivity | reflexivity | exact H])
            end
        end
    end;
    repeat match goal with
    | H : py_lt v _ = _ |- _ => rewrite H in Hc; simpl in Hc
    end; congruence.
Qed.

Lemma traverse_lookup {A B} (f : A -> result B) l l' i a :
  traverse f l = Ok l' -> l !! i = Some a ->
  exists b, f a = Ok b /\ l' !! i = Some b.
Proof.
  revert l' i. induction l as [|x l IH]; intros l' i; simpl; [discriminate 2|].
  destruct (f x) as [b|e] eqn:Ex; simpl; [|discriminate].
  destruct (traverse f l) as [bs|e]; simpl; [|discriminate].
  intros [= <-]. destruct i as [|i]; simpl.
  - intros [= <-]. eauto.
  - intros Hi. exact (IH bs i eq_refl Hi).
Qed.

Lemma traverse_length {A B} (f : A -> result B) l l' :
  traverse f l = Ok l' -> length l' = length l.
Proof.
  revert l'. induction l as [|x l IH]; intros l'; simpl.
  - intros [= <-]. reflexivity.
  - destruct (f x); simpl; [|discriminate].
    destruct (traverse f l) as [bs|e]; simpl; [|discriminate].
    intros [= <-]. simpl. f_equal. apply IH. reflexivity.
Qed.

Lemma traverse_total {A B} (f : A -> result B) l :
  Forall (fun a => is_Ok (f a)) l -> is_Ok (traverse f l).
Proof.
  induction 1 as [|x l [b Hb] _ [bs Hbs]]; simpl.
  - eexists; reflexivity.
  - rewrite Hb, Hbs. eexists; reflexivity.
Qed.

Lemma traverse_Ok_inv {A B} (f : A -> result B) l l' :
  traverse f l = Ok l' -> Forall (fun a => is_Ok (f a)) l.
Proof.
  revert l'. induction l as [|x l IH]; intros l'; simpl; [constructor|].
  destruct (f x) as [b|e] eqn:Ex; simpl; [|discriminate].
  destruct (traverse f l) as [bs|e]; simpl; [|discriminate].
  intros _. constructor; [rewrite Ex; eexists; reflexivity | eapply IH; reflexivity].
Qed.

(** ** Tables *)

Lemma contains_getitem df c :
  contains c (columns df) = true <-> is_Ok (getitem df c).
Proof.
  induction df as [|[k s] df IH]; simpl.
  - split; [discriminate | intros [a Ha]; discriminate].
  - rewrite (String.eqb_sym c k). destruct (String.eqb k c); simpl.
    + split; [intros _; eexists; reflexivity | reflexivity].
    + exact IH.
Qed.

Lemma not_contains_getitem df c :
  contains c (columns df) = false -> getitem df c = Raise (KeyError c).
Proof.
  induction df as [|[k s] df IH]; simpl; [reflexivity|].
  rewrite (String.eqb_sym c k). destruct (String.eqb k c); simpl; [discriminate | exact IH].
Qed.

Lemma getitem_setitem_eq df c s : getitem (setitem df c s) c = Ok s.
Proof.
  induction df as [|[k s0] df IH]; simpl.
  - rewrite String.eqb_refl. reflexivity.
  - destruct (String.eqb k c) eqn:E; simpl; rewrite E; [reflexivity | exact IH].
Qed.

Lemma getitem_setitem_ne df c c' s :
  c <> c' -> getitem (setitem df c s) c' = getitem df c'.
Proof.
  intros Hne. induction df as [|[k s0] df IH]; simpl.
  - apply String.eqb_neq in Hne. rewrite Hne. reflexivity.
  - destruct (String.eqb k c) eqn:E; simpl.
    + apply String.eqb_eq in E. subst k.
      apply String.eqb_neq in Hne. rewrite Hne. reflexivity.
    + destruct (String.eqb k c'); [reflexivity | exact IH].
Qed.

(** Writing a column a second time with the same cells changes nothing. *)
Lemma setitem_getitem_id df c s : getitem df c = Ok s -> setitem df c s = df.
Proof.
  induction df as [|[k s0] df IH]; simpl; [discriminate|].
  destruct (String.eqb k c); [congruence|].
  intros H. rewrite (IH H). reflexivity.
Qed.

Lemma columns_setitem df c s :
  columns (setitem df c s) =
  if contains c (columns df) then columns df else columns df ++ [c].
Proof.
  unfold columns. induction df as [|[k s0] df IH]; cbn; [reflexivity|].
  rewrite (String.eqb_sym c k). destruct (String.eqb k c); cbn; [reflexivity|].
  rewrite IH. unfold contains. destruct (existsb _ _); reflexivity.
Qed.

Lemma contains_setitem df c c' s :
  contains c' (columns (setitem df c s)) =
  (String.eqb c' c || contains c' (columns df))%bool.
Proof.
  rewrite columns_setitem. unfold contains.
  destruct (existsb (String.eqb c) (columns df)) eqn:E.
  - destruct (String.eqb c' c) eqn:E'; [|reflexivity].
    apply String.eqb_eq in E'. subst. exact E.
  - rewrite existsb_app. simpl. rewrite orb_false_r. apply orb_comm.
Qed.

(** Frames stay well formed under [setitem]: labels unique, columns of
    one length. *)
Lemma not_contains_not_elem c (cols : list string) :
  contains c cols = false -> c ∉ cols.
Proof.
  unfold contains. induction cols as [|k cols IH]; cbn [existsb].
  - intros _. apply not_elem_of_nil.
  - intros H. apply orb_false_iff in H as [H1 H2].
    apply not_elem_of_cons. split; [|exact (IH H2)].
    apply String.eqb_neq. exact H1.
Qed.

Lemma setitem_NoDup df c s :
  NoDup (columns df) -> NoDup (columns (setitem df c s)).
Proof.
  intros H. rewrite columns_setitem.
  destruct (contains c (columns df)) eqn:E; [exact H|].
  apply NoDup_app. split; [exact H|]. split.
  - intros x Hx Hc. apply list_elem_of_singleton in Hc. subst x.
    exact (not_contains_not_elem _ _ E Hx).
  - apply NoDup_singleton.
Qed.

Lemma setitem_rectangular n df c s :
  rectangular n df -> length s = n -> rectangular n (setitem df c s).
Proof.
  unfold rectangular. intros H Hs.
  induction H as [|[k s0] df Hk Hdf IH]; cbn [setitem].
  - constructor; [exact Hs | constructor].
  - destruct (String.eqb k c); constructor; cbn [snd] in *; assumption.
Qed.

Lemma getitem_rectangular n df c s :
  rectangular n df -> getitem df c = Ok s -> length s = n.
Proof.
  unfold rectangular.
  induction 1 as [|[k s0] df Hk _ IH]; cbn [getitem]; [discriminate|].
  destruct (String.eqb k c); [intros [= <-]; exact Hk | exact IH].
Qed.

(** ** Objects in the store *)

Lemma fresh_ref_unused (h : store) : h !! fresh (dom h) = None.
Proof. apply not_elem_of_dom. apply is_fresh. Qed.

Lemma fresh_ref_ne (h : store) r df : h !! r = Some df -> fresh (dom h) <> r.
Proof. intros H E. rewrite <- E, fresh_ref_unused in H. discriminate. Qed.

Lemma bind_run {S A B} (m : M S A) (f : A -> M S B) (st : S) :
  (m ≫= f) st =
  match m st with
  | (Ok a, st') => f a st'
  | (Raise e, st') => (Raise e, st')
  end.
Proof. reflexivity. Qed.

Lemma copy_run (h : store) r df :
  h !! r = Some df -> copy r h = (Ok (fresh (dom h)), <[fresh (dom h) := df]> h).
Proof. intros H. unfold copy, deref, alloc. rewrite bind_run, H. reflexivity. Qed.

Lemma df_columns_run (h : store) r df :
  h !! r = Some df -> df_columns r h = (Ok (columns df), h).
Proof. intros H. unfold df_columns, deref. rewrite bind_run, H. reflexivity. Qed.

Lemma df_getitem_run (h : store) r df c :
  h !! r = Some df -> df_getitem r c h = (getitem df c, h).
Proof. intros H. unfold df_getitem, deref. rewrite bind_run, H. reflexivity. Qed.

Lemma df_setitem_run (h : store) r df c s :
  h !! r = Some df -> df_setitem r c s h = (Ok (), <[r := setitem df c s]> h).
Proof. intros H. unfold df_setitem, deref, assign. rewrite bind_run, H. reflexivity. Qed.

(** One statement of a [Py] computation on the object [r]. *)
Ltac py_step :=
  rewrite ?bind_run;
  first
    [ erewrite df_columns_run by (first [apply lookup_insert_eq | eassumption])
    | erewrite df_getitem_run by (first [apply lookup_insert_eq | eassumption])
    | erewrite df_setitem_run by (first [apply lookup_insert_eq | eassumption])
    | erewrite copy_run by eassumption ];
  cbv beta iota; rewrite ?insert_insert_eq.

Lemma lift_run {S A} (m : result A) (st : S) : lift m st = (m, st).
Proof. reflexivity. Qed.

Lemma add_temp_category_run (h : store) r df :
  h !! r = Some df ->
  add_temp_category r h =
  match getitem df "temp_avg" with
  | Ok temp_avg =>
      match categories_of temp_avg with
      | Ok cats => (Ok (), <[r := setitem df "temp_category" cats]> h)
      | Raise e => (Raise e, h)
      end
  | Raise _ => (Ok (), h)
  end.
Proof.
  intros Hr. unfold add_temp_category, categories_of. py_step.
  destruct (contains "temp_avg" (columns df)) eqn:E.
  - apply contains_getitem in E as [t Ht]. py_step. rewrite Ht.
    rewrite bind_run, lift_run.
    destruct (traverse _ t); [|reflexivity]. py_step. reflexivity.
  - rewrite (not_contains_getitem _ _ E). reflexivity.
Qed.

Lemma add_condition_flags_run (h : store) r df :
  h !! r = Some df ->
  add_condition_flags r h =
  match getitem df "weather_main" with
  | Ok weather_main => (Ok (), <[r := with_flags df weather_main]> h)
  | Raise _ => (Ok (), h)
  end.
Proof.
  intros Hr. unfold add_condition_flags, with_flags. py_step.
  destruct (contains "weather_main" (columns df)) eqn:E.
  - apply contains_getitem in E as [w Hw]. py_step. rewrite Hw.
    py_step. py_step. rewrite getitem_setitem_ne, Hw by discriminate.
    py_step. py_step. rewrite !getitem_setitem_ne, Hw by discriminate.
    py_step. reflexivity.
  - rewrite (not_contains_getitem _ _ E). reflexivity.
Qed.

(** [create_weather_categories] copies the frame behind its argument into a
    new object and leaves there the table [categorized] describes; when
    [categorize_temp] raises, the copy is still untouched. *)
Lemma create_weather_categories_run (h : store) r df :
  h !! r = Some df ->
  create_weather_categories r h =
  let r' := fresh (dom h) in
  match categorized df with
  | Ok df' => (Ok r', <[r' := df']> h)
  | Raise e => (Raise e, <[r' := df]> h)
  end.
Proof.
  intros Hr. unfold create_weather_categories, categorized.
  cbv zeta. set (r' := fresh (dom h)).
  py_step. fold r'. rewrite bind_run.
  rewrite (add_temp_category_run _ _ df) by apply lookup_insert_eq.
  destruct (getitem df "temp_avg") as [t|e] eqn:Et.
  - destruct (categories_of t) as [cats|e]; [|reflexivity].
    rewrite insert_insert_eq. cbn [mbind result_bind].
    rewrite bind_run, (add_condition_flags_run _ _ (setitem df "temp_category" cats))
      by apply lookup_insert_eq.
    destruct (getitem (setitem df "temp_category" cats) "weather_main");
      rewrite ?insert_insert_eq; reflexivity.
  - cbn [mbind result_bind].
    rewrite bind_run, (add_condition_flags_run _ _ df) by apply lookup_insert_eq.
    destruct (getitem df "weather_main"); rewrite ?insert_insert_eq; reflexivity.
Qed.

(** ** Properties of create_weather_categories *)

Lemma py_eq_str_true v s : py_eq_str v s = true <-> v = VStr s.
Proof.
  destruct v; simpl; try (split; [discriminate | intros [=]]).
  rewrite String.eqb_eq. split; [intros ->; reflexivity | intros [= ->]; reflexivity].
Qed.

Lemma getitem_with_flags df weather_main c :
  c <> "is_clear" -> c <> "is_rainy" -> c <> "is_snowy" ->
  getitem (with_flags df weather_main) c = getitem df c.
Proof.
  intros H1 H2 H3. unfold with_flags.
  rewrite !getitem_setitem_ne by congruence. reflexivity.
Qed.

(** The three flag columns of [with_flags], whatever stood there before. *)
Lemma with_flags_columns df weather_main :
  getitem (with_flags df weather_main) "is_clear" =
    Ok ((fun v => VBool (py_eq_str v "Clear")) <$> weather_main) /\
  getitem (with_flags df weather_main) "is_rainy" =
    Ok ((fun v => VBool (isin_cell ["Rain"; "Drizzle"; "Thunderstorm"] v))
          <$> weather_main) /\
  getitem (with_flags df weather_main) "is_snowy" =
    Ok ((fun v => VBool (isin_cell ["Snow"; "Sleet"] v)) <$> weather_main).
Proof.
  unfold with_flags. repeat split.
  - rewrite !getitem_setitem_ne by discriminate. apply getitem_setitem_eq.
  - rewrite getitem_setitem_ne by discriminate. apply getitem_setitem_eq.
  - apply getitem_setitem_eq.
Qed.

(** Writing the flags again over a table that carries them changes nothing. *)
Lemma with_flags_again df weather_main :
  with_flags (with_flags df weather_main) weather_main = with_flags df weather_main.
Proof.
  destruct (with_flags_columns df weather_main) as (Hc & Hr & Hs).
  set (d := with_flags df weather_main) in *.
  unfold with_flags at 1.
  rewrite (setitem_getitem_id d "is_clear") by exact Hc.
  rewrite (setitem_getitem_id d "is_rainy") by exact Hr.
  apply setitem_getitem_id. exact Hs.
Qed.

(** The frame [categorized] returns, case by case. *)
Lemma categorized_cases df :
  categorized df =
  match getitem df "temp_avg" with
  | Ok temp_avg =>
      match categories_of temp_avg with
      | Ok cats =>
          let df1 := setitem df "temp_category" cats in
          match getitem df "weather_main" with
          | Ok weather_main => Ok (with_flags df1 weather_main)
          | Raise _ => Ok df1
          end
      | Raise e => Raise e
      end
  | Raise _ =>
      match getitem df "weather_main" with
      | Ok weather_main => Ok (with_flags df weather_main)
      | Raise _ => Ok df
      end
  end.
Proof.
  unfold categorized.
  destruct (getitem df "temp_avg") as [t|]; simpl; [|reflexivity].
  destruct (categories_of t) as [cats|]; simpl; [|reflexivity].
  rewrite getitem_setitem_ne by discriminate. reflexivity.
Qed.

Lemma categorized_idempotent df df' :
  categorized df = Ok df' -> categorized df' = Ok df'.
Proof.
  rewrite categorized_cases. intros H. rewrite categorized_cases.
  destruct (getitem df "temp_avg") as [t|e] eqn:Et.
  - destruct (categories_of t) as [cats|] eqn:Ec; [|discriminate].
    cbv zeta in H.
    destruct (getitem df "weather_main") as [w|e] eqn:Ew; injection H as <-.
    + rewrite !getitem_with_flags by discriminate.
      rewrite !getitem_setitem_ne by discriminate.
      rewrite Et, Ec, Ew. cbv zeta.
      rewrite (setitem_getitem_id _ "temp_category" cats).
      * rewrite with_flags_again. reflexivity.
      * rewrite getitem_with_flags by discriminate. apply getitem_setitem_eq.
    + rewrite !getitem_setitem_ne by discriminate. rewrite Et, Ec, Ew. cbv zeta.
      rewrite (setitem_getitem_id _ "temp_category" cats) by apply getitem_setitem_eq.
      reflexivity.
  - destruct (getitem df "weather_main") as [w|e'] eqn:Ew; injection H as <-.
    + rewrite !getitem_with_flags by discriminate. rewrite Et, Ew.
      rewrite with_flags_again. reflexivity.
    + rewrite Et, Ew. reflexivity.
Qed.

Lemma categories_of_numbers temp_avg :
  Forall (fun v => is_number v = true) temp_avg -> is_Ok (categories_of temp_avg).
Proof.
  intros H. apply traverse_total. eapply Forall_impl; [exact H|].
  intros v Hv. destruct (categorize_temp_number v Hv) as [c Hc].
  rewrite Hc. eexists; reflexivity.
Qed.

Lemma categories_of_lookup temp_avg cats i t :
  categories_of temp_avg = Ok cats -> temp_avg !! i = Some t ->
  exists c, categorize_temp t = Ok c /\ cats !! i = Some (VStr c).
Proof.
  intros H Hi. destruct (traverse_lookup _ _ _ _ _ H Hi) as (b & Hb & Hlk).
  destruct (categorize_temp t) as [c|]; [|discriminate].
  injection Hb as <-. eauto.
Qed.

(** [categorized] returns exactly on the tables whose [temp_avg], if any,
    is made of numbers. *)
Lemma categorized_returns df : is_Ok (categorized df) <-> temp_avg_numeric df.
Proof.
  unfold temp_avg_numeric. rewrite categorized_cases. split.
  - intros [df' H] t Ht. rewrite Ht in H.
    destruct (categories_of t) as [cats|] eqn:Ec; [|discriminate].
    apply traverse_Ok_inv in Ec. eapply Forall_impl; [exact Ec|].
    intros v [b Hb]. destruct (categorize_temp v) as [c|] eqn:Hc; [|discriminate].
    exact (categorize_temp_Ok_number v c Hc).
  - intros H. destruct (getitem df "temp_avg") as [t|].
    + destruct (categories_of_numbers t (H t eq_refl)) as [cats ->]. cbv zeta.
      destruct (getitem df "weather_main"); eexists; reflexivity.
    + destruct (getitem df "weather_main"); eexists; reflexivity.
Qed.

(** The table [categorized] returns is well formed when its input is. *)
Lemma with_flags_well_formed n df weather_main :
  NoDup (columns df) -> rectangular n df -> length weather_main = n ->
  NoDup (columns (with_flags df weather_main)) /\
  rectangular n (with_flags df weather_main).
Proof.
  intros Hnd Hrect Hlen. unfold with_flags. split.
  - repeat apply setitem_NoDup. exact Hnd.
  - repeat apply setitem_rectangular; rewrite ?length_fmap; assumption.
Qed.

Lemma categorized_well_formed df df' :
  well_formed df -> categorized df = Ok df' -> well_formed df'.
Proof.
  intros [Hnd [n Hrect]]. rewrite categorized_cases.
  assert (Hcat : forall t cats, getitem df "temp_avg" = Ok t ->
            categories_of t = Ok cats ->
            NoDup (columns (setitem df "temp_category" cats)) /\
            rectangular n (setitem df "temp_category" cats)).
  { intros t cats Ht Hc. split; [apply setitem_NoDup; exact Hnd|].
    apply setitem_rectangular; [exact Hrect|].
    rewrite (traverse_length _ _ _ Hc). exact (getitem_rectangular _ _ _ _ Hrect Ht). }
  destruct (getitem df "temp_avg") as [t|] eqn:Et.
  - destruct (categories_of t) as [cats|] eqn:Ec; [|discriminate]. cbv zeta.
    destruct (Hcat t cats eq_refl Ec) as [Hnd1 Hrect1].
    destruct (getitem df "weather_main") as [w|] eqn:Ew; intros [= <-].
    + destruct (with_flags_well_formed n _ w Hnd1 Hrect1) as [H1 H2].
      { exact (getitem_rectangular _ _ _ _ Hrect Ew). }
      split; [exact H1 | exists n; exact H2].
    + split; [exact Hnd1 | exists n; exact Hrect1].
  - destruct (getitem df "weather_main") as [w|] eqn:Ew; intros [= <-].
    + destruct (with_flags_well_formed n _ w Hnd Hrect) as [H1 H2].
      { exact (getitem_rectangular _ _ _ _ Hrect Ew). }
      split; [exact H1 | exists n; exact H2].
    + split; [exact Hnd | exists n; exact Hrect].
Qed.

Lemma categories_of_labelled temp_avg cats :
  categories_of temp_avg = Ok cats -> labelled_by_band temp_avg cats.
Proof.
  intros Hc. split; [exact (traverse_length _ _ _ Hc)|].
  intros i t Hi. destruct (categories_of_lookup _ _ _ _ Hc Hi) as (c & Hcat & Hlk).
  exists c. split; [exact Hlk | exact (categorize_temp_thresholds t c Hcat)].
Qed.

Lemma isin_cell_true values v :
  isin_cell values v = true <-> exists s, In s values /\ v = VStr s.
Proof.
  unfold isin_cell. rewrite existsb_exists.
  split; intros (s & Hin & H); exists s; (split; [exact Hin|]);
    apply py_eq_str_true; exact H.
Qed.

Lemma flags_of_cell v :
  flags_of v (py_eq_str v "Clear")
    (isin_cell ["Rain"; "Drizzle"; "Thunderstorm"] v)
    (isin_cell ["Snow"; "Sleet"] v).
Proof.
  unfold flags_of. rewrite py_eq_str_true, !isin_cell_true. simpl.
  repeat split; try tauto.
  - intros (s & [<-|[<-|[<-|[]]]] & ->); tauto.
  - intros [-> | [-> | ->]]; eexists; (split; [|reflexivity]); tauto.
  - intros (s & [<-|[<-|[]]] & ->); tauto.
  - intros [-> | ->]; eexists; (split; [|reflexivity]); tauto.
Qed.

Lemma with_flags_flagged df weather_main :
  exists is_clear is_rainy is_snowy,
    getitem (with_flags df weather_main) "is_clear" = Ok is_clear /\
    getitem (with_flags df weather_main) "is_rainy" = Ok is_rainy /\
    getitem (with_flags df weather_main) "is_snowy" = Ok is_snowy /\
    flagged_by_condition weather_main is_clear is_rainy is_snowy.
Proof.
  destruct (with_flags_columns df weather_main) as (Hc & Hr & Hs).
  eexists _, _, _.
  split; [exact Hc|]. split; [exact Hr|]. split; [exact Hs|].
  unfold flagged_by_condition. rewrite !length_fmap.
  split; [reflexivity|]. split; [reflexivity|]. split; [reflexivity|].
  intros i v Hi. eexists _, _, _. rewrite !list_lookup_fmap, Hi. simpl.
  split; [reflexivity|]. split; [reflexivity|]. split; [reflexivity|].
  apply flags_of_cell.
Qed.

(** C4. For a table with a [temp_avg] column of numbers,
    [create_weather_categories] returns a table whose [temp_category]
    column labels every row by the thresholds on its [temp_avg] in °F,
    lower bounds inclusive: below 32 Freezing, from 32 and below 50 Cold,
    from 50 and below 70 Mild, from 70 and below 85 Warm, from 85 Hot. *)
Theorem create_weather_categories_thresholds
  (h : store) (weather_df : ref) (df : DataFrame) (temp_avg : Series) :
  h !! weather_df = Some df ->
  getitem df "temp_avg" = Ok temp_avg ->
  Forall (fun v => is_number v = true) temp_avg ->
  exists out df' temp_category,
    create_weather_categories weather_df h = (Ok out, <[out := df']> h) /\
    getitem df' "temp_avg" = Ok temp_avg /\
    getitem df' "temp_category" = Ok temp_category /\
    labelled_by_band temp_avg temp_category.
Proof.
  intros Hr Ht Hnum.
  rewrite (create_weather_categories_run h weather_df df Hr). cbv zeta.
  rewrite categorized_cases, Ht.
  destruct (categories_of_numbers temp_avg Hnum) as [cats Hc]. rewrite Hc. cbv zeta.
  pose proof (categories_of_labelled _ _ Hc) as Hlab.
  destruct (getitem df "weather_main") as [w|];
    eexists _, _, cats; (split; [reflexivity|]).
  - rewrite !getitem_with_flags by discriminate.
    rewrite getitem_setitem_ne by discriminate.
    rewrite getitem_setitem_eq. auto.
  - rewrite getitem_setitem_ne by discriminate.
    rewrite getitem_setitem_eq. auto.
Qed.

Lemma create_weather_categories_thresholds_witness :
  sample_store !! 1%positive = Some sample_frame /\
  getitem sample_frame "temp_avg" = Ok sample_temps /\
  Forall (fun v => is_number v = true) sample_temps /\
  exists out df' temp_category,
    create_weather_categories 1%positive sample_store
      = (Ok out, <[out := df']> sample_store) /\
    getitem df' "temp_avg" = Ok sample_temps /\
    getitem df' "temp_category" = Ok temp_category /\
    labelled_by_band sample_temps temp_category.
Proof.
  assert (H1 : sample_store !! 1%positive = Some sample_frame) by reflexivity.
  assert (H2 : getitem sample_frame "temp_avg" = Ok sample_temps) by reflexivity.
  assert (H3 : Forall (fun v => is_number v = true) sample_temps)
    by (repeat constructor).
  split; [exact H1|]. split; [exact H2|]. split; [exact H3|].
  exact (create_weather_categories_thresholds _ _ _ _ H1 H2 H3).
Defined.

(** The bands on the values the specification lists, boundaries included. *)
Example categorize_temp_samples :
  traverse categorize_temp sample_temps =
  Ok ["Freezing"; "Cold"; "Mild"; "Warm"; "Hot"; "Cold"; "Mild"; "Warm"; "Hot"].
Proof. reflexivity. Qed.

(** C5. For a table with a [weather_main] column (and a numeric
    [temp_avg], if it has one), [create_weather_categories] returns a
    table whose columns [is_clear], [is_rainy] and [is_snowy] hold, row by
    row and whatever the input held under those names, the exact
    case-sensitive membership of [weather_main] in {Clear}, {Rain,
    Drizzle, Thunderstorm} and {Snow, Sleet}. *)
Theorem create_weather_categories_flags
  (h : store) (weather_df : ref) (df : DataFrame) (weather_main : Series) :
  h !! weather_df = Some df ->
  getitem df "weather_main" = Ok weather_main ->
  temp_avg_numeric df ->
  exists out df' is_clear is_rainy is_snowy,
    create_weather_categories weather_df h = (Ok out, <[out := df']> h) /\
    getitem df' "weather_main" = Ok weather_main /\
    getitem df' "is_clear" = Ok is_clear /\
    getitem df' "is_rainy" = Ok is_rainy /\
    getitem df' "is_snowy" = Ok is_snowy /\
    flagged_by_condition weather_main is_clear is_rainy is_snowy.
Proof.
  intros Hr Hw Hnum.
  rewrite (create_weather_categories_run h weather_df df Hr). cbv zeta.
  rewrite categorized_cases, Hw.
  destruct (getitem df "temp_avg") as [t|] eqn:Et.
  - destruct (categories_of_numbers t (Hnum t Et)) as [cats ->]. cbv zeta.
    destruct (with_flags_flagged (setitem df "temp_category" cats) weather_main)
      as (c & r & s & Hc & Hrn & Hs & Hflag).
    eexists _, _, c, r, s. split; [reflexivity|].
    rewrite getitem_with_flags, getitem_setitem_ne by discriminate. auto 10.
  - destruct (with_flags_flagged df weather_main)
      as (c & r & s & Hc & Hrn & Hs & Hflag).
    eexists _, _, c, r, s. split; [reflexivity|].
    rewrite getitem_with_flags by discriminate. auto 10.
Qed.

Lemma sample_frame_numeric : temp_avg_numeric sample_frame.
Proof. intros t [= <-]. repeat constructor. Qed.

Lemma create_weather_categories_flags_witness :
  sample_store !! 1%positive = Some sample_frame /\
  getitem sample_frame "weather_main" = Ok sample_conditions /\
  temp_avg_numeric sample_frame /\
  exists out df' is_clear is_rainy is_snowy,
    create_weather_categories 1%positive sample_store
      = (Ok out, <[out := df']> sample_store) /\
    getitem df' "weather_main" = Ok sample_conditions /\
    getitem df' "is_clear" = Ok is_clear /\
    getitem df' "is_rainy" = Ok is_rainy /\
    getitem df' "is_snowy" = Ok is_snowy /\
    flagged_by_condition sample_conditions is_clear is_rainy is_snowy.
Proof.
  assert (H1 : sample_store !! 1%positive = Some sample_frame) by reflexivity.
  assert (H2 : getitem sample_frame "weather_main" = Ok sample_conditions)
    by reflexivity.
  split; [exact H1|]. split; [exact H2|]. split; [exact sample_frame_numeric|].
  exact (create_weather_categories_flags _ _ _ _ H1 H2 sample_frame_numeric).
Defined.

(** The flags on the conditions the specification lists, and on a few
    more: a different case or a missing cell is in no set. *)
Example flags_samples :
  (fun v => (py_eq_str v "Clear",
             isin_cell ["Rain"; "Drizzle"; "Thunderstorm"] v,
             isin_cell ["Snow"; "Sleet"] v)) <$> sample_conditions =
  [(true, false, false); (false, true, false); (false, false, true);
   (false, false, false); (false, true, false); (false, true, false);
   (false, false, true); (false, false, false); (false, false, false)].
Proof. reflexivity. Qed.

(** C6. Categorisation is idempotent: when [create_weather_categories]
    returns a table, applying it to that table returns a table identical
    to it. *)
Theorem create_weather_categories_idempotent
  (h h1 : store) (weather_df once : ref) (df : DataFrame) :
  h !! weather_df = Some df ->
  create_weather_categories weather_df h = (Ok once, h1) ->
  exists twice h2 df1,
    create_weather_categories once h1 = (Ok twice, h2) /\
    h1 !! once = Some df1 /\
    h2 !! twice = Some df1 /\
    h2 !! once = Some df1.
Proof.
  intros Hr. rewrite (create_weather_categories_run h weather_df df Hr). cbv zeta.
  destruct (categorized df) as [df1|] eqn:Hcat; [|discriminate].
  intros [= <- <-].
  assert (H1 : <[fresh (dom h) := df1]> h !! fresh (dom h) = Some df1)
    by apply lookup_insert_eq.
  eexists _, _, df1. split.
  { rewrite (create_weather_categories_run _ _ df1 H1). cbv zeta.
    rewrite (categorized_idempotent df df1 Hcat). reflexivity. }
  split; [exact H1|]. split; [apply lookup_insert_eq|].
  rewrite lookup_insert_ne; [exact H1|].
  apply fresh_ref_ne with df1. exact H1.
Qed.

Lemma create_weather_categories_idempotent_witness :
  exists once h1 twice h2 df1,
    sample_store !! 1%positive = Some sample_frame /\
    create_weather_categories 1%positive sample_store = (Ok once, h1) /\
    create_weather_categories once h1 = (Ok twice, h2) /\
    h1 !! once = Some df1 /\
    h2 !! twice = Some df1 /\
    h2 !! once = Some df1.
Proof.
  assert (H1 : sample_store !! 1%positive = Some sample_frame) by reflexivity.
  destruct (create_weather_categories 1%positive sample_store) as [[once|e] h1] eqn:E;
    [|vm_compute in E; discriminate].
  destruct (create_weather_categories_idempotent _ _ _ _ _ H1 E)
    as (twice & h2 & df1 & H).
  exists once, h1, twice, h2, df1. split; [exact H1|]. split; [reflexivity | exact H].
Defined.

(** C10. [create_weather_categories] never mutates its argument: whether it
    returns or raises, the table behind [weather_df], and every other
    table that existed before the call, is afterwards what it was; the
    table it returns is a new object. *)
Theorem create_weather_categories_preserves_argument
  (h h' : store) (weather_df : ref) (df : DataFrame) (res : result ref) :
  h !! weather_df = Some df ->
  create_weather_categories weather_df h = (res, h') ->
  h' !! weather_df = Some df /\
  (forall r d, h !! r = Some d -> h' !! r = Some d) /\
  (forall out, res = Ok out -> out <> weather_df /\ h !! out = None /\
                             is_Some (h' !! out)).
Proof.
  intros Hr. rewrite (create_weather_categories_run h weather_df df Hr). cbv zeta.
  assert (Hframe : forall d0 r d, h !! r = Some d ->
            <[fresh (dom h) := d0]> h !! r = Some d).
  { intros d0 r d Hd. rewrite lookup_insert_ne; [exact Hd|].
    apply fresh_ref_ne with d. exact Hd. }
  destruct (categorized df) as [df1|e]; intros [= <- <-].
  - split; [apply Hframe; exact Hr|]. split; [apply Hframe|].
    intros out [= <-]. split; [apply fresh_ref_ne with df; exact Hr|].
    split; [apply fresh_ref_unused|]. rewrite lookup_insert_eq. eauto.
  - split; [apply Hframe; exact Hr|]. split; [apply Hframe|].
    intros out [=].
Qed.

Lemma create_weather_categories_preserves_argument_witness :
  exists res h',
    sample_store !! 1%positive = Some sample_frame /\
    create_weather_categories 1%positive sample_store = (res, h') /\
    h' !! 1%positive = Some sample_frame /\
    (forall r d, sample_store !! r = Some d -> h' !! r = Some d) /\
    (forall out, res = Ok out -> out <> 1%positive /\ sample_store !! out = None /\
                               is_Some (h' !! out)).
Proof.
  assert (H1 : sample_store !! 1%positive = Some sample_frame) by reflexivity.
  eexists _, _. split; [exact H1|]. split; [reflexivity|].
  exact (create_weather_categories_preserves_argument _ _ _ _ _ H1 eq_refl).
Defined.

(** ** Properties of load_noaa_weather_data *)

Lemma copy_column_getitem df old_col new_col c :
  exists df',
    copy_column df (old_col, new_col) = Ok df' /\
    getitem df' c =
      (if String.eqb new_col c && contains old_col (columns df)
       then getitem df old_col else getitem df c) /\
    (forall o, o <> new_col ->
       contains o (columns df') = contains o (columns df) /\
       getitem df' o = getitem df o).
Proof.
  unfold copy_column.
  destruct (contains old_col (columns df)) eqn:E.
  - apply contains_getitem in E as [s Hs]. rewrite Hs. simpl.
    eexists. split; [reflexivity|]. split.
    + destruct (String.eqb new_col c) eqn:Ec; simpl.
      * apply String.eqb_eq in Ec. subst c. apply getitem_setitem_eq.
      * apply String.eqb_neq in Ec. apply getitem_setitem_ne. exact Ec.
    + intros o Ho. rewrite contains_setitem.
      apply String.eqb_neq in Ho. rewrite Ho. simpl. split; [reflexivity|].
      apply getitem_setitem_ne. apply String.eqb_neq in Ho. congruence.
  - eexists. split; [reflexivity|]. rewrite andb_false_r. auto.
Qed.

(** After the loop over a mapping whose source names are none of its
    canonical names, and whose canonical names are distinct: a canonical
    column holds its source column when the input has it, and every other
    column is as in the input. *)
Lemma for_each_copy_column mapping df :
  Forall (fun item => source_of mapping (fst item) = None) mapping ->
  NoDup mapping.*2 ->
  exists df',
    for_each copy_column mapping df = Ok df' /\
    forall c,
      getitem df' c =
      match source_of mapping c with
      | Some old_col =>
          if contains old_col (columns df) then getitem df old_col
          else getitem df c
      | None => getitem df c
      end.
Proof.
  revert df. induction mapping as [|[o n] m IH]; intros df Hsrc Hnd.
  - exists df. split; reflexivity.
  - cbn [for_each]. destruct (copy_column_getitem df o n n) as (dfa & Ha & _ & Hframe).
    rewrite Ha. cbn [mbind result_bind].
    rewrite fmap_cons in Hnd. apply NoDup_cons in Hnd as [Hn Hnd].
    cbn [snd] in Hn.
    assert (Hsrc' : Forall (fun item => source_of m (fst item) = None) m
                    /\ Forall (fun item => fst item <> n) m).
    { apply Forall_cons in Hsrc as [_ Hsrc]. split.
      - eapply Forall_impl; [exact Hsrc|]. intros [o' n'] H. simpl in *.
        destruct (String.eqb n o'); [discriminate | exact H].
      - eapply Forall_impl; [exact Hsrc|]. intros [o' n'] H. simpl in *.
        destruct (String.eqb n o') eqn:E; [discriminate|].
        apply String.eqb_neq in E. congruence. }
    destruct Hsrc' as [Hsrc1 Hsrc2].
    destruct (IH dfa Hsrc1 Hnd) as (df' & Hrun & Hget).
    exists df'. split; [exact Hrun|]. intros c. rewrite Hget. cbn [source_of].
    assert (Hm : forall o', source_of m c = Some o' -> o' <> n /\ c <> n).
    { clear -Hsrc2 Hn. induction m as [|[o1 n1] m IHm]; cbn [source_of];
        [discriminate|].
      intros o'. apply Forall_cons in Hsrc2 as [H1 H2].
      rewrite fmap_cons, not_elem_of_cons in Hn. destruct Hn as [Hn1 Hn2].
      destruct (String.eqb n1 c) eqn:E.
      - intros [= <-]. apply String.eqb_eq in E. subst c. cbn in *. auto.
      - apply IHm; assumption. }
    destruct (String.eqb n c) eqn:Enc.
    + apply String.eqb_eq in Enc. subst c.
      destruct (source_of m n) as [o'|] eqn:Em.
      { destruct (Hm o' eq_refl) as [_ []]. reflexivity. }
      destruct (copy_column_getitem df o n n) as (dfa' & Ha' & Hgn & _).
      rewrite Ha in Ha'. injection Ha' as <-.
      rewrite Hgn, String.eqb_refl. reflexivity.
    + apply String.eqb_neq in Enc.
      destruct (source_of m c) as [o'|] eqn:Em.
      * destruct (Hm o' eq_refl) as [Ho' Hc].
        destruct (Hframe o' Ho') as [-> ->].
        destruct (Hframe c Hc) as [_ ->]. reflexivity.
      * destruct (Hframe c) as [_ ->]; [congruence | reflexivity].
Qed.

Lemma column_mapping_copied df :
  exists df',
    for_each copy_column column_mapping df = Ok df' /\
    forall c,
      getitem df' c =
      match source_of column_mapping c with
      | Some old_col =>
          if contains old_col (columns df) then getitem df old_col
          else getitem df c
      | None => getitem df c
      end.
Proof.
  apply for_each_copy_column.
  - repeat constructor.
  - unfold column_mapping. simpl. repeat (apply NoDup_cons; split);
      [repeat (rewrite not_elem_of_cons; split; [discriminate|]); apply not_elem_of_nil ..
      | apply NoDup_nil_2].
Qed.

Lemma source_of_In mapping c old_col :
  source_of mapping c = Some old_col -> In (old_col, c) mapping.
Proof.
  induction mapping as [|[o n] m IH]; cbn [source_of]; [discriminate|].
  destruct (String.eqb n c) eqn:E.
  - intros [= <-]. apply String.eqb_eq in E. subst. left. reflexivity.
  - intros H. right. exact (IH H).
Qed.

Lemma contains_of_getitem df df' c c' :
  getitem df' c' = getitem df c ->
  contains c' (columns df') = contains c (columns df).
Proof.
  intros H.
  destruct (contains c (columns df)) eqn:E.
  - apply contains_getitem. apply contains_getitem in E as [s Hs].
    exists s. congruence.
  - apply not_contains_getitem in E.
    destruct (contains c' (columns df')) eqn:E'; [|reflexivity].
    apply contains_getitem in E' as [s Hs]. congruence.
Qed.

Lemma traverse2_lookup {A B C} (f : A -> B -> result C) l1 l2 l i a b :
  traverse2 f l1 l2 = Ok l -> l1 !! i = Some a -> l2 !! i = Some b ->
  exists c, f a b = Ok c /\ l !! i = Some c.
Proof.
  revert l2 l i. induction l1 as [|x l1 IH]; intros [|y l2] l i; cbn [traverse2];
    try discriminate 2; try discriminate 3.
  destruct (f x y) as [c|] eqn:Ef; cbn [mbind result_bind]; [|discriminate].
  destruct (traverse2 f l1 l2) as [cs|] eqn:Et; cbn [mbind result_bind];
    [|discriminate].
  intros [= <-]. destruct i as [|i]; cbn.
  - intros [= <-] [= <-]. eauto.
  - intros Ha Hb. exact (IH l2 cs i Et Ha Hb).
Qed.

Lemma traverse2_length {A B C} (f : A -> B -> result C) l1 l2 l :
  traverse2 f l1 l2 = Ok l -> length l = Nat.min (length l1) (length l2).
Proof.
  revert l2 l. induction l1 as [|x l1 IH]; intros [|y l2] l; cbn [traverse2];
    try (intros [= <-]; reflexivity).
  destruct (f x y) as [c|]; cbn [mbind result_bind]; [|discriminate].
  destruct (traverse2 f l1 l2) as [cs|] eqn:Et; cbn [mbind result_bind];
    [|discriminate].
  intros [= <-]. cbn [length Nat.min]. f_equal. exact (IH l2 cs Et).
Qed.

(** What [add_temp_avg] and [add_is_rainy] do to a frame. *)
Lemma add_temp_avg_cases df df' :
  add_temp_avg df = Ok df' ->
  match getitem df "temp_max", getitem df "temp_min" with
  | Ok temp_max, Ok temp_min =>
      exists temp_avg,
        df' = setitem df "temp_avg" temp_avg /\
        row_means temp_max temp_min temp_avg
  | _, _ => df' = df
  end.
Proof.
  unfold add_temp_avg.
  destruct (contains "temp_max" (columns df)) eqn:E1; cbn [andb].
  - apply contains_getitem in E1 as [a Ha]. rewrite Ha.
    destruct (contains "temp_min" (columns df)) eqn:E2.
    + apply contains_getitem in E2 as [b Hb]. rewrite Hb. cbn [mbind result_bind].
      unfold series_add, series_truediv.
      destruct (traverse2 py_add a b) as [total|] eqn:Et; cbn [mbind result_bind];
        [|discriminate].
      destruct (traverse _ total) as [avg|] eqn:Ed; cbn [mbind result_bind];
        [|discriminate].
      intros [= <-]. exists avg. split; [reflexivity|].
      intros i x y Hx Hy.
      destruct (traverse2_lookup _ _ _ _ _ _ _ Et Hx Hy) as (t & Hadd & Ht).
      destruct (traverse_lookup _ _ _ _ _ Ed Ht) as (m & Hdiv & Hm).
      exists t, m. auto.
    + rewrite (not_contains_getitem _ _ E2). intros [= <-]. reflexivity.
  - rewrite (not_contains_getitem _ _ E1). intros [= <-]. reflexivity.
Qed.

Lemma add_is_rainy_cases df df' :
  add_is_rainy df = Ok df' ->
  match getitem df "precipitation" with
  | Ok precipitation =>
      exists is_rainy,
        df' = setitem df "is_rainy" is_rainy /\
        row_rainy precipitation is_rainy
  | Raise _ => df' = df
  end.
Proof.
  unfold add_is_rainy.
  destruct (contains "precipitation" (columns df)) eqn:E.
  - apply contains_getitem in E as [p Hp]. rewrite Hp. cbn [mbind result_bind].
    unfold series_gt.
    destruct (traverse _ p) as [mask|] eqn:Em; cbn [mbind result_bind];
      [|discriminate].
    intros [= <-]. eexists. split; [reflexivity|].
    intros i v Hv. destruct (traverse_lookup _ _ _ _ _ Em Hv) as (w & Hw & Hi).
    exists w. split; [exact Hw|]. rewrite list_lookup_fmap, Hi. reflexivity.
  - rewrite (not_contains_getitem _ _ E). intros [= <-]. reflexivity.
Qed.

Lemma add_temp_avg_frame df df' c :
  add_temp_avg df = Ok df' -> c <> "temp_avg" -> getitem df' c = getitem df c.
Proof.
  intros H Hc. apply add_temp_avg_cases in H.
  destruct (getitem df "temp_max"); [|subst; reflexivity].
  destruct (getitem df "temp_min"); [|subst; reflexivity].
  destruct H as (avg & -> & _). apply getitem_setitem_ne. congruence.
Qed.

Lemma add_is_rainy_frame df df' c :
  add_is_rainy df = Ok df' -> c <> "is_rainy" -> getitem df' c = getitem df c.
Proof.
  intros H Hc. apply add_is_rainy_cases in H.
  destruct (getitem df "precipitation"); [|subst; reflexivity].
  destruct H as (r & -> & _). apply getitem_setitem_ne. congruence.
Qed.

Section Loader.

Variable pd : pandas.
Variable file_path : string.

(** The stages of a call that returns. *)
Lemma load_noaa_weather_data_stages out :
  load_noaa_weather_data pd file_path = Ok out ->
  exists src DATE date df1 df2,
    read_csv pd file_path = Ok src /\
    getitem src "DATE" = Ok DATE /\
    to_datetime_date pd DATE = Ok date /\
    for_each copy_column column_mapping (setitem src "date" date) = Ok df1 /\
    add_temp_avg df1 = Ok df2 /\
    add_is_rainy df2 = Ok out.
Proof.
  unfold load_noaa_weather_data.
  destruct (read_csv pd file_path) as [src|]; cbn [mbind result_bind]; [|discriminate].
  destruct (getitem src "DATE") as [DATE|] eqn:ED; cbn [mbind result_bind];
    [|discriminate].
  destruct (to_datetime_date pd DATE) as [date|] eqn:Ed; cbn [mbind result_bind];
    [|discriminate].
  destruct (for_each copy_column column_mapping _) as [df1|] eqn:E1;
    cbn [mbind result_bind]; [|discriminate].
  destruct (add_temp_avg df1) as [df2|] eqn:E2; cbn [mbind result_bind];
    [|discriminate].
  destruct (add_is_rainy df2) as [df3|] eqn:E3; cbn [mbind result_bind];
    [|discriminate].
  intros [= <-]. exists src, DATE, date, df1, df2.
  repeat split; first [reflexivity | assumption].
Qed.

(** A column of the output other than the three the loader derives: the
    source column for a canonical name whose source is in the file, and
    the column of the file otherwise. *)
Lemma load_noaa_weather_data_getitem src out c :
  read_csv pd file_path = Ok src ->
  load_noaa_weather_data pd file_path = Ok out ->
  c <> "date" -> c <> "temp_avg" -> c <> "is_rainy" ->
  getitem out c =
  match source_of column_mapping c with
  | Some old_col =>
      if contains old_col (columns src) then getitem src old_col
      else getitem src c
  | None => getitem src c
  end.
Proof.
  intros Hsrc Hload Hd Ha Hr.
  destruct (load_noaa_weather_data_stages _ Hload)
    as (src' & DATE & date & df1 & df2 & Hs & _ & _ & H1 & H2 & H3).
  rewrite Hsrc in Hs. injection Hs as <-.
  rewrite (add_is_rainy_frame _ _ c H3 Hr), (add_temp_avg_frame _ _ c H2 Ha).
  destruct (column_mapping_copied (setitem src "date" date)) as (df1' & H1' & Hget).
  rewrite H1 in H1'. injection H1' as <-. rewrite Hget.
  destruct (source_of column_mapping c) as [o|] eqn:Eo.
  - assert (Ho : o <> "date").
    { apply source_of_In in Eo. cbn in Eo.
      destruct Eo as [E|[E|[E|[E|[E|[E|[]]]]]]]; injection E as <- _; discriminate. }
    rewrite contains_setitem. apply String.eqb_neq in Ho. rewrite Ho. cbn [orb].
    apply String.eqb_neq in Ho.
    rewrite !getitem_setitem_ne by congruence. reflexivity.
  - apply getitem_setitem_ne. congruence.
Qed.

(** The loader keeps a frame well formed, the date parser giving a date
    per row. *)
Lemma copy_column_well_formed n df item df' :
  NoDup (columns df) -> rectangular n df -> copy_column df item = Ok df' ->
  NoDup (columns df') /\ rectangular n df'.
Proof.
  intros Hnd Hrect. destruct item as [o c]. unfold copy_column.
  destruct (contains o (columns df)); [|intros [= <-]; auto].
  destruct (getitem df o) as [s|] eqn:Es; cbn [mbind result_bind]; [|discriminate].
  intros [= <-]. split; [apply setitem_NoDup; exact Hnd|].
  apply setitem_rectangular; [exact Hrect|].
  exact (getitem_rectangular _ _ _ _ Hrect Es).
Qed.

Lemma for_each_copy_column_well_formed n mapping df df' :
  NoDup (columns df) -> rectangular n df ->
  for_each copy_column mapping df = Ok df' ->
  NoDup (columns df') /\ rectangular n df'.
Proof.
  revert df. induction mapping as [|item m IH]; intros df Hnd Hrect;
    cbn [for_each].
  - intros [= <-]. auto.
  - destruct (copy_column df item) as [dfa|] eqn:Ea; cbn [mbind result_bind];
      [|discriminate].
    destruct (copy_column_well_formed n df item dfa Hnd Hrect Ea) as [H1 H2].
    apply IH; assumption.
Qed.

Lemma load_noaa_weather_data_well_formed src out :
  (forall s s', to_datetime_date pd s = Ok s' -> length s' = length s) ->
  well_formed src ->
  read_csv pd file_path = Ok src ->
  load_noaa_weather_data pd file_path = Ok out ->
  well_formed out.
Proof.
  intros Hdate [Hnd [n Hrect]] Hsrc Hload.
  destruct (load_noaa_weather_data_stages _ Hload)
    as (src' & DATE & date & df1 & df2 & Hs & HD & Hd & H1 & H2 & H3).
  rewrite Hsrc in Hs. injection Hs as <-.
  assert (Hlen : length date = n).
  { rewrite (Hdate _ _ Hd). exact (getitem_rectangular _ _ _ _ Hrect HD). }
  destruct (for_each_copy_column_well_formed n _ _ _
              (setitem_NoDup _ "date" date Hnd)
              (setitem_rectangular _ _ "date" _ Hrect Hlen) H1) as [Hnd1 Hrect1].
  assert (W2 : NoDup (columns df2) /\ rectangular n df2).
  { revert H2. unfold add_temp_avg.
    destruct (_ && _); [|intros [= <-]; auto].
    destruct (getitem df1 "temp_max") as [a|] eqn:Ea; cbn [mbind result_bind];
      [|discriminate].
    destruct (getitem df1 "temp_min") as [b|] eqn:Eb; cbn [mbind result_bind];
      [|discriminate].
    unfold series_add, series_truediv.
    destruct (traverse2 py_add a b) as [total|] eqn:Et; cbn [mbind result_bind];
      [|discriminate].
    destruct (traverse _ total) as [avg|] eqn:Ev; cbn [mbind result_bind];
      [|discriminate].
    intros [= <-]. split; [apply setitem_NoDup; exact Hnd1|].
    apply setitem_rectangular; [exact Hrect1|].
    rewrite (traverse_length _ _ _ Ev), (traverse2_length _ _ _ _ Et).
    rewrite (getitem_rectangular _ _ _ _ Hrect1 Ea).
    rewrite (getitem_rectangular _ _ _ _ Hrect1 Eb). apply Nat.min_id. }
  destruct W2 as [Hnd2 Hrect2].
  revert H3. unfold add_is_rainy.
  destruct (contains "precipitation" (columns df2));
    [|intros [= <-]; split; [exact Hnd2 | exists n; exact Hrect2]].
  destruct (getitem df2 "precipitation") as [p|] eqn:Ep; cbn [mbind result_bind];
    [|discriminate].
  unfold series_gt.
  destruct (traverse _ p) as [mask|] eqn:Em; cbn [mbind result_bind];
    [|discriminate].
  intros [= <-]. split; [apply setitem_NoDup; exact Hnd2|]. exists n.
  apply setitem_rectangular; [exact Hrect2|].
  rewrite length_fmap, (traverse_length _ _ _ Em).
  exact (getitem_rectangular _ _ _ _ Hrect2 Ep).
Qed.

(** The six items of [column_mapping], one goal each. *)
Ltac each_item Hin :=
  cbn in Hin;
  destruct Hin as [Hin|[Hin|[Hin|[Hin|[Hin|[Hin|[]]]]]]];
  injection Hin as <- <-.

(** C8, as the code has it. The loader copies, it does not rename: every
    source column of the file among TMAX, TMIN, PRCP, AWND, SNOW, SNWD is
    in the output under its own name, as in the file, and under its
    canonical name with the same cells; for a source column the file
    lacks, the output has under the canonical name just what the file had
    under that name, which is nothing unless the file has such a column. *)
Theorem load_noaa_copies_columns (src out : DataFrame) (old_col new_col : string) :
  read_csv pd file_path = Ok src ->
  load_noaa_weather_data pd file_path = Ok out ->
  In (old_col, new_col) column_mapping ->
  getitem out old_col = getitem src old_col /\
  (contains old_col (columns src) = true ->
     getitem out new_col = getitem src old_col) /\
  (contains old_col (columns src) = false ->
     getitem out new_col = getitem src new_col /\
     contains old_col (columns out) = false /\
     contains new_col (columns out) = contains new_col (columns src)).
Proof.
  intros Hsrc Hload Hin.
  assert (Hold : getitem out old_col = getitem src old_col).
  { rewrite (load_noaa_weather_data_getitem _ _ old_col Hsrc Hload);
      each_item Hin; first [reflexivity | discriminate]. }
  assert (Hnew : getitem out new_col =
                 if contains old_col (columns src) then getitem src old_col
                 else getitem src new_col).
  { rewrite (load_noaa_weather_data_getitem _ _ new_col Hsrc Hload);
      each_item Hin; first [reflexivity | discriminate]. }
  split; [exact Hold|]. split.
  - intros E. rewrite Hnew, E. reflexivity.
  - intros E. rewrite E in Hnew. split; [exact Hnew|]. split.
    + rewrite <- E. apply contains_of_getitem. exact Hold.
    + apply contains_of_getitem. exact Hnew.
Qed.

(** C7, as the code has it. In the output, [temp_avg] is the row-wise
    [(temp_max + temp_min) / 2] whenever both columns are there, and is
    otherwise there only if the file itself has a column of that name,
    which is then kept as it is: with one of the two missing, [temp_avg]
    of the output is what the file has under that name, cell for cell, or
    nothing. [is_rainy] tells row by row whether [precipitation > 0]
    whenever [precipitation] is there, and is otherwise there only if the
    file itself has a column of that name, kept as it is likewise. A file
    with the columns DATE and TMAX only gives [temp_max] and neither
    [temp_avg] nor [is_rainy]. *)
Theorem load_noaa_derived_columns (src out : DataFrame) :
  read_csv pd file_path = Ok src ->
  load_noaa_weather_data pd file_path = Ok out ->
  (contains "temp_avg" (columns out) = true <->
     contains "temp_max" (columns out) = true /\
     contains "temp_min" (columns out) = true \/
     contains "temp_avg" (columns src) = true) /\
  (contains "temp_max" (columns out) = false \/
   contains "temp_min" (columns out) = false ->
     getitem out "temp_avg" = getitem src "temp_avg") /\
  (forall temp_max temp_min,
     getitem out "temp_max" = Ok temp_max ->
     getitem out "temp_min" = Ok temp_min ->
     exists temp_avg,
       getitem out "temp_avg" = Ok temp_avg /\
       row_means temp_max temp_min temp_avg) /\
  (contains "is_rainy" (columns out) = true <->
     contains "precipitation" (columns out) = true \/
     contains "is_rainy" (columns src) = true) /\
  (contains "precipitation" (columns out) = false ->
     getitem out "is_rainy" = getitem src "is_rainy") /\
  (forall precipitation,
     getitem out "precipitation" = Ok precipitation ->
     exists is_rainy,
       getitem out "is_rainy" = Ok is_rainy /\
       row_rainy precipitation is_rainy) /\
  (columns src = ["DATE"; "TMAX"] ->
     contains "temp_max" (columns out) = true /\
     contains "temp_avg" (columns out) = false /\
     contains "is_rainy" (columns out) = false).
Proof.
  intros Hsrc Hload.
  destruct (load_noaa_weather_data_stages _ Hload)
    as (src' & DATE & date & df1 & df2 & Hs & _ & _ & H1 & H2 & H3).
  rewrite Hsrc in Hs. injection Hs as <-.
  (* columns of the three frames *)
  assert (Hout : forall c, c <> "is_rainy" -> getitem out c = getitem df2 c)
    by (intros c Hc; exact (add_is_rainy_frame _ _ c H3 Hc)).
  assert (Hdf2 : forall c, c <> "temp_avg" -> getitem df2 c = getitem df1 c)
    by (intros c Hc; exact (add_temp_avg_frame _ _ c H2 Hc)).
  assert (Hdf1 : forall c, source_of column_mapping c = None -> c <> "date" ->
                           getitem df1 c = getitem src c).
  { intros c Hc Hd.
    destruct (column_mapping_copied (setitem src "date" date)) as (df1' & H1' & Hget).
    rewrite H1 in H1'. injection H1' as <-. rewrite Hget, Hc.
    apply getitem_setitem_ne. congruence. }
  pose proof (add_temp_avg_cases _ _ H2) as Havg.
  pose proof (add_is_rainy_cases _ _ H3) as Hrainy.
  rewrite <- (Hdf2 "temp_max"), <- (Hdf2 "temp_min") in Havg by discriminate.
  rewrite <- (Hout "temp_max"), <- (Hout "temp_min") in Havg by discriminate.
  rewrite <- (Hout "precipitation") in Hrainy by discriminate.
  (* temp_avg *)
  assert (Ta : getitem out "temp_avg" = getitem df2 "temp_avg")
    by (apply Hout; discriminate).
  assert (Ts : getitem df1 "temp_avg" = getitem src "temp_avg")
    by (apply Hdf1; [reflexivity | discriminate]).
  assert (Rs : getitem df2 "is_rainy" = getitem src "is_rainy").
  { rewrite Hdf2 by discriminate. apply Hdf1; [reflexivity | discriminate]. }
  assert (K1 : contains "temp_max" (columns out) = false \/
               contains "temp_min" (columns out) = false ->
               getitem out "temp_avg" = getitem src "temp_avg").
  { intros Hno. rewrite Ta, <- Ts.
    assert (E : df2 = df1); [|rewrite E; reflexivity].
    destruct Hno as [Hno | Hno]; rewrite (not_contains_getitem _ _ Hno) in Havg.
    - exact Havg.
    - destruct (getitem out "temp_max"); exact Havg. }
  assert (K2 : contains "precipitation" (columns out) = false ->
               getitem out "is_rainy" = getitem src "is_rainy").
  { intros Hno. rewrite (not_contains_getitem _ _ Hno) in Hrainy.
    rewrite <- Rs, Hrainy. reflexivity. }
  assert (P1 : contains "temp_avg" (columns out) = true <->
     contains "temp_max" (columns out) = true /\
     contains "temp_min" (columns out) = true \/
     contains "temp_avg" (columns src) = true).
  { rewrite !contains_getitem.
    destruct (getitem out "temp_max") as [a|] eqn:Ea.
    - destruct (getitem out "temp_min") as [b|] eqn:Eb.
      + destruct Havg as (avg & -> & _).
        rewrite Ta, getitem_setitem_eq. unfold is_Ok. split; eauto.
      + subst df2. rewrite Ta, Ts. unfold is_Ok.
        split; [auto | intros [[_ [x Hx]]|H]; [discriminate | exact H]].
    - subst df2. rewrite Ta, Ts. unfold is_Ok.
      split; [auto | intros [[[x Hx] _]|H]; [discriminate | exact H]]. }
  assert (P2 : forall temp_max temp_min,
     getitem out "temp_max" = Ok temp_max ->
     getitem out "temp_min" = Ok temp_min ->
     exists temp_avg,
       getitem out "temp_avg" = Ok temp_avg /\
       row_means temp_max temp_min temp_avg).
  { intros a b Ea Eb. rewrite Ea, Eb in Havg. destruct Havg as (avg & -> & Hm).
    exists avg. rewrite Ta, getitem_setitem_eq. auto. }
  assert (P3 : contains "is_rainy" (columns out) = true <->
     contains "precipitation" (columns out) = true \/
     contains "is_rainy" (columns src) = true).
  { rewrite !contains_getitem.
    destruct (getitem out "precipitation") as [p|] eqn:Ep.
    - destruct Hrainy as (r & -> & _). rewrite getitem_setitem_eq.
      unfold is_Ok. split; eauto.
    - subst out. rewrite Rs. unfold is_Ok.
      split; [auto | intros [[x Hx]|H]; [discriminate | exact H]]. }
  assert (P4 : forall precipitation,
     getitem out "precipitation" = Ok precipitation ->
     exists is_rainy,
       getitem out "is_rainy" = Ok is_rainy /\
       row_rainy precipitation is_rainy).
  { intros p Ep. rewrite Ep in Hrainy. destruct Hrainy as (r & -> & Hr).
    exists r. rewrite getitem_setitem_eq. auto. }
  split; [exact P1|]. split; [exact K1|]. split; [exact P2|].
  split; [exact P3|]. split; [exact K2|]. split; [exact P4|].
  intros Hcols.
  assert (Hc : forall c, contains c (columns src) = contains c ["DATE"; "TMAX"])
    by (intros c; rewrite Hcols; reflexivity).
  assert (Tmax : contains "temp_max" (columns out) = true).
  { erewrite contains_of_getitem.
    2: { rewrite (load_noaa_weather_data_getitem _ _ "temp_max" Hsrc Hload)
           by discriminate.
         cbn [source_of column_mapping String.eqb Ascii.eqb Bool.eqb].
         rewrite (Hc "TMAX"). reflexivity. }
    rewrite Hc. reflexivity. }
  assert (Tmin : contains "temp_min" (columns out) = false).
  { erewrite contains_of_getitem.
    2: { rewrite (load_noaa_weather_data_getitem _ _ "temp_min" Hsrc Hload)
           by discriminate.
         cbn [source_of column_mapping String.eqb Ascii.eqb Bool.eqb].
         rewrite (Hc "TMIN"). reflexivity. }
    rewrite Hc. reflexivity. }
  assert (Prcp : contains "precipitation" (columns out) = false).
  { erewrite contains_of_getitem.
    2: { rewrite (load_noaa_weather_data_getitem _ _ "precipitation" Hsrc Hload)
           by discriminate.
         cbn [source_of column_mapping String.eqb Ascii.eqb Bool.eqb].
         rewrite (Hc "PRCP"). reflexivity. }
    rewrite Hc. reflexivity. }
  split; [exact Tmax|]. split.
  - destruct (contains "temp_avg" (columns out)); [|reflexivity].
    destruct (proj1 P1 eq_refl) as [[_ E]|E]; [congruence|].
    rewrite Hc in E. discriminate.
  - destruct (contains "is_rainy" (columns out)); [|reflexivity].
    destruct (proj1 P3 eq_refl) as [E|E]; [congruence|].
    rewrite Hc in E. discriminate.
Qed.

End Loader.

Lemma load_noaa_copies_columns_witness :
  exists out,
    read_csv (sample_pandas tmax_only) "noaa.csv" = Ok tmax_only /\
    load_noaa_weather_data (sample_pandas tmax_only) "noaa.csv" = Ok out /\
    In ("TMAX", "temp_max") column_mapping /\
    getitem out "TMAX" = getitem tmax_only "TMAX" /\
    (contains "TMAX" (columns tmax_only) = true ->
       getitem out "temp_max" = getitem tmax_only "TMAX") /\
    (contains "TMAX" (columns tmax_only) = false ->
       getitem out "temp_max" = getitem tmax_only "temp_max" /\
       contains "TMAX" (columns out) = false /\
       contains "temp_max" (columns out) = contains "temp_max" (columns tmax_only)).
Proof.
  eexists. split; [reflexivity|]. split; [reflexivity|].
  split; [left; reflexivity|].
  refine (load_noaa_copies_columns (sample_pandas tmax_only) "noaa.csv" tmax_only
            _ "TMAX" "temp_max" eq_refl eq_refl _).
  left. reflexivity.
Defined.

(** C8 as stated fails: for a file with the columns DATE, TMAX and
    temp_min the output has [temp_max] and still has TMAX, and it has
    [temp_min] although the file has no TMIN. *)
Lemma load_noaa_keeps_source_columns :
  exists out,
    load_noaa_weather_data (sample_pandas tmax_and_temp_min) "noaa.csv" = Ok out /\
    columns out = ["DATE"; "TMAX"; "temp_min"; "date"; "temp_max"; "temp_avg"] /\
    contains "TMAX" (columns out) = true /\
    getitem out "temp_max" = getitem out "TMAX" /\
    contains "TMIN" (columns tmax_and_temp_min) = false /\
    contains "temp_min" (columns out) = true.
Proof. eexists. repeat split. Qed.

Lemma load_noaa_derived_columns_witness :
  exists out,
    read_csv (sample_pandas station_file) "noaa.csv" = Ok station_file /\
    load_noaa_weather_data (sample_pandas station_file) "noaa.csv" = Ok out /\
    getitem out "temp_avg" = Ok [VFloat 37.5; VFloat 40.75] /\
    getitem out "is_rainy" = Ok [VBool false; VBool true] /\
    (contains "temp_avg" (columns out) = true <->
       contains "temp_max" (columns out) = true /\
       contains "temp_min" (columns out) = true \/
       contains "temp_avg" (columns station_file) = true) /\
    (contains "temp_max" (columns out) = false \/
     contains "temp_min" (columns out) = false ->
       getitem out "temp_avg" = getitem station_file "temp_avg") /\
    (forall temp_max temp_min,
       getitem out "temp_max" = Ok temp_max ->
       getitem out "temp_min" = Ok temp_min ->
       exists temp_avg,
         getitem out "temp_avg" = Ok temp_avg /\
         row_means temp_max temp_min temp_avg) /\
    (contains "is_rainy" (columns out) = true <->
       contains "precipitation" (columns out) = true \/
       contains "is_rainy" (columns station_file) = true) /\
    (contains "precipitation" (columns out) = false ->
       getitem out "is_rainy" = getitem station_file "is_rainy") /\
    (forall precipitation,
       getitem out "precipitation" = Ok precipitation ->
       exists is_rainy,
         getitem out "is_rainy" = Ok is_rainy /\
         row_rainy precipitation is_rainy) /\
    (columns station_file = ["DATE"; "TMAX"] ->
       contains "temp_max" (columns out) = true /\
       contains "temp_avg" (columns out) = false /\
       contains "is_rainy" (columns out) = false).
Proof.
  eexists. split; [reflexivity|]. split; [reflexivity|].
  split; [reflexivity|]. split; [reflexivity|].
  exact (load_noaa_derived_columns (sample_pandas station_file) "noaa.csv"
           station_file _ eq_refl eq_refl).
Defined.

(** C7 as stated fails: a file that has columns named temp_avg and
    is_rainy, and no measurement, gives an output with [temp_avg] and
    [is_rainy], those of the file, and without [temp_max], [temp_min] and
    [precipitation]. *)
Lemma load_noaa_keeps_own_derived_columns :
  exists out,
    load_noaa_weather_data (sample_pandas with_own_derived) "noaa.csv" = Ok out /\
    contains "temp_avg" (columns out) = true /\
    contains "temp_max" (columns out) = false /\
    contains "temp_min" (columns out) = false /\
    contains "is_rainy" (columns out) = true /\
    contains "precipitation" (columns out) = false /\
    getitem out "temp_avg" = Ok [VFloat 37.5; VFloat 40] /\
    getitem out "is_rainy" = Ok [VBool false; VBool true].
Proof. eexists. repeat split. Qed.

(** The file with the columns DATE and TMAX only. *)
Example load_noaa_tmax_only :
  load_noaa_weather_data (sample_pandas tmax_only) "noaa.csv" =
  Ok [("DATE", [VStr "2024-01-01"; VStr "2024-01-02"]);
      ("TMAX", [VInt 45; VInt 50]);
      ("date", [VDate 738886; VDate 738886]);
      ("temp_max", [VInt 45; VInt 50])].
Proof. reflexivity. Qed.

(** ** Properties of get_weather_summary *)

Lemma py_eq_VStr k s : py_eq k (VStr s) = py_eq_str k s.
Proof. destruct k; reflexivity. Qed.

Lemma counts_get_count_one d v s :
  hashable v = true ->
  counts_get (count_one d v) (VStr s) =
  if py_eq_str v s
  then Some (match counts_get d (VStr s) with Some n => n + 1 | None => 1 end)
  else counts_get d (VStr s).
Proof.
  intros Hv. induction d as [|[k n] d IH]; cbn [count_one counts_get].
  - rewrite py_eq_VStr. destruct (py_eq_str v s); reflexivity.
  - destruct (py_eq k v) eqn:Ekv; cbn [counts_get]; rewrite !py_eq_VStr.
    + destruct (py_eq_str k s) eqn:Eks.
      * apply py_eq_str_true in Eks. subst k.
        assert (v = VStr s) as ->.
        { destruct v; try discriminate. cbn in Ekv.
          apply String.eqb_eq in Ekv. congruence. }
        cbn. rewrite String.eqb_refl. reflexivity.
      * destruct (py_eq_str v s) eqn:Evs; [|reflexivity].
        apply py_eq_str_true in Evs. subst v.
        rewrite py_eq_VStr in Ekv. congruence.
    + destruct (py_eq_str k s) eqn:Eks.
      * destruct (py_eq_str v s) eqn:Evs; [|reflexivity].
        apply py_eq_str_true in Eks, Evs. subst.
        cbn in Ekv. rewrite String.eqb_refl in Ekv. discriminate.
      * rewrite <- py_eq_VStr. exact IH.
Qed.

Lemma counts_get_fold l d s :
  forallb hashable l = true ->
  counts_get (fold_left count_one l d) (VStr s) =
  match counts_get d (VStr s) with
  | Some n => Some (n + occurrences s l)
  | None => if occurrences s l =? 0 then None else Some (occurrences s l)
  end.
Proof.
  unfold occurrences. revert d.
  induction l as [|v l IH]; intros d Hl; cbn [fold_left List.filter forallb] in *.
  - destruct (counts_get d (VStr s)); [apply (f_equal Some); cbn; lia | reflexivity].
  - apply andb_true_iff in Hl as [Hv Hl].
    rewrite (IH _ Hl), (counts_get_count_one d v s Hv).
    destruct (py_eq_str v s); cbn [length].
    + destruct (counts_get d (VStr s)).
      * apply (f_equal Some). lia.
      * destruct (Z.eqb_spec (Z.of_nat (S (length (List.filter
                    (fun v0 => py_eq_str v0 s) l)))) 0) as [E|E]; [lia|].
        apply (f_equal Some). lia.
    + reflexivity.
Qed.

(** The counts of [value_counts] on strings: a string that occurs has its
    number of rows, and one that does not occur has no entry. *)
Lemma value_counts_strings col counts s :
  value_counts col = Ok counts ->
  counts_get counts (VStr s) =
  if occurrences s col =? 0 then None else Some (occurrences s col).
Proof.
  unfold value_counts.
  destruct (forallb hashable _) eqn:Eh; [|discriminate].
  intros [= <-]. rewrite (counts_get_fold _ _ s Eh). cbn [counts_get].
  assert (E : occurrences s (List.filter (fun v => negb (is_null v)) col)
              = occurrences s col).
  { unfold occurrences. f_equal. f_equal. clear Eh.
    induction col as [|v col IH]; cbn [List.filter]; [reflexivity|].
    destruct (is_null v) eqn:En; cbn [negb List.filter].
    - destruct (py_eq_str v s) eqn:Es; [|exact IH].
      apply py_eq_str_true in Es. subst v. discriminate.
    - destruct (py_eq_str v s); [f_equal|]; exact IH. }
  rewrite E. reflexivity.
Qed.

(** The number of true rows of the mask is the number of rows above 0. *)
Lemma count_true_rows_above col k mask :
  series_gt col k = Ok mask -> count_true mask = rows_above col k.
Proof.
  unfold series_gt, count_true, rows_above. intros H. f_equal. revert mask H.
  induction col as [|v col IH]; intros mask; cbn [traverse List.filter].
  - intros [= <-]. reflexivity.
  - destruct (py_gt v k) as [b|]; cbn [mbind result_bind]; [|discriminate].
    destruct (traverse _ col) as [bs|]; cbn [mbind result_bind]; [|discriminate].
    intros [= <-]. specialize (IH bs eq_refl).
    destruct b; cbn [List.filter id length]; [f_equal|]; exact IH.
Qed.

Lemma series_gt_numbers col k :
  Forall (fun v => is_number v = true) col -> is_Ok (series_gt col k).
Proof.
  intros H. apply traverse_total. eapply Forall_impl; [exact H|].
  intros v Hv. destruct v; try discriminate; eexists; reflexivity.
Qed.

Lemma value_counts_hashable col :
  Forall (fun v => hashable v = true) col -> is_Ok (value_counts col).
Proof.
  intros H. unfold value_counts.
  assert (E : forallb hashable (List.filter (fun v => negb (is_null v)) col) = true).
  { induction H as [|v col Hv _ IH]; cbn [List.filter]; [reflexivity|].
    destruct (negb (is_null v)); [|exact IH].
    cbn [forallb]. rewrite Hv, IH. reflexivity. }
  rewrite E. eexists; reflexivity.
Qed.

(** Splits a test [c in df.columns] and reads the column when it is there. *)
Ltac split_column c :=
  let E := fresh "E" in
  let col := fresh "col" in
  let Hcol := fresh "Hcol" in
  destruct (contains c (columns _)) eqn:E;
  [ pose proof E as Hcol; apply contains_getitem in Hcol as [col Hcol];
    rewrite ?Hcol
  | pose proof (not_contains_getitem _ _ E) as Hcol ].

(** C9. [get_weather_summary] returns a dict with exactly the metrics
    whose column the table has: [avg_temp], [min_temp], [max_temp] (the
    mean, minimum and maximum of [temp_avg]) when [temp_avg] is there;
    [total_precip] (the sum of [precipitation]) and [rainy_days] (its
    number of rows above 0) when [precipitation] is there;
    [weather_distribution] (the number of rows of each [weather_main]
    string) when [weather_main] is there; and the empty dict when none of
    the three is. It returns whenever the reductions of pandas do, on
    numeric [precipitation] and hashable [weather_main] cells. *)
Theorem get_weather_summary_metrics (pd : pandas) (df : DataFrame) :
  (contains "temp_avg" (columns df) = false /\
   contains "precipitation" (columns df) = false /\
   contains "weather_main" (columns df) = false ->
   get_weather_summary pd df = Ok []) /\
  (forall summary, get_weather_summary pd df = Ok summary ->
     summary.*1 = summary_keys df /\
     (forall temp_avg, getitem df "temp_avg" = Ok temp_avg ->
        exists avg lo hi,
          Series_mean pd temp_avg = Ok avg /\
          Series_min pd temp_avg = Ok lo /\
          Series_max pd temp_avg = Ok hi /\
          dict_get summary "avg_temp" = Some (Scalar avg) /\
          dict_get summary "min_temp" = Some (Scalar lo) /\
          dict_get summary "max_temp" = Some (Scalar hi)) /\
     (forall precipitation, getitem df "precipitation" = Ok precipitation ->
        exists total,
          Series_sum pd precipitation = Ok total /\
          dict_get summary "total_precip" = Some (Scalar total) /\
          dict_get summary "rainy_days"
            = Some (Scalar (VInt (rows_above precipitation 0)))) /\
     (forall weather_main, getitem df "weather_main" = Ok weather_main ->
        exists counts,
          dict_get summary "weather_distribution" = Some (Counts counts) /\
          forall s, counts_get counts (VStr s) =
                    if occurrences s weather_main =? 0 then None
                    else Some (occurrences s weather_main))) /\
  ((forall temp_avg, getitem df "temp_avg" = Ok temp_avg ->
      is_Ok (Series_mean pd temp_avg) /\ is_Ok (Series_min pd temp_avg) /\
      is_Ok (Series_max pd temp_avg)) ->
   (forall precipitation, getitem df "precipitation" = Ok precipitation ->
      is_Ok (Series_sum pd precipitation) /\
      Forall (fun v => is_number v = true) precipitation) ->
   (forall weather_main, getitem df "weather_main" = Ok weather_main ->
      Forall (fun v => hashable v = true) weather_main) ->
   is_Ok (get_weather_summary pd df)).
Proof.
  unfold get_weather_summary, temperature_metrics, precipitation_metrics,
    condition_metrics, summary_keys.
  split; [|split].
  - intros (-> & -> & ->). reflexivity.
  - intros summary.
    split_column "temp_avg"; split_column "precipitation";
      split_column "weather_main"; cbn [mbind result_bind];
      repeat match goal with
      | |- context [Series_mean pd ?c] =>
          destruct (Series_mean pd c) eqn:?; cbn [mbind result_bind];
          [|discriminate]
      | |- context [Series_min pd ?c] =>
          destruct (Series_min pd c) eqn:?; cbn [mbind result_bind];
          [|discriminate]
      | |- context [Series_max pd ?c] =>
          destruct (Series_max pd c) eqn:?; cbn [mbind result_bind];
          [|discriminate]
      | |- context [Series_sum pd ?c] =>
          destruct (Series_sum pd c) eqn:?; cbn [mbind result_bind];
          [|discriminate]
      | |- context [series_gt ?c 0] =>
          let Hm := fresh "Hmask" in
          destruct (series_gt c 0) eqn:Hm; cbn [mbind result_bind];
          [apply count_true_rows_above in Hm; rewrite Hm | discriminate]
      | |- context [value_counts ?c] =>
          destruct (value_counts c) eqn:?; cbn [mbind result_bind];
          [|discriminate]
      end;
      intros [= <-]; (split; [reflexivity|]);
      repeat split; intros c Hc; try congruence;
      try (injection Hc as <-);
      try (eexists _, _, _; repeat split; first [eassumption | reflexivity]);
      try (eexists; repeat split; first [eassumption | reflexivity]);
      try (eexists; split; [reflexivity|]; intros s;
           eapply value_counts_strings; eassumption).
  - intros Ht Hp Hw.
    split_column "temp_avg"; split_column "precipitation";
      split_column "weather_main"; cbn [mbind result_bind];
      repeat match goal with
      | H : getitem df "temp_avg" = Ok ?c |- _ =>
          destruct (Ht c H) as ([? ->] & [? ->] & [? ->]); clear H;
          cbn [mbind result_bind]
      | H : getitem df "precipitation" = Ok ?c |- _ =>
          let Hn := fresh in
          destruct (Hp c H) as ([? ->] & Hn);
          destruct (series_gt_numbers c 0 Hn) as [? ->]; clear H;
          cbn [mbind result_bind]
      | H : getitem df "weather_main" = Ok ?c |- _ =>
          destruct (value_counts_hashable c (Hw c H)) as [? ->]; clear H;
          cbn [mbind result_bind]
      end; eexists; reflexivity.
Qed.

(** The summary of a table with the three columns, the reductions of
    pandas standing as named. *)
Example get_weather_summary_merged :
  get_weather_summary summary_pandas merged_frame =
  Ok [("avg_temp", Scalar (VStr "mean")); ("min_temp", Scalar (VStr "min"));
      ("max_temp", Scalar (VStr "max")); ("total_precip", Scalar (VStr "sum"));
      ("rainy_days", Scalar (VInt 2));
      ("weather_distribution", Counts [(VStr "Rain", 2); (VStr "Clear", 1)])].
Proof. reflexivity. Qed.

Example get_weather_summary_none :
  get_weather_summary summary_pandas
    [("date", [VDate 738886]); ("humidity", [VInt 60])] = Ok [].
Proof. reflexivity. Qed.

(** ** Properties of fetch_historical_weather *)

Section Loop.

Variable env : environment.
Variable api_key : string.

(** An iteration answered 429: the pause, no courtesy delay, and
    [continue]. *)
Lemma try_request_rate_limited st r :
  answer env api_key st = Replied r ->
  status_code r = 429 ->
  try_request env api_key st =
  (Ok Continue,
   log (Sleep 60) (log (Print RateLimited) (requested env api_key st))).
Proof.
  unfold answer. intros Hs Hc. unfold try_request, try_except, requested. cbv zeta.
  rewrite bind_run. unfold requests_get. rewrite Hs, Hc. reflexivity.
Qed.

(** Every other iteration ends at the end of the [try] statement, with
    the date it started with; no exception leaves the statement. *)
Lemma try_request_falls_through st :
  (forall r, answer env api_key st = Replied r -> status_code r <> 429) ->
  exists st',
    try_request env api_key st = (Ok FallThrough, st') /\
    current_date st' = current_date st /\
    exists effects,
      trace st' = trace (requested env api_key st) ++ effects /\
      ~ In (Sleep 60) effects /\
      forall params, ~ In (Get params) effects.
Proof.
  unfold answer. intros Hs. unfold try_request, try_except, requested. cbv zeta.
  rewrite bind_run. unfold requests_get.
  assert (Done : forall st1 effects,
            trace st1 = trace (requested env api_key st) ++ effects ->
            current_date st1 = current_date st ->
            ~ In (Sleep 60) effects -> (forall p, ~ In (Get p) effects) ->
            exists st',
              (Ok FallThrough, st1) = (Ok FallThrough, st') /\
              current_date st' = current_date st /\
              exists effects,
                trace st' = trace (requested env api_key st) ++ effects /\
                ~ In (Sleep 60) effects /\
                forall params, ~ In (Get params) effects).
  { intros st1 effects H1 H2 H3 H4. exists st1. split; [reflexivity|].
    split; [exact H2|]. exists effects. auto. }
  unfold requested in Done.
  destruct (server env _ _) as [r|e] eqn:Eo.
  - specialize (Hs r eq_refl).
    unfold mbind, M_bind, mret, M_ret, lift, append, print, sleep, raise.
    destruct (status_code r =? 200) eqn:E200;
      [|destruct (status_code r =? 401) eqn:E401;
        [|destruct (status_code r =? 429) eqn:E429; [lia|]]].
    + destruct (json r) as [data|e];
        [destruct (subscript data "current") as [daily|e];
         [destruct (observation (current_date st) daily) as [row|e]|]|].
      * apply Done with [Print (Fetched (ordinal (current_date st))); Sleep 1];
          [cbn; rewrite <- app_assoc; reflexivity | reflexivity | |];
          cbn; intuition discriminate.
      * apply Done with [Print (FetchError (current_date st) e)];
          [reflexivity | reflexivity | |]; cbn; intuition discriminate.
      * apply Done with [Print (FetchError (current_date st) e)];
          [reflexivity | reflexivity | |]; cbn; intuition discriminate.
      * apply Done with [Print (FetchError (current_date st) e)];
          [reflexivity | reflexivity | |]; cbn; intuition discriminate.
    + apply Done with
        [Print (FetchError (current_date st) (ValueError "Invalid API key"))];
        [reflexivity | reflexivity | |]; cbn; intuition discriminate.
    + apply Done with
        [Print (StatusError (status_code r) (ordinal (current_date st))); Sleep 1];
        [cbn; rewrite <- app_assoc; reflexivity | reflexivity | |];
        cbn; intuition discriminate.
  - apply Done with [Print (FetchError (current_date st) e)];
      [reflexivity | reflexivity | |]; cbn; intuition discriminate.
Qed.

(** Either way the iteration returns, and its first effect is the request
    for the current date. *)
Lemma try_request_returns st :
  exists k st' effects,
    try_request env api_key st = (Ok k, st') /\
    current_date st' = current_date st /\
    trace st' = trace st ++ Get (params_for env api_key (current_date st)) :: effects.
Proof.
  destruct (answer env api_key st) as [r|e] eqn:Ea.
  - destruct (Z.eq_dec (status_code r) 429) as [E|E].
    + rewrite (try_request_rate_limited _ r Ea E).
      eexists _, _, [_; _]. split; [reflexivity|]. split; [reflexivity|].
      cbn. rewrite <- !app_assoc. reflexivity.
    + destruct (try_request_falls_through st)
        as (st' & Hrun & Hd & effects & Ht & _).
      { intros r' Hr'. rewrite Hr' in Ea. injection Ea as ->. exact E. }
      exists FallThrough, st', effects. split; [exact Hrun|]. split; [exact Hd|].
      rewrite Ht. cbn. rewrite <- app_assoc. reflexivity.
  - destruct (try_request_falls_through st)
      as (st' & Hrun & Hd & effects & Ht & _).
    { intros r' Hr'. rewrite Hr' in Ea. discriminate. }
    exists FallThrough, st', effects. split; [exact Hrun|]. split; [exact Hd|].
    rewrite Ht. cbn. rewrite <- app_assoc. reflexivity.
Qed.

(** In particular an answer 401 does not end the run: its [raise] is
    caught, no row is added, and the loop goes on with the next day. *)
Lemma invalid_key_response_continues end_date fuel st r :
  datetime_le (current_date st) end_date = true ->
  answer env api_key st = Replied r -> status_code r = 401 ->
  try_request env api_key st =
    (Ok FallThrough,
     log (Print (FetchError (current_date st) (ValueError "Invalid API key")))
       (requested env api_key st)) /\
  while_loop env api_key end_date (S fuel) st =
    match add_day (current_date st) with
    | Ok d =>
        while_loop env api_key end_date fuel
          (set_current_date d
             (log (Print (FetchError (current_date st)
                            (ValueError "Invalid API key")))
                (requested env api_key st)))
    | Raise e =>
        Some (Raise e,
              log (Print (FetchError (current_date st)
                            (ValueError "Invalid API key")))
                (requested env api_key st))
    end.
Proof.
  intros Hle Ha Hc.
  assert (Hrun : try_request env api_key st =
    (Ok FallThrough,
     log (Print (FetchError (current_date st) (ValueError "Invalid API key")))
       (requested env api_key st))).
  { unfold answer in Ha. unfold try_request, try_except, requested. cbv zeta.
    rewrite bind_run. unfold requests_get. rewrite Ha, Hc. reflexivity. }
  split; [exact Hrun|]. cbn [while_loop]. rewrite Hle, Hrun. reflexivity.
Qed.

(** The only exception that leaves the loop is the overflow of the
    calendar: whatever the service answers, 401 included, is absorbed by
    the handler of the [try] statement. *)
Lemma while_loop_raises end_date fuel st e st' :
  while_loop env api_key end_date fuel st = Some (Raise e, st') ->
  e = OverflowError.
Proof.
  revert st. induction fuel as [|fuel IH]; intros st; cbn [while_loop];
    destruct (datetime_le (current_date st) end_date); try discriminate.
  destruct (try_request_returns st) as (k & st1 & eff & Hrun & _).
  rewrite Hrun. destruct k; [apply IH|].
  unfold add_day. destruct (MAXORDINAL <? _); [intros [= <- _]; reflexivity|].
  apply IH.
Qed.


End Loop.


(** C3. For a range with [start_date > end_date] and a key at hand, the
    call returns the empty table, and its only effects are the two lines
    it prints: the loop body never runs and no request is sent. *)
Theorem fetch_reversed_range_is_empty
  (env : environment) (fuel : nat) (start_date end_date : datetime)
  (api_key : option string) (key : string) :
  default_key env api_key = Some key -> key <> EmptyString ->
  datetime_le start_date end_date = false ->
  exists effects,
    fetch_historical_weather env fuel start_date end_date api_key
      = Some (Ok [], effects) /\
    effects = [Print (Fetching (ordinal start_date) (ordinal end_date));
               Print (Summary 0)] /\
    requests_made effects = O.
Proof.
  intros Hkey Hne Hgt. unfold fetch_historical_weather. cbv zeta. rewrite Hkey.
  destruct key as [|c key]; [congruence|].
  assert (Hloop : forall st, current_date st = start_date ->
            while_loop env (String c key) end_date fuel st = Some (Ok (), st)).
  { intros st Hst. destruct fuel; cbn [while_loop]; rewrite Hst, Hgt; reflexivity. }
  rewrite Hloop by reflexivity. cbn.
  eexists. split; [reflexivity|]. split; reflexivity.
Qed.

Lemma fetch_reversed_range_is_empty_witness :
  default_key sample_env None = Some "secret" /\
  "secret" <> EmptyString /\
  datetime_le (midnight 738888) (midnight 738887) = false /\
  fetch_historical_weather sample_env 0 (midnight 738888) (midnight 738887) None
    = Some (Ok [], [Print (Fetching 738888 738887); Print (Summary 0)]).
Proof.
  assert (H1 : default_key sample_env None = Some "secret") by reflexivity.
  assert (H2 : "secret" <> EmptyString) by discriminate.
  assert (H3 : datetime_le (midnight 738888) (midnight 738887) = false)
    by reflexivity.
  split; [exact H1|]. split; [exact H2|]. split; [exact H3|].
  destruct (fetch_reversed_range_is_empty sample_env 0 _ _ None "secret" H1 H2 H3)
    as (effects & Hrun & -> & _).
  exact Hrun.
Defined.

(** Without a key the call raises before it does anything else. *)
Lemma fetch_without_key env fuel start_date end_date api_key :
  default_key env api_key = None \/ default_key env api_key = Some EmptyString ->
  fetch_historical_weather env fuel start_date end_date api_key =
  Some (Raise (ValueError "API key not found. Set OPENWEATHER_API_KEY in .env file"),
        []).
Proof.
  unfold fetch_historical_weather. cbv zeta. intros [-> | ->]; reflexivity.
Qed.

(** C1 fails on the code. The [raise ValueError("Invalid API key")] stands
    inside the [try] statement whose handler catches every [Exception]:
    the 401 of the first day is printed as a fetch error, the loop moves
    on, and the call returns the table of the later day. *)
Theorem invalid_key_response_is_swallowed :
  fetch_historical_weather sample_env 3 (midnight 738886) (midnight 738887) None =
  Some
    (Ok [("date", [VDate 738887]); ("temp", [VFloat 41.5]);
         ("feels_like", [VFloat 38]); ("humidity", [VInt 60]);
         ("clouds", [VInt 20]); ("wind_speed", [VFloat 5.5]);
         ("weather_main", [VStr "Clear"]); ("weather_desc", [VStr "clear sky"])],
     [Print (Fetching 738886 738887);
      Get (params_for sample_env "secret" (midnight 738886));
      Print (FetchError (midnight 738886) (ValueError "Invalid API key"));
      Get (params_for sample_env "secret" (midnight 738887));
      Print RateLimited; Sleep 60;
      Get (params_for sample_env "secret" (midnight 738887));
      Print (Fetched 738887); Sleep 1;
      Print (Summary 1)]).
Proof. reflexivity. Qed.

(** No run raises the credential error of the loop: a call raises only for
    a missing key, before any request, or at the end of the calendar. *)
Lemma fetch_historical_weather_raises
  env fuel start_date end_date api_key e effects :
  fetch_historical_weather env fuel start_date end_date api_key
    = Some (Raise e, effects) ->
  (e = ValueError "API key not found. Set OPENWEATHER_API_KEY in .env file"
   /\ effects = []) \/
  e = OverflowError.
Proof.
  unfold fetch_historical_weather. cbv zeta.
  destruct (default_key env api_key) as [[|c key]|];
    try (intros [= <- <-]; left; split; reflexivity).
  destruct (while_loop _ _ _ _ _) as [[[u|e'] st']|] eqn:E; try discriminate.
  intros [= <- _]. right. exact (while_loop_raises _ _ _ _ _ _ _ E).
Qed.

(** ** Runs of fetch_historical_weather *)

Lemma requests_of_app t1 t2 :
  requests_of (t1 ++ t2) = requests_of t1 ++ requests_of t2.
Proof.
  induction t1 as [|[p|s|m] t1 IH]; cbn [requests_of app]; [reflexivity | |exact IH..].
  rewrite IH. reflexivity.
Qed.

Lemma requests_of_none effects :
  (forall p, ~ In (Get p) effects) -> requests_of effects = [].
Proof.
  induction effects as [|[p|s|m] t IH]; cbn [requests_of]; intros H;
    [reflexivity | | apply IH; intros p Hp; apply (H p); right; exact Hp ..].
  destruct (H p). left. reflexivity.
Qed.

(** A day's dict has the eight keys, and its date is the current one. *)
Lemma observation_keys current_date daily row :
  observation current_date daily = Ok row ->
  row.*1 = record_keys /\
  dict_get row "date" = Some (VDate (ordinal current_date)).
Proof.
  unfold observation.
  repeat match goal with
  | |- context [mbind _ ?m] =>
      lazymatch m with
      | Ok _ => fail
      | _ => destruct m; cbn [mbind result_bind]; [|discriminate]
      end
  end.
  intros [= <-]. split; reflexivity.
Qed.

Lemma increasing_snoc days d :
  increasing days -> Forall (fun d' => d' < d) days -> increasing (days ++ [d]).
Proof.
  induction days as [|x days IH]; cbn [increasing app]; intros H Hlt.
  - split; [constructor | exact I].
  - destruct H as [Hx Hinc]. apply Forall_cons in Hlt as [Hxd Hlt]. split.
    + apply Forall_app. split; [exact Hx | constructor; [exact Hxd | constructor]].
    + exact (IH Hinc Hlt).
Qed.

Lemma in_order_snoc dates d :
  in_order dates -> Forall (fun d' => ordinal d' <= ordinal d) dates ->
  in_order (dates ++ [d]).
Proof.
  induction dates as [|x dates IH]; cbn [in_order app]; intros H Hle.
  - split; [constructor | exact I].
  - destruct H as [Hx Hord]. apply Forall_cons in Hle as [Hxd Hle]. split.
    + apply Forall_app. split; [exact Hx | constructor; [exact Hxd | constructor]].
    + exact (IH Hord Hle).
Qed.

(** Days that increase within bounds are no more than the bounds allow. *)
Lemma increasing_length days lo hi :
  increasing days -> Forall (fun d => lo <= d <= hi) days ->
  Z.of_nat (length days) <= Z.max 0 (hi - lo + 1).
Proof.
  revert lo. induction days as [|d days IH]; intros lo; cbn [increasing length].
  - intros _ _. lia.
  - intros [Hd Hinc] Hb. apply Forall_cons in Hb as [Hdb Hb].
    assert (Hb' : Forall (fun d' => d + 1 <= d' <= hi) days).
    { rewrite Forall_forall in *. intros x Hx.
      specialize (Hd x Hx). specialize (Hb x Hx). lia. }
    specialize (IH (d + 1) Hinc Hb'). lia.
Qed.

Section Runs.

Variable env : environment.
Variable api_key : string.

(** What an iteration does, in full: it returns; it sends the request for
    the current date first and no other; it keeps the date; it adds no row
    or the row of the current date, the latter only for an answer 200 with
    a complete body; and it ends at [continue] exactly for an answer
    429. *)
Lemma try_request_cases st :
  exists k st' effects,
    try_request env api_key st = (Ok k, st') /\
    current_date st' = current_date st /\
    trace st' =
      trace st ++ Get (params_for env api_key (current_date st)) :: effects /\
    (forall p, ~ In (Get p) effects) /\
    (weather_data st' = weather_data st \/
     exists r data daily row,
       answer env api_key st = Replied r /\ status_code r = 200 /\
       json r = Ok data /\ subscript data "current" = Ok daily /\
       observation (current_date st) daily = Ok row /\
       weather_data st' = weather_data st ++ [row]) /\
    (k = Continue <->
     exists r, answer env api_key st = Replied r /\ status_code r = 429).
Proof.
  unfold answer, try_request, try_except. cbv zeta.
  rewrite bind_run. unfold requests_get.
  set (rq := params_for env api_key (current_date st)).
  destruct (server env _ rq) as [r|e] eqn:Eo.
  - unfold mbind, M_bind, mret, M_ret, lift, append, print, sleep, raise.
    destruct (status_code r =? 200) eqn:E200;
      [|destruct (status_code r =? 401) eqn:E401;
        [|destruct (status_code r =? 429) eqn:E429]].
    + destruct (json r) as [data|e] eqn:Ej;
        [destruct (subscript data "current") as [daily|e] eqn:Es;
         [destruct (observation (current_date st) daily) as [row|e] eqn:Er|]|].
      * eexists FallThrough, _, [_; _]. split; [reflexivity|].
        split; [reflexivity|]. split; [cbn; rewrite <- !app_assoc; reflexivity|].
        split; [cbn; intuition discriminate|]. split.
        -- right. exists r, data, daily, row. repeat split; try assumption. lia.
        -- split; [discriminate | intros (r' & [= <-] & Hc); lia].
      * eexists FallThrough, _, [_]. split; [reflexivity|].
        split; [reflexivity|]. split; [cbn; rewrite <- !app_assoc; reflexivity|].
        split; [cbn; intuition discriminate|]. split; [left; reflexivity|].
        split; [discriminate | intros (r' & [= <-] & Hc); lia].
      * eexists FallThrough, _, [_]. split; [reflexivity|].
        split; [reflexivity|]. split; [cbn; rewrite <- !app_assoc; reflexivity|].
        split; [cbn; intuition discriminate|]. split; [left; reflexivity|].
        split; [discriminate | intros (r' & [= <-] & Hc); lia].
      * eexists FallThrough, _, [_]. split; [reflexivity|].
        split; [reflexivity|]. split; [cbn; rewrite <- !app_assoc; reflexivity|].
        split; [cbn; intuition discriminate|]. split; [left; reflexivity|].
        split; [discriminate | intros (r' & [= <-] & Hc); lia].
    + eexists FallThrough, _, [_]. split; [reflexivity|].
      split; [reflexivity|]. split; [cbn; rewrite <- !app_assoc; reflexivity|].
      split; [cbn; intuition discriminate|]. split; [left; reflexivity|].
      split; [discriminate | intros (r' & [= <-] & Hc); lia].
    + eexists Continue, _, [_; _]. split; [reflexivity|].
      split; [reflexivity|]. split; [cbn; rewrite <- !app_assoc; reflexivity|].
      split; [cbn; intuition discriminate|]. split; [left; reflexivity|].
      split; [intros _; exists r; split; [reflexivity | lia] | reflexivity].
    + eexists FallThrough, _, [_; _]. split; [reflexivity|].
      split; [reflexivity|]. split; [cbn; rewrite <- !app_assoc; reflexivity|].
      split; [cbn; intuition discriminate|]. split; [left; reflexivity|].
      split; [discriminate | intros (r' & [= <-] & Hc); lia].
  - cbn. eexists FallThrough, _, [_]. split; [reflexivity|].
    split; [reflexivity|]. split; [cbn; rewrite <- !app_assoc; reflexivity|].
    split; [cbn; intuition discriminate|]. split; [left; reflexivity|].
    split; [discriminate | intros (r' & [=] & _)].
Qed.

(** A property of the loop's state that holds before the loop and is kept
    by every iteration, the step to the next day included, holds when the
    loop ends; then the current date is past the end of the range. *)
Lemma while_loop_invariant (I : fetch_state -> Prop) end_date :
  (forall st k st1,
     datetime_le (current_date st) end_date = true -> I st ->
     try_request env api_key st = (Ok k, st1) ->
     match k with
     | Continue => I st1
     | FallThrough =>
         forall d, add_day (current_date st1) = Ok d -> I (set_current_date d st1)
     end) ->
  forall fuel st st',
    I st -> while_loop env api_key end_date fuel st = Some (Ok (), st') ->
    I st' /\ datetime_le (current_date st') end_date = false.
Proof.
  intros Hstep. induction fuel as [|fuel IH]; intros st st' HI; cbn [while_loop];
    destruct (datetime_le (current_date st) end_date) eqn:Hle;
    try discriminate; try (intros [= <-]; split; assumption).
  destruct (try_request_cases st) as (k & st1 & eff & Hrun & _).
  rewrite Hrun. pose proof (Hstep st k st1 Hle HI Hrun) as Hk.
  destruct k; [apply IH; exact Hk|].
  destruct (add_day (current_date st1)) as [d|e] eqn:Ed; [|discriminate].
  apply IH. apply Hk. reflexivity.
Qed.

(** The loop raises only when the calendar ends within the range. *)
Lemma while_loop_no_overflow end_date fuel st e st' :
  ordinal end_date < MAXORDINAL ->
  while_loop env api_key end_date fuel st = Some (Raise e, st') -> False.
Proof.
  intros Hmax. revert st. induction fuel as [|fuel IH]; intros st; cbn [while_loop];
    destruct (datetime_le (current_date st) end_date) eqn:Hle; try discriminate.
  destruct (try_request_cases st) as (k & st1 & eff & Hrun & Hd & _).
  rewrite Hrun. destruct k; [apply IH|].
  unfold add_day. rewrite Hd.
  assert (ordinal (current_date st) <= ordinal end_date).
  { unfold datetime_le in Hle. lia. }
  destruct (Z.ltb_spec MAXORDINAL (ordinal (current_date st) + 1)); [lia|].
  apply IH.
Qed.

Lemma rows_in_order_kept start_date end_date st k st1 :
  datetime_le (current_date st) end_date = true ->
  rows_in_order start_date end_date st ->
  ordinal start_date <= ordinal (current_date st) ->
  try_request env api_key st = (Ok k, st1) ->
  match k with
  | Continue => rows_in_order start_date end_date st1
  | FallThrough =>
      forall d, add_day (current_date st1) = Ok d ->
                rows_in_order start_date end_date (set_current_date d st1)
  end.
Proof.
  intros Hle (Hkeys & days & Hdays & Hinc & Hb) Hstart Hrun.
  destruct (try_request_cases st) as (k' & st1' & eff & Hrun' & Hd & _ & _ & Hrows & Hk).
  rewrite Hrun in Hrun'. injection Hrun' as <- <-.
  assert (Hord : ordinal (current_date st) <= ordinal end_date)
    by (unfold datetime_le in Hle; lia).
  assert (Hsame : forall st2, weather_data st2 = weather_data st ->
            ordinal (current_date st) <= ordinal (current_date st2) ->
            rows_in_order start_date end_date st2).
  { intros st2 Hw Hcur. unfold rows_in_order. rewrite Hw.
    split; [exact Hkeys|]. exists days. split; [exact Hdays|].
    split; [exact Hinc|]. eapply Forall_impl; [exact Hb|]. cbn. intros; lia. }
  destruct k.
  - destruct Hrows as [Hw | (r & data & daily & row & Ha & Hc & _)].
    + apply Hsame; [exact Hw | rewrite Hd; lia].
    + destruct (proj1 Hk eq_refl) as (r' & Ha' & Hc'). rewrite Ha in Ha'.
      injection Ha' as <-. lia.
  - intros d Hadd. unfold add_day in Hadd. rewrite Hd in Hadd.
    destruct (MAXORDINAL <? _); [discriminate|]. injection Hadd as <-.
    destruct Hrows as [Hw | (r & data & daily & row & _ & _ & _ & _ & Hobs & Hw)].
    + apply Hsame; [exact Hw | cbn; lia].
    + destruct (observation_keys _ _ _ Hobs) as [Hrk Hrd].
      unfold rows_in_order. cbn [weather_data set_current_date current_date ordinal].
      rewrite Hw. split.
      * apply Forall_app. split; [exact Hkeys | constructor; [exact Hrk | constructor]].
      * exists (days ++ [ordinal (current_date st)]).
        rewrite !fmap_app, Hdays. cbn. rewrite Hrd.
        split; [reflexivity|]. split.
        -- apply increasing_snoc; [exact Hinc|].
           eapply Forall_impl; [exact Hb|]. cbn. intros; lia.
        -- apply Forall_app. split.
           ++ eapply Forall_impl; [exact Hb|]. cbn. intros; lia.
           ++ constructor; [lia | constructor].
Qed.

Lemma requests_in_order_kept start_date end_date st k st1 :
  datetime_le (current_date st) end_date = true ->
  requests_in_order env api_key start_date end_date st ->
  try_request env api_key st = (Ok k, st1) ->
  match k with
  | Continue => requests_in_order env api_key start_date end_date st1
  | FallThrough =>
      forall d, add_day (current_date st1) = Ok d ->
        requests_in_order env api_key start_date end_date (set_current_date d st1)
  end.
Proof.
  intros Hle (Hus & Hstart & dates & Hreq & Hord & Hrange & Hcur) Hrun.
  destruct (try_request_cases st) as (k' & st1' & eff & Hrun' & Hd & Ht & Hget & _).
  rewrite Hrun in Hrun'. injection Hrun' as <- <-.
  assert (Hnext : forall st2, trace st2 = trace st1 ->
            microsecond (current_date st2) = microsecond (current_date st) ->
            ordinal (current_date st) <= ordinal (current_date st2) ->
            requests_in_order env api_key start_date end_date st2).
  { intros st2 Ht2 Hus2 Hord2. unfold requests_in_order.
    split; [congruence|]. split; [lia|].
    exists (dates ++ [current_date st]).
    rewrite Ht2, Ht, requests_of_app. cbn [requests_of].
    rewrite (requests_of_none eff Hget), Hreq, fmap_app.
    split; [reflexivity|]. split; [apply in_order_snoc; assumption|]. split.
    - apply Forall_app. split; [exact Hrange|].
      constructor; [|constructor]. unfold in_range. auto.
    - apply Forall_app. split.
      + eapply Forall_impl; [exact Hcur|]. cbn. intros; lia.
      + constructor; [exact Hord2 | constructor]. }
  destruct k.
  - apply Hnext; [reflexivity | congruence | rewrite Hd; lia].
  - intros d Hadd. unfold add_day in Hadd. rewrite Hd in Hadd.
    destruct (MAXORDINAL <? _); [discriminate|]. injection Hadd as <-.
    apply Hnext; [reflexivity | reflexivity | cbn; lia].
Qed.

(** Without an answer 429 the loop ends within one iteration per date of
    the range, having sent one request per date. *)
Lemma days_in_range_step cur end_date :
  datetime_le cur end_date = true ->
  days_in_range cur end_date = S (days_in_range (next_day cur) end_date).
Proof.
  unfold days_in_range, datetime_le, next_day. cbn [ordinal microsecond].
  intros H.
  destruct (Z.ltb_spec (ordinal cur) (ordinal end_date)),
           (Z.eqb_spec (ordinal cur) (ordinal end_date)),
           (Z.leb_spec (microsecond cur) (microsecond end_date)),
           (Z.ltb_spec (ordinal cur + 1) (ordinal end_date)),
           (Z.eqb_spec (ordinal cur + 1) (ordinal end_date));
    cbn in *; try discriminate; lia.
Qed.

Lemma while_loop_without_limit end_date fuel st :
  never_limited env -> ordinal end_date < MAXORDINAL ->
  (days_in_range (current_date st) end_date <= fuel)%nat ->
  exists st',
    while_loop env api_key end_date fuel st = Some (Ok (), st') /\
    requests_of (trace st') =
      requests_of (trace st) ++
      (params_for env api_key
         <$> days_from (current_date st) (days_in_range (current_date st) end_date)).
Proof.
  intros Hnever Hmax. revert st. induction fuel as [|fuel IH]; intros st Hfuel;
    cbn [while_loop]; destruct (datetime_le (current_date st) end_date) eqn:Hle.
  - rewrite (days_in_range_step _ _ Hle) in Hfuel. lia.
  - exists st. split; [reflexivity|]. unfold days_in_range. rewrite Hle.
    cbn. rewrite app_nil_r. reflexivity.
  - destruct (try_request_cases st)
      as (k & st1 & eff & Hrun & Hd & Ht & Hget & _ & Hk).
    rewrite Hrun. destruct k.
    { destruct (proj1 Hk eq_refl) as (r & Ha & Hc). destruct (Hnever _ _ _ Ha Hc). }
    unfold add_day. rewrite Hd.
    assert (ordinal (current_date st) <= ordinal end_date)
      by (unfold datetime_le in Hle; lia).
    destruct (Z.ltb_spec MAXORDINAL (ordinal (current_date st) + 1)); [lia|].
    fold (next_day (current_date st)).
    rewrite (days_in_range_step _ _ Hle) in Hfuel |- *.
    destruct (IH (set_current_date (next_day (current_date st)) st1))
      as (st' & Hloop & Hreq); [cbn; lia|].
    exists st'. split; [exact Hloop|]. rewrite Hreq. cbn [set_current_date trace current_date].
    rewrite Ht, requests_of_app. cbn [requests_of days_from].
    rewrite (requests_of_none eff Hget), fmap_cons, <- app_assoc. reflexivity.
  - exists st. split; [reflexivity|]. unfold days_in_range. rewrite Hle.
    cbn. rewrite app_nil_r. reflexivity.
Qed.

(** Against answers 429 only, the loop ends within no number of
    iterations. *)
Lemma while_loop_always_limited end_date fuel st :
  always_limited env ->
  datetime_le (current_date st) end_date = true ->
  while_loop env api_key end_date fuel st = None.
Proof.
  intros Halways. revert st. induction fuel as [|fuel IH]; intros st Hle;
    cbn [while_loop]; rewrite Hle; [reflexivity|].
  destruct (try_request_cases st) as (k & st1 & eff & Hrun & Hd & _ & _ & _ & Hk).
  rewrite Hrun.
  assert (k = Continue) as ->.
  { apply Hk. unfold answer. apply Halways. }
  apply IH. rewrite Hd. exact Hle.
Qed.

End Runs.

(** A call with a key at hand is the loop from the initial state, then the
    table of the rows. *)
Lemma fetch_historical_weather_with_key
  env fuel start_date end_date api_key key :
  default_key env api_key = Some key -> key <> EmptyString ->
  fetch_historical_weather env fuel start_date end_date api_key =
  match while_loop env key end_date fuel (initial_state start_date end_date) with
  | None => None
  | Some (Raise e, st') => Some (Raise e, trace st')
  | Some (Ok _, st') =>
      Some (Ok (DataFrame_of_records (weather_data st')),
            trace st' ++ [Print (Summary (length (weather_data st')))])
  end.
Proof.
  intros Hkey Hne. unfold fetch_historical_weather. cbv zeta. rewrite Hkey.
  destruct key as [|c key]; [congruence | reflexivity].
Qed.

(** A call that returns had a key, and its loop ended with the rows and
    the requests in order. *)
Lemma fetch_historical_weather_returned
  env fuel start_date end_date api_key df effects :
  fetch_historical_weather env fuel start_date end_date api_key
    = Some (Ok df, effects) ->
  exists key st',
    default_key env api_key = Some key /\
    df = DataFrame_of_records (weather_data st') /\
    effects = trace st' ++ [Print (Summary (length (weather_data st')))] /\
    rows_in_order start_date end_date st' /\
    requests_in_order env key start_date end_date st'.
Proof.
  intros Hrun.
  destruct (default_key env api_key) as [[|c key]|] eqn:Hkey;
    try (unfold fetch_historical_weather in Hrun; cbv zeta in Hrun;
         rewrite Hkey in Hrun; discriminate).
  rewrite (fetch_historical_weather_with_key _ _ _ _ _ _ Hkey) in Hrun
    by discriminate.
  destruct (while_loop _ _ _ _ _) as [[[[]|e] st']|] eqn:Hloop; try discriminate.
  injection Hrun as <- <-.
  exists (String c key), st'. split; [reflexivity|]. split; [reflexivity|].
  split; [reflexivity|].
  destruct (while_loop_invariant env (String c key)
              (fun st => (rows_in_order start_date end_date st /\
                          ordinal start_date <= ordinal (current_date st)) /\
                         requests_in_order env (String c key) start_date end_date st)
              end_date) with (fuel := fuel) (st := initial_state start_date end_date)
              (st' := st') as [[[Hrows _] Hreqs] _].
  - intros st k st1 Hle [[Hrows Hstart] Hreqs] Htry.
    pose proof (rows_in_order_kept _ _ _ _ _ _ _ Hle Hrows Hstart Htry) as H1.
    pose proof (requests_in_order_kept _ _ _ _ _ _ _ Hle Hreqs Htry) as H2.
    destruct k.
    + split; [split; [exact H1|]|exact H2]. destruct H2 as (_ & H & _). exact H.
    + intros d Hd. split; [split; [exact (H1 d Hd)|]|exact (H2 d Hd)].
      destruct (H2 d Hd) as (_ & H & _). exact H.
  - split; [split|].
    + split; [constructor|]. exists []. repeat split; constructor.
    + cbn. lia.
    + split; [reflexivity|]. split; [cbn; lia|]. exists [].
      repeat split; constructor.
  - exact Hloop.
  - split; assumption.
Qed.

(** The table of rows that all have the eight keys. *)
Lemma DataFrame_of_records_keys first rows :
  Forall (fun row : record => row.*1 = record_keys) (first :: rows) ->
  columns (DataFrame_of_records (first :: rows)) = record_keys /\
  rectangular (S (length rows)) (DataFrame_of_records (first :: rows)) /\
  getitem (DataFrame_of_records (first :: rows)) "date" =
    Ok ((fun r => default (VFloat nan) (dict_get r "date")) <$> first :: rows).
Proof.
  intros H. apply Forall_cons in H as [Hfirst _].
  unfold DataFrame_of_records. rewrite Hfirst. unfold record_keys.
  split; [reflexivity|]. split; [|reflexivity].
  unfold rectangular. rewrite !fmap_cons, fmap_nil.
  repeat (constructor;
          [cbn [snd length]; rewrite length_fmap; reflexivity|]).
  constructor.
Qed.

Lemma date_cells (rows : list record) days :
  (fun row : record => dict_get row "date") <$> rows
    = (fun d => Some (VDate d)) <$> days ->
  (fun r : record => default (VFloat nan) (dict_get r "date")) <$> rows
    = VDate <$> days.
Proof.
  intros H. apply (f_equal (fmap (default (VFloat nan)))) in H.
  rewrite <- !list_fmap_compose in H. exact H.
Qed.

(** An iteration served with the weather of the day adds the row of the
    current date. *)
Lemma try_request_fetched env api_key st r data daily row :
  answer env api_key st = Replied r -> status_code r = 200 ->
  json r = Ok data -> subscript data "current" = Ok daily ->
  observation (current_date st) daily = Ok row ->
  try_request env api_key st =
  (Ok FallThrough,
   log (Sleep 1)
     (log (Print (Fetched (ordinal (current_date st))))
        {| weather_data := weather_data st ++ [row];
           current_date := current_date st;
           trace := trace (requested env api_key st) |})).
Proof.
  unfold answer. intros Hs Hc Hj Hsub Hobs.
  unfold try_request, try_except, requested. cbv zeta.
  rewrite bind_run. unfold requests_get. rewrite Hs, Hc.
  unfold mbind, M_bind, mret, M_ret, lift, append, print, sleep, raise.
  cbn [Z.eqb Pos.eqb]. rewrite Hj, Hsub, Hobs. reflexivity.
Qed.

Lemma while_loop_served env api_key end_date fuel st :
  serves_every_day env -> ordinal end_date < MAXORDINAL ->
  (days_in_range (current_date st) end_date <= fuel)%nat ->
  exists st',
    while_loop env api_key end_date fuel st = Some (Ok (), st') /\
    Forall (fun row : record => row.*1 = record_keys)
      (drop (length (weather_data st)) (weather_data st')) /\
    take (length (weather_data st)) (weather_data st') = weather_data st /\
    (fun row : record => dict_get row "date")
      <$> drop (length (weather_data st)) (weather_data st')
    = (fun d => Some (VDate (ordinal d)))
      <$> days_from (current_date st) (days_in_range (current_date st) end_date).
Proof.
  intros Hserves Hmax. revert st. induction fuel as [|fuel IH]; intros st Hfuel;
    cbn [while_loop]; destruct (datetime_le (current_date st) end_date) eqn:Hle.
  - rewrite (days_in_range_step _ _ Hle) in Hfuel. lia.
  - exists st. split; [reflexivity|]. unfold days_in_range. rewrite Hle.
    rewrite drop_all, firstn_all. repeat split; constructor.
  - destruct (Hserves (requests_made (trace st))
                (params_for env api_key (current_date st)))
      as (r & data & daily & Ha & Hc & Hj & Hsub & Hobs).
    destruct (Hobs (current_date st)) as [row Hrow].
    rewrite (try_request_fetched env api_key st r data daily row Ha Hc Hj Hsub Hrow).
    cbn [log current_date]. unfold add_day.
    assert (ordinal (current_date st) <= ordinal end_date)
      by (unfold datetime_le in Hle; lia).
    destruct (Z.ltb_spec MAXORDINAL (ordinal (current_date st) + 1)); [lia|].
    fold (next_day (current_date st)).
    rewrite (days_in_range_step _ _ Hle) in Hfuel |- *.
    match goal with
    | |- context [while_loop _ _ _ fuel ?s] =>
        destruct (IH s) as (st' & Hloop & Hkeys & Htake & Hdates); [cbn; lia|]
    end.
    cbn [set_current_date log weather_data current_date] in Hkeys, Htake, Hdates.
    rewrite length_app in Hkeys, Htake, Hdates. cbn [length] in Hkeys, Htake, Hdates.
    exists st'. split; [exact Hloop|].
    destruct (observation_keys _ _ _ Hrow) as [Hrk Hrd].
    assert (Hsplit : drop (length (weather_data st)) (weather_data st')
                     = row :: drop (length (weather_data st) + 1) (weather_data st')).
    { rewrite <- (take_drop (length (weather_data st) + 1) (weather_data st')) at 1.
      rewrite Htake, <- app_assoc, drop_app_length. reflexivity. }
    rewrite Hsplit. split; [constructor; assumption|]. split.
    + rewrite <- (take_drop (length (weather_data st) + 1) (weather_data st')).
      rewrite Htake, <- app_assoc, take_app_length. reflexivity.
    + cbn [days_from]. rewrite !fmap_cons, Hrd, Hdates. reflexivity.
  - exists st. split; [reflexivity|]. unfold days_in_range. rewrite Hle.
    rewrite drop_all, firstn_all. repeat split; constructor.
Qed.

Lemma days_from_length d n : length (days_from d n) = n.
Proof.
  revert d. induction n as [|n IH]; intros d; cbn [days_from length];
    [reflexivity | rewrite IH; reflexivity].
Qed.

(** X1. The only [ValueError] a call raises is the one for a missing key:
    it is raised exactly when the argument is [None] and the environment
    has no key or an empty one, or when the argument is the empty string,
    which is not replaced by the environment's key; and then nothing was
    printed or requested. No answer of the service, 401 included, makes
    the call raise a [ValueError]. *)
Theorem fetch_value_error_is_missing_key
  env fuel start_date end_date api_key msg effects :
  fetch_historical_weather env fuel start_date end_date api_key
    = Some (Raise (ValueError msg), effects) <->
  ((api_key = None /\ (API_KEY env = None \/ API_KEY env = Some EmptyString)) \/
   api_key = Some EmptyString) /\
  msg = "API key not found. Set OPENWEATHER_API_KEY in .env file" /\
  effects = [].
Proof.
  split.
  - intros Hrun.
    destruct (default_key env api_key) as [[|c key]|] eqn:Hkey.
    + rewrite fetch_without_key in Hrun by (right; exact Hkey).
      injection Hrun as <- <-. split; [|split; reflexivity].
      destruct api_key as [k|]; cbn in Hkey; [right; exact Hkey | left; auto].
    + rewrite (fetch_historical_weather_with_key _ _ _ _ _ _ Hkey) in Hrun
        by discriminate.
      destruct (while_loop _ _ _ _ _) as [[[[]|e] st']|] eqn:Hloop;
        try discriminate.
      apply while_loop_raises in Hloop. subst e. discriminate.
    + rewrite fetch_without_key in Hrun by (left; exact Hkey).
      injection Hrun as <- <-. split; [|split; reflexivity].
      destruct api_key as [k|]; cbn in Hkey; [discriminate | left; auto].
  - intros (Hkey & -> & ->). apply fetch_without_key.
    destruct Hkey as [[-> [H | H]] | ->]; cbn; auto.
Qed.

(** X2. With a key, and a range that ends before the last day of the
    calendar, a call that ends returns a table: whatever the service
    answers or however the requests fail, nothing is raised (the dates
    being ones the clock conversion of the environment accepts). *)
Theorem fetch_with_key_returns_table
  env fuel start_date end_date api_key key res effects :
  default_key env api_key = Some key -> key <> EmptyString ->
  ordinal end_date < MAXORDINAL ->
  fetch_historical_weather env fuel start_date end_date api_key
    = Some (res, effects) ->
  exists df, res = Ok df.
Proof.
  intros Hkey Hne Hmax.
  rewrite (fetch_historical_weather_with_key _ _ _ _ _ _ Hkey Hne).
  destruct (while_loop _ _ _ _ _) as [[[[]|e] st']|] eqn:Hloop; try discriminate.
  - intros [= <- _]. eexists. reflexivity.
  - destruct (while_loop_no_overflow _ _ _ _ _ _ _ Hmax Hloop).
Qed.

Lemma fetch_with_key_returns_table_witness :
  exists res effects,
    fetch_historical_weather sample_env 3 (midnight 738886) (midnight 738887) None
      = Some (res, effects) /\
    exists df, res = Ok df.
Proof.
  eexists _, _. split; [reflexivity|].
  eapply (fetch_with_key_returns_table
            sample_env 3 (midnight 738886) (midnight 738887) None "secret");
    [reflexivity | discriminate | reflexivity | reflexivity].
Defined.

(** X3. When the service never answers 429, a call with a key ends within
    one iteration per date of the range, returns a table, and has sent
    exactly one request per date, in order from the start date up to the
    end date: failures and error statuses are not retried. *)
Theorem fetch_one_request_per_day
  env fuel start_date end_date api_key key :
  never_limited env ->
  default_key env api_key = Some key -> key <> EmptyString ->
  ordinal end_date < MAXORDINAL ->
  (days_in_range start_date end_date <= fuel)%nat ->
  exists df effects,
    fetch_historical_weather env fuel start_date end_date api_key
      = Some (Ok df, effects) /\
    requests_of effects =
      params_for env key
        <$> days_from start_date (days_in_range start_date end_date).
Proof.
  intros Hnever Hkey Hne Hmax Hfuel.
  rewrite (fetch_historical_weather_with_key _ _ _ _ _ _ Hkey Hne).
  destruct (while_loop_without_limit env key end_date fuel
              (initial_state start_date end_date) Hnever Hmax Hfuel)
    as (st' & -> & Hreq).
  eexists _, _. split; [reflexivity|].
  rewrite requests_of_app, Hreq. cbn. rewrite app_nil_r. reflexivity.
Qed.

Lemma fetch_one_request_per_day_witness :
  exists df effects,
    fetch_historical_weather steady_env 5 (midnight 738886) (midnight 738888)
      (Some "k") = Some (Ok df, effects) /\
    requests_of effects =
      params_for steady_env "k"
        <$> [midnight 738886; midnight 738887; midnight 738888].
Proof.
  apply (fetch_one_request_per_day
           steady_env 5 (midnight 738886) (midnight 738888) (Some "k") "k").
  - intros n params r [= <-]. discriminate.
  - reflexivity.
  - discriminate.
  - reflexivity.
  - vm_compute. lia.
Defined.

(** X4. When the service answers 429 to every request, a call with a key
    over a range that is not empty never ends: no number of iterations is
    enough, since the retry has no bound. *)
Theorem fetch_always_limited_never_ends
  env fuel start_date end_date api_key key :
  always_limited env ->
  default_key env api_key = Some key -> key <> EmptyString ->
  datetime_le start_date end_date = true ->
  fetch_historical_weather env fuel start_date end_date api_key = None.
Proof.
  intros Halways Hkey Hne Hle.
  rewrite (fetch_historical_weather_with_key _ _ _ _ _ _ Hkey Hne).
  rewrite (while_loop_always_limited env key end_date fuel
             (initial_state start_date end_date) Halways Hle).
  reflexivity.
Qed.

Lemma fetch_always_limited_never_ends_witness :
  fetch_historical_weather busy_env 1000 (midnight 738886) (midnight 738886) None
    = None.
Proof.
  apply (fetch_always_limited_never_ends
           busy_env 1000 (midnight 738886) (midnight 738886) None "secret").
  - intros n params. eexists. split; reflexivity.
  - reflexivity.
  - discriminate.
  - reflexivity.
Defined.

(** X5. The table a call returns is empty, with no column at all, when no
    day was fetched; otherwise it has exactly the eight columns date,
    temp, feels_like, humidity, clouds, wind_speed, weather_main and
    weather_desc, in this order, with one cell per fetched day. The last
    line printed tells the number of rows. *)
Theorem fetch_table_shape
  env fuel start_date end_date api_key df effects :
  fetch_historical_weather env fuel start_date end_date api_key
    = Some (Ok df, effects) ->
  exists n,
    last effects = Some (Print (Summary n)) /\
    ((n = O /\ df = []) \/
     ((0 < n)%nat /\ columns df = record_keys /\ rectangular n df)).
Proof.
  intros Hrun.
  destruct (fetch_historical_weather_returned _ _ _ _ _ _ _ Hrun)
    as (key & st' & _ & -> & -> & [Hkeys _] & _).
  exists (length (weather_data st')). split; [apply last_snoc|].
  destruct (weather_data st') as [|first rows]; [left; split; reflexivity|].
  right. destruct (DataFrame_of_records_keys first rows Hkeys) as (Hc & Hr & _).
  cbn [length]. split; [lia|]. split; assumption.
Qed.

Lemma fetch_table_shape_witness :
  exists df effects,
    fetch_historical_weather sample_env 3 (midnight 738886) (midnight 738887) None
      = Some (Ok df, effects) /\
    exists n,
      last effects = Some (Print (Summary n)) /\
      ((n = O /\ df = []) \/
       ((0 < n)%nat /\ columns df = record_keys /\ rectangular n df)).
Proof.
  eexists _, _. split; [reflexivity|].
  eapply (fetch_table_shape
            sample_env 3 (midnight 738886) (midnight 738887) None).
  reflexivity.
Defined.

(** X6. In the table a call returns, the date column holds days of the
    range only, each at most once and in increasing order, so the table
    has no more rows than the range has days: a day is never fetched
    twice, not even after a retry. *)
Theorem fetch_dates_increase
  env fuel start_date end_date api_key df effects :
  fetch_historical_weather env fuel start_date end_date api_key
    = Some (Ok df, effects) ->
  df = [] \/
  exists days,
    getitem df "date" = Ok (VDate <$> days) /\
    increasing days /\
    Forall (fun d => ordinal start_date <= d <= ordinal end_date) days /\
    Z.of_nat (length days) <= ordinal end_date - ordinal start_date + 1.
Proof.
  intros Hrun.
  destruct (fetch_historical_weather_returned _ _ _ _ _ _ _ Hrun)
    as (key & st' & _ & -> & _ & [Hkeys (days & Hdays & Hinc & Hin)] & _).
  destruct (weather_data st') as [|first rows]; [left; reflexivity|].
  right. destruct (DataFrame_of_records_keys first rows Hkeys) as (_ & _ & Hd).
  assert (Hb : Forall (fun d => ordinal start_date <= d <= ordinal end_date) days).
  { eapply Forall_impl; [exact Hin|]. cbn. intros d [H _]. exact H. }
  exists days. rewrite Hd, (date_cells _ _ Hdays).
  split; [reflexivity|]. split; [exact Hinc|]. split; [exact Hb|].
  pose proof (increasing_length days _ _ Hinc Hb) as Hlen.
  destruct days as [|d days]; [discriminate|].
  apply Forall_cons in Hb as [Hd0 _]. lia.
Qed.

Lemma fetch_dates_increase_witness :
  exists df effects,
    fetch_historical_weather sample_env 3 (midnight 738886) (midnight 738887) None
      = Some (Ok df, effects) /\
    (df = [] \/
     exists days,
       getitem df "date" = Ok (VDate <$> days) /\
       increasing days /\
       Forall (fun d => 738886 <= d <= 738887) days /\
       Z.of_nat (length days) <= 738887 - 738886 + 1).
Proof.
  eexists _, _. split; [reflexivity|].
  eapply (fetch_dates_increase
            sample_env 3 (midnight 738886) (midnight 738887) None).
  reflexivity.
Defined.

(** X7. Every request of a call that returns is the request for a date of
    the range, at the time of day of the start date: it carries the key,
    the coordinates of Washington and imperial units, and the requests
    follow the dates, none for a date before that of an earlier one. *)
Theorem fetch_requests_follow_range
  env fuel start_date end_date api_key df effects :
  fetch_historical_weather env fuel start_date end_date api_key
    = Some (Ok df, effects) ->
  exists key dates,
    default_key env api_key = Some key /\
    requests_of effects = params_for env key <$> dates /\
    in_order dates /\
    Forall (in_range start_date end_date) dates.
Proof.
  intros Hrun.
  destruct (fetch_historical_weather_returned _ _ _ _ _ _ _ Hrun)
    as (key & st' & Hkey & _ & -> & _ & (_ & _ & dates & Hreq & Hord & Hin & _)).
  exists key, dates. split; [exact Hkey|].
  rewrite requests_of_app, Hreq. cbn. rewrite app_nil_r.
  split; [reflexivity|]. split; assumption.
Qed.

Lemma fetch_requests_follow_range_witness :
  exists df effects,
    fetch_historical_weather sample_env 3 (midnight 738886) (midnight 738887) None
      = Some (Ok df, effects) /\
    exists key dates,
      default_key sample_env None = Some key /\
      requests_of effects = params_for sample_env key <$> dates /\
      in_order dates /\
      Forall (in_range (midnight 738886) (midnight 738887)) dates.
Proof.
  eexists _, _. split; [reflexivity|].
  eapply (fetch_requests_follow_range
            sample_env 3 (midnight 738886) (midnight 738887) None).
  reflexivity.
Defined.

(** X8. When the service serves every request with a complete body, a
    call with a key over a range that is not empty returns the full
    table: the eight columns, one row per date of the range, and the date
    column is the days of the range in order. *)
Theorem fetch_served_every_day
  env fuel start_date end_date api_key key :
  serves_every_day env ->
  default_key env api_key = Some key -> key <> EmptyString ->
  ordinal end_date < MAXORDINAL ->
  datetime_le start_date end_date = true ->
  (days_in_range start_date end_date <= fuel)%nat ->
  exists df effects,
    fetch_historical_weather env fuel start_date end_date api_key
      = Some (Ok df, effects) /\
    columns df = record_keys /\
    rectangular (days_in_range start_date end_date) df /\
    getitem df "date" =
      Ok ((fun d => VDate (ordinal d))
            <$> days_from start_date (days_in_range start_date end_date)).
Proof.
  intros Hserves Hkey Hne Hmax Hle Hfuel.
  rewrite (fetch_historical_weather_with_key _ _ _ _ _ _ Hkey Hne).
  destruct (while_loop_served env key end_date fuel
              (initial_state start_date end_date) Hserves Hmax Hfuel)
    as (st' & -> & Hkeys & _ & Hdates).
  cbn [initial_state weather_data current_date length] in Hkeys, Hdates.
  rewrite drop_0 in Hkeys, Hdates.
  eexists _, _. split; [reflexivity|].
  pose proof (f_equal length Hdates) as Hlen.
  rewrite !length_fmap, days_from_length in Hlen.
  rewrite (days_in_range_step _ _ Hle) in Hlen.
  destruct (weather_data st') as [|first rows]; [discriminate|].
  destruct (DataFrame_of_records_keys first rows Hkeys) as (Hc & Hr & Hd).
  split; [exact Hc|]. split.
  - rewrite (days_in_range_step _ _ Hle). cbn [length] in Hlen.
    injection Hlen as Hlen. rewrite <- Hlen. exact Hr.
  - rewrite Hd. apply (f_equal Ok).
    rewrite (date_cells _ (ordinal <$> days_from start_date
                             (days_in_range start_date end_date))).
    + rewrite <- list_fmap_compose. reflexivity.
    + rewrite Hdates, <- list_fmap_compose. reflexivity.
Qed.

Lemma fetch_served_every_day_witness :
  exists df effects,
    fetch_historical_weather steady_env 3 (midnight 738886) (midnight 738888)
      (Some "k") = Some (Ok df, effects) /\
    columns df = record_keys /\
    rectangular 3 df /\
    getitem df "date" = Ok [VDate 738886; VDate 738887; VDate 738888].
Proof.
  apply (fetch_served_every_day
           steady_env 3 (midnight 738886) (midnight 738888) (Some "k") "k").
  - intros n params. eexists _, _, _. split; [reflexivity|].
    split; [reflexivity|]. split; [reflexivity|]. split; [reflexivity|].
    intros d. eexists. reflexivity.
  - reflexivity.
  - discriminate.
  - reflexivity.
  - reflexivity.
  - vm_compute. lia.
Defined.

(** ** fetch_current_weather *)

(** X9. [fetch_current_weather] sends at most one request, and none
    without a key. It returns exactly when a key is at hand and the
    service answers 200 with a body that parses, and then returns that
    body; every other status, 401 and 429 included, raises the plain
    exception that carries the status, with no retry. *)
Theorem fetch_current_weather_cases
  env service api_key out sent :
  fetch_current_weather env service api_key = (out, sent) ->
  (sent = [] \/
   exists key, default_key env api_key = Some key /\ key <> EmptyString /\
               sent = [Current.params_for key]) /\
  (sent = [] <->
   default_key env api_key = None \/ default_key env api_key = Some EmptyString) /\
  (forall v, out = Current.Returns v <->
     exists key r,
       default_key env api_key = Some key /\ key <> EmptyString /\
       service (Current.params_for key) = Replied r /\
       status_code r = 200 /\ json r = Ok v) /\
  (forall status, out = Current.Raises (Current.ErrorFetchingWeather status) <->
     exists key r,
       default_key env api_key = Some key /\ key <> EmptyString /\
       service (Current.params_for key) = Replied r /\
       status_code r = status /\ status <> 200).
Proof.
  unfold fetch_current_weather. cbv zeta.
  destruct (default_key env api_key) as [[|c key]|].
  - intros [= <- <-]. split; [left; reflexivity|]. split; [tauto|].
    split; intros x; (split; [discriminate | intros (k & r & [= <-] & H & _)]);
      congruence.
  - set (k := String c key).
    assert (Hk : k <> EmptyString) by discriminate.
    assert (Hsent : forall s : list Current.params,
              s = [Current.params_for k] ->
              (s = [] \/ exists key0, Some k = Some key0 /\ key0 <> EmptyString /\
                                      s = [Current.params_for key0]) /\
              (s = [] <-> Some k = None \/ Some k = Some EmptyString)).
    { intros s ->. split; [right; exists k; auto|].
      split; [discriminate | intros [H | H]; [discriminate | congruence]]. }
    destruct (service (Current.params_for k)) as [r|e] eqn:Es.
    + destruct (Z.eqb_spec (status_code r) 200) as [E200|E200].
      * destruct (json r) as [v|e] eqn:Ej; intros [= <- <-];
          (split; [apply Hsent; reflexivity|]);
          (split; [apply Hsent; reflexivity|]); split; intros x; split.
        -- intros [= <-]. exists k, r. auto.
        -- intros (k' & r' & [= <-] & _ & Hs & _ & Hj).
           rewrite Es in Hs. injection Hs as <-. congruence.
        -- discriminate.
        -- intros (k' & r' & [= <-] & _ & Hs & Hc & Hne).
           rewrite Es in Hs. injection Hs as <-. congruence.
        -- discriminate.
        -- intros (k' & r' & [= <-] & _ & Hs & _ & Hj).
           rewrite Es in Hs. injection Hs as <-. congruence.
        -- discriminate.
        -- intros (k' & r' & [= <-] & _ & Hs & Hc & Hne).
           rewrite Es in Hs. injection Hs as <-. congruence.
      * intros [= <- <-]. split; [apply Hsent; reflexivity|].
        split; [apply Hsent; reflexivity|]. split; intros x; split.
        -- discriminate.
        -- intros (k' & r' & [= <-] & _ & Hs & Hc & _).
           rewrite Es in Hs. injection Hs as <-. congruence.
        -- intros [= <-]. exists k, r. auto.
        -- intros (k' & r' & [= <-] & _ & Hs & Hc & _).
           rewrite Es in Hs. injection Hs as <-. congruence.
    + intros [= <- <-]. split; [apply Hsent; reflexivity|].
      split; [apply Hsent; reflexivity|].
      split; intros x;
        (split; [discriminate | intros (k' & r' & [= <-] & _ & Hs & _)]);
        congruence.
  - intros [= <- <-]. split; [left; reflexivity|]. split; [tauto|].
    split; intros x; (split; [discriminate | intros (k & r & [=] & _)]).
Qed.

Lemma fetch_current_weather_cases_witness :
  exists out sent,
    fetch_current_weather sample_env current_busy None = (out, sent) /\
    (sent = [] \/
     exists key, default_key sample_env None = Some key /\ key <> EmptyString /\
                 sent = [Current.params_for key]) /\
    (sent = [] <->
     default_key sample_env None = None \/
     default_key sample_env None = Some EmptyString) /\
    (forall v, out = Current.Returns v <->
       exists key r,
         default_key sample_env None = Some key /\ key <> EmptyString /\
         current_busy (Current.params_for key) = Replied r /\
         status_code r = 200 /\ json r = Ok v) /\
    (forall status, out = Current.Raises (Current.ErrorFetchingWeather status) <->
       exists key r,
         default_key sample_env None = Some key /\ key <> EmptyString /\
         current_busy (Current.params_for key) = Replied r /\
         status_code r = status /\ status <> 200).
Proof.
  eexists _, _. split; [reflexivity|].
  apply (fetch_current_weather_cases sample_env current_busy None).
  reflexivity.
Defined.

(** ** Runs of load_noaa_weather_data *)

(** The exception a traversal raises is that of one of its cells. *)
Lemma traverse_Raise_inv {A B} (f : A -> result B) l e :
  traverse f l = Raise e -> exists a, In a l /\ f a = Raise e.
Proof.
  induction l as [|x l IH]; cbn [traverse]; [discriminate|].
  destruct (f x) as [b|e'] eqn:Ex; cbn [mbind result_bind].
  - destruct (traverse f l) as [bs|e'] eqn:El; cbn [mbind result_bind];
      [discriminate|].
    intros [= <-]. destruct (IH eq_refl) as (a & Ha & Hf).
    exists a. split; [right; exact Ha | exact Hf].
  - intros [= <-]. exists x. split; [left; reflexivity | exact Ex].
Qed.

Lemma traverse2_Raise_inv {A B C} (f : A -> B -> result C) l1 l2 e :
  traverse2 f l1 l2 = Raise e -> exists a b, In a l1 /\ In b l2 /\ f a b = Raise e.
Proof.
  revert l2. induction l1 as [|x l1 IH]; intros [|y l2]; cbn [traverse2];
    try discriminate.
  destruct (f x y) as [c|e'] eqn:Ex; cbn [mbind result_bind].
  - destruct (traverse2 f l1 l2) as [cs|e'] eqn:El; cbn [mbind result_bind];
      [discriminate|].
    intros [= <-]. destruct (IH l2 El) as (a & b & Ha & Hb & Hf).
    exists a, b. split; [right; exact Ha|]. split; [right; exact Hb | exact Hf].
  - intros [= <-]. exists x, y. split; [left; reflexivity|].
    split; [left; reflexivity | exact Ex].
Qed.

(** The arithmetic of the loader raises [TypeError] only, and never on
    numbers. *)
Lemma py_add_Raise a b e : py_add a b = Raise e -> e = TypeError.
Proof.
  destruct a, b; cbn; try discriminate; intros [= <-]; reflexivity.
Qed.

Lemma py_truediv_Raise a k e : py_truediv a k = Raise e -> e = TypeError.
Proof.
  unfold py_truediv. destruct (to_float a); [discriminate|].
  intros [= <-]. reflexivity.
Qed.

Lemma py_gt_Raise a k e : py_gt a k = Raise e -> e = TypeError.
Proof.
  destruct a; cbn; try discriminate; intros [= <-]; reflexivity.
Qed.

Lemma py_add_numbers a b :
  is_number a = true -> is_number b = true ->
  exists c, py_add a b = Ok c /\ is_number c = true.
Proof.
  destruct a, b; cbn; try discriminate; intros _ _; eexists;
    (split; [reflexivity|]); reflexivity.
Qed.

Lemma py_truediv_numbers a k :
  is_number a = true -> exists x, py_truediv a k = Ok (VFloat x).
Proof.
  destruct a; cbn; try discriminate; intros _; eexists; reflexivity.
Qed.

Lemma series_add_numbers s1 s2 :
  Forall (fun v => is_number v = true) s1 ->
  Forall (fun v => is_number v = true) s2 ->
  exists total, series_add s1 s2 = Ok total /\
                Forall (fun v => is_number v = true) total.
Proof.
  unfold series_add. intros H1. revert s2.
  induction H1 as [|a s1 Ha _ IH]; intros s2 H2; cbn [traverse2].
  - exists []. split; [reflexivity | constructor].
  - destruct H2 as [|b s2 Hb H2]; [exists []; split; [reflexivity | constructor]|].
    destruct (py_add_numbers a b Ha Hb) as (c & -> & Hc).
    destruct (IH s2 H2) as (cs & -> & Hcs). cbn [mbind result_bind].
    exists (c :: cs). split; [reflexivity | constructor; assumption].
Qed.

Lemma series_truediv_numbers s k :
  Forall (fun v => is_number v = true) s ->
  exists mean, series_truediv s k = Ok mean /\
               Forall (fun v => exists x, v = VFloat x) mean.
Proof.
  unfold series_truediv. induction 1 as [|a s Ha _ IH]; cbn [traverse].
  - exists []. split; [reflexivity | constructor].
  - destruct (py_truediv_numbers a k Ha) as [x ->].
    destruct IH as (m & -> & Hm). cbn [mbind result_bind].
    exists (VFloat x :: m). split; [reflexivity|]. constructor; eauto.
Qed.

(** The exceptions of the two derivations. *)
Lemma add_temp_avg_Raise df e : add_temp_avg df = Raise e -> e = TypeError.
Proof.
  unfold add_temp_avg.
  destruct (contains "temp_max" (columns df)) eqn:E1; cbn [andb]; [|discriminate].
  destruct (contains "temp_min" (columns df)) eqn:E2; [|discriminate].
  apply contains_getitem in E1 as [a ->]. apply contains_getitem in E2 as [b ->].
  cbn [mbind result_bind]. unfold series_add, series_truediv.
  destruct (traverse2 py_add a b) as [total|e'] eqn:Et; cbn [mbind result_bind].
  - destruct (traverse _ total) as [avg|e'] eqn:Ed; cbn [mbind result_bind];
      [discriminate|].
    intros [= <-]. apply traverse_Raise_inv in Ed as (v & _ & Hv).
    exact (py_truediv_Raise _ _ _ Hv).
  - intros [= <-]. apply traverse2_Raise_inv in Et as (x & y & _ & _ & Hxy).
    exact (py_add_Raise _ _ _ Hxy).
Qed.

Lemma add_is_rainy_Raise df e : add_is_rainy df = Raise e -> e = TypeError.
Proof.
  unfold add_is_rainy.
  destruct (contains "precipitation" (columns df)) eqn:E; [|discriminate].
  apply contains_getitem in E as [p ->]. cbn [mbind result_bind].
  unfold series_gt.
  destruct (traverse _ p) as [mask|e'] eqn:Em; cbn [mbind result_bind];
    [discriminate|].
  intros [= <-]. apply traverse_Raise_inv in Em as (v & _ & Hv).
  exact (py_gt_Raise _ _ _ Hv).
Qed.

(** X10. [load_noaa_weather_data] raises in four ways only: what
    [read_csv] raises; [KeyError] for DATE when the file has no such
    column; what the date parser raises on the DATE column; and a
    [TypeError] from the arithmetic on the measurement columns. It has no
    handler, and nothing else fails: a file without any measurement
    column loads. *)
Theorem load_noaa_weather_data_raises pd file_path e :
  load_noaa_weather_data pd file_path = Raise e ->
  read_csv pd file_path = Raise e \/
  exists src,
    read_csv pd file_path = Ok src /\
    ((contains "DATE" (columns src) = false /\ e = KeyError "DATE") \/
     (exists DATE, getitem src "DATE" = Ok DATE /\
                   to_datetime_date pd DATE = Raise e) \/
     (exists DATE date, getitem src "DATE" = Ok DATE /\
                        to_datetime_date pd DATE = Ok date /\ e = TypeError)).
Proof.
  unfold load_noaa_weather_data.
  destruct (read_csv pd file_path) as [src|e0]; cbn [mbind result_bind];
    [|intros [= <-]; left; reflexivity].
  intros H. right. exists src. split; [reflexivity|]. revert H.
  destruct (contains "DATE" (columns src)) eqn:ED.
  - apply contains_getitem in ED as [DATE HD]. rewrite HD. cbn [mbind result_bind].
    destruct (to_datetime_date pd DATE) as [date|e0] eqn:Ed; cbn [mbind result_bind];
      [|intros [= <-]; right; left; exists DATE; auto].
    intros H. right. right. exists DATE, date. split; [reflexivity|].
    split; [exact Ed|]. revert H.
    destruct (column_mapping_copied (setitem src "date" date)) as (df1 & -> & _).
    cbn [mbind result_bind].
    destruct (add_temp_avg df1) as [df2|e0] eqn:E2; cbn [mbind result_bind];
      [|intros [= <-]; exact (add_temp_avg_Raise _ _ E2)].
    destruct (add_is_rainy df2) as [df3|e0] eqn:E3; cbn [mbind result_bind];
      [discriminate|].
    intros [= <-]. exact (add_is_rainy_Raise _ _ E3).
  - rewrite (not_contains_getitem _ _ ED). cbn [mbind result_bind].
    intros [= <-]. left. auto.
Qed.

Lemma load_noaa_weather_data_raises_witness :
  exists e,
    load_noaa_weather_data (sample_pandas (tail station_file)) "dca.csv" = Raise e /\
    (read_csv (sample_pandas (tail station_file)) "dca.csv" = Raise e \/
     exists src,
       read_csv (sample_pandas (tail station_file)) "dca.csv" = Ok src /\
       ((contains "DATE" (columns src) = false /\ e = KeyError "DATE") \/
        (exists DATE, getitem src "DATE" = Ok DATE /\
           to_datetime_date (sample_pandas (tail station_file)) DATE = Raise e) \/
        (exists DATE date, getitem src "DATE" = Ok DATE /\
           to_datetime_date (sample_pandas (tail station_file)) DATE = Ok date /\
           e = TypeError))).
Proof.
  eexists. split; [reflexivity|].
  apply (load_noaa_weather_data_raises (sample_pandas (tail station_file)) "dca.csv").
  reflexivity.
Defined.

(** X11. The loader returns a table whenever the file can be read, has a
    DATE column that parses, and holds numbers in the measurement columns
    it computes with: TMAX, TMIN and PRCP, and temp_max, temp_min and
    precipitation should the file have columns of these names. *)
Theorem load_noaa_weather_data_returns pd file_path src DATE date :
  read_csv pd file_path = Ok src ->
  getitem src "DATE" = Ok DATE ->
  to_datetime_date pd DATE = Ok date ->
  (forall c s,
     In c ["TMAX"; "TMIN"; "PRCP"; "temp_max"; "temp_min"; "precipitation"] ->
     getitem src c = Ok s -> Forall (fun v => is_number v = true) s) ->
  exists out, load_noaa_weather_data pd file_path = Ok out.
Proof.
  intros Hsrc HD Hd Hnum. unfold load_noaa_weather_data.
  rewrite Hsrc. cbn [mbind result_bind]. rewrite HD. cbn [mbind result_bind].
  rewrite Hd. cbn [mbind result_bind].
  destruct (column_mapping_copied (setitem src "date" date)) as (df1 & -> & Hget).
  cbn [mbind result_bind].
  assert (Hnum1 : forall c s, In c ["temp_max"; "temp_min"; "precipitation"] ->
            getitem df1 c = Ok s -> Forall (fun v => is_number v = true) s).
  { intros c s Hc. rewrite Hget.
    destruct Hc as [<- | [<- | [<- | []]]]; cbn [source_of column_mapping String.eqb
      Ascii.eqb Bool.eqb]; cbn;
      rewrite contains_setitem; cbn [String.eqb Ascii.eqb Bool.eqb orb];
      match goal with
      | |- context [contains ?o (columns src)] =>
          destruct (contains o (columns src))
      end;
      rewrite getitem_setitem_ne by discriminate;
      apply Hnum; cbn; tauto. }
  assert (H2 : exists df2, add_temp_avg df1 = Ok df2 /\
            getitem df2 "precipitation" = getitem df1 "precipitation").
  { unfold add_temp_avg.
    destruct (contains "temp_max" (columns df1)) eqn:E1; cbn [andb];
      [|eexists; split; reflexivity].
    destruct (contains "temp_min" (columns df1)) eqn:E2;
      [|eexists; split; reflexivity].
    apply contains_getitem in E1 as [a Ha]. apply contains_getitem in E2 as [b Hb].
    rewrite Ha, Hb. cbn [mbind result_bind].
    destruct (series_add_numbers a b) as (total & -> & Ht);
      [apply (Hnum1 "temp_max"); [cbn; tauto | exact Ha]
      |apply (Hnum1 "temp_min"); [cbn; tauto | exact Hb] |].
    cbn [mbind result_bind].
    destruct (series_truediv_numbers total 2 Ht) as (mean & -> & _).
    cbn [mbind result_bind]. eexists. split; [reflexivity|].
    apply getitem_setitem_ne. discriminate. }
  destruct H2 as (df2 & -> & Hp). cbn [mbind result_bind].
  unfold add_is_rainy.
  destruct (contains "precipitation" (columns df2)) eqn:E;
    [|eexists; reflexivity].
  apply contains_getitem in E as [p Hp2]. rewrite Hp2. cbn [mbind result_bind].
  destruct (series_gt_numbers p 0) as [mask ->];
    [apply (Hnum1 "precipitation"); [cbn; tauto | congruence]|].
  cbn [mbind result_bind]. eexists. reflexivity.
Qed.

Lemma load_noaa_weather_data_returns_witness :
  exists out,
    load_noaa_weather_data (sample_pandas station_file) "dca.csv" = Ok out.
Proof.
  apply (load_noaa_weather_data_returns (sample_pandas station_file) "dca.csv"
           station_file [VStr "2024-01-01"; VStr "2024-01-02"]
           [VDate 738886; VDate 738886]).
  - reflexivity.
  - reflexivity.
  - reflexivity.
  - intros c s [<- | [<- | [<- | [<- | [<- | [<- | []]]]]]] [= <-];
      repeat constructor.
Defined.

(** Writing a column keeps the columns there were, in their order. *)
Lemma extends_by_refl names df : extends_by names df df.
Proof. exists []. rewrite app_nil_r. split; [reflexivity | constructor]. Qed.

Lemma extends_by_trans names df1 df2 df3 :
  extends_by names df1 df2 -> extends_by names df2 df3 -> extends_by names df1 df3.
Proof.
  intros (a & Ha & Fa) (b & Hb & Fb). exists (a ++ b).
  rewrite Hb, Ha, app_assoc. split; [reflexivity|].
  apply Forall_app. split; assumption.
Qed.

Lemma setitem_extends_by names df c s :
  In c names -> extends_by names df (setitem df c s).
Proof.
  intros Hc. unfold extends_by. rewrite columns_setitem.
  destruct (contains c (columns df)).
  - exists []. rewrite app_nil_r. split; [reflexivity | constructor].
  - exists [c]. split; [reflexivity|]. constructor; [exact Hc | constructor].
Qed.

Lemma for_each_copy_column_extends_by names mapping df df' :
  Forall (fun item : string * string => In item.2 names) mapping ->
  for_each copy_column mapping df = Ok df' ->
  extends_by names df df'.
Proof.
  intros Hm. revert df. induction Hm as [|[o c] m Hc _ IH]; intros df;
    cbn [for_each].
  - intros [= <-]. apply extends_by_refl.
  - destruct (copy_column df (o, c)) as [dfa|] eqn:Ea; cbn [mbind result_bind];
      [|discriminate].
    intros H. apply extends_by_trans with dfa; [|exact (IH dfa H)].
    revert Ea. unfold copy_column. destruct (contains o (columns df)).
    + destruct (getitem df o) as [s|]; cbn [mbind result_bind]; [|discriminate].
      intros [= <-]. apply setitem_extends_by. exact Hc.
    + intros [= <-]. apply extends_by_refl.
Qed.

Lemma source_of_loader_columns c o :
  source_of column_mapping c = Some o -> In c loader_columns.
Proof.
  intros H. apply source_of_In in H. cbn in H.
  destruct H as [E|[E|[E|[E|[E|[E|[]]]]]]]; injection E as _ <-; cbn; tauto.
Qed.

(** X12. In the table the loader returns, the DATE column of the file is
    kept and the date column holds what the date parser made of it; every
    column whose label is not one of the nine the loader writes is as in
    the file; and the columns of the file come first, in the order of the
    file, before any column the loader added. *)
Theorem load_noaa_weather_data_frame pd file_path src out :
  read_csv pd file_path = Ok src ->
  load_noaa_weather_data pd file_path = Ok out ->
  (exists DATE date,
     getitem src "DATE" = Ok DATE /\ to_datetime_date pd DATE = Ok date /\
     getitem out "DATE" = Ok DATE /\ getitem out "date" = Ok date) /\
  (forall c, ~ In c loader_columns -> getitem out c = getitem src c) /\
  extends_by loader_columns src out.
Proof.
  intros Hsrc Hload.
  destruct (load_noaa_weather_data_stages _ _ _ Hload)
    as (src' & DATE & date & df1 & df2 & Hs & HD & Hd & H1 & H2 & H3).
  rewrite Hsrc in Hs. injection Hs as <-.
  assert (Hpass : forall c, ~ In c loader_columns -> getitem out c = getitem src c).
  { intros c Hc.
    rewrite (load_noaa_weather_data_getitem pd file_path src out c Hsrc Hload);
      try (intros ->; apply Hc; cbn; tauto).
    destruct (source_of column_mapping c) as [o|] eqn:Eo; [|reflexivity].
    destruct (Hc (source_of_loader_columns _ _ Eo)). }
  split; [|split; [exact Hpass|]].
  - exists DATE, date. split; [exact HD|]. split; [exact Hd|]. split.
    + rewrite Hpass; [exact HD|]. cbn. intros H.
      repeat (destruct H as [H|H]; [discriminate|]). exact H.
    + rewrite (add_is_rainy_frame _ _ "date" H3) by discriminate.
      rewrite (add_temp_avg_frame _ _ "date" H2) by discriminate.
      destruct (column_mapping_copied (setitem src "date" date)) as (df1' & H1' & Hget).
      rewrite H1 in H1'. injection H1' as <-. rewrite Hget. cbn.
      apply getitem_setitem_eq.
  - apply extends_by_trans with (setitem src "date" date);
      [apply setitem_extends_by; cbn; tauto|].
    apply extends_by_trans with df1.
    { apply (for_each_copy_column_extends_by _ column_mapping _ _); [|exact H1].
      unfold column_mapping.
      repeat (constructor; [cbn; tauto|]). constructor. }
    apply extends_by_trans with df2.
    { apply add_temp_avg_cases in H2.
      destruct (getitem df1 "temp_max"); [|subst; apply extends_by_refl].
      destruct (getitem df1 "temp_min"); [|subst; apply extends_by_refl].
      destruct H2 as (avg & -> & _). apply setitem_extends_by. cbn. tauto. }
    apply add_is_rainy_cases in H3.
    destruct (getitem df2 "precipitation"); [|subst; apply extends_by_refl].
    destruct H3 as (r & -> & _). apply setitem_extends_by. cbn. tauto.
Qed.

Lemma load_noaa_weather_data_frame_witness :
  exists out,
    load_noaa_weather_data (sample_pandas station_file) "dca.csv" = Ok out /\
    (exists DATE date,
       getitem station_file "DATE" = Ok DATE /\
       to_datetime_date (sample_pandas station_file) DATE = Ok date /\
       getitem out "DATE" = Ok DATE /\ getitem out "date" = Ok date) /\
    (forall c, ~ In c loader_columns -> getitem out c = getitem station_file c) /\
    extends_by loader_columns station_file out.
Proof.
  eexists. split; [reflexivity|].
  apply (load_noaa_weather_data_frame (sample_pandas station_file) "dca.csv");
    reflexivity.
Defined.

(** X13. The loader keeps the rows: on a file whose columns have distinct
    labels and [n] rows each, with a date parser that gives one date per
    row, every column of the returned table has [n] rows, the derived
    ones included, and the labels are still distinct. *)
Theorem load_noaa_weather_data_rows pd file_path src out n :
  (forall s s', to_datetime_date pd s = Ok s' -> length s' = length s) ->
  NoDup (columns src) -> rectangular n src ->
  read_csv pd file_path = Ok src ->
  load_noaa_weather_data pd file_path = Ok out ->
  NoDup (columns out) /\ rectangular n out.
Proof.
  intros Hdate Hnd Hrect Hsrc Hload.
  destruct (load_noaa_weather_data_well_formed pd file_path src out Hdate)
    as [Hnd' [n' Hrect']]; [split; [exact Hnd | exists n; exact Hrect] | assumption..|].
  split; [exact Hnd'|].
  destruct (load_noaa_weather_data_stages _ _ _ Hload)
    as (src' & DATE & date & df1 & df2 & Hs & HD & _).
  rewrite Hsrc in Hs. injection Hs as <-.
  assert (HD' : getitem out "DATE" = Ok DATE).
  { rewrite (load_noaa_weather_data_getitem pd file_path src out "DATE" Hsrc Hload)
      by discriminate. exact HD. }
  rewrite <- (getitem_rectangular _ _ _ _ Hrect HD).
  rewrite (getitem_rectangular _ _ _ _ Hrect' HD'). exact Hrect'.
Qed.

Lemma load_noaa_weather_data_rows_witness :
  exists out,
    load_noaa_weather_data (sample_pandas station_file) "dca.csv" = Ok out /\
    NoDup (columns out) /\ rectangular 2 out.
Proof.
  eexists. split; [reflexivity|].
  apply (load_noaa_weather_data_rows (sample_pandas station_file) "dca.csv"
           station_file).
  - intros s s' [= <-]. apply length_fmap.
  - cbn. repeat (apply NoDup_cons; split;
                 [repeat (rewrite not_elem_of_cons; split; [discriminate|]);
                  apply not_elem_of_nil|]).
    apply NoDup_nil_2.
  - repeat constructor.
  - reflexivity.
  - reflexivity.
Defined.

(** ** Runs of create_weather_categories *)

(** The order of binary64 values against a value that is a number. *)
Lemma SFltb_false x a :
  SFeqb a a = true -> SFltb x a = false ->
  SFleb a x = true \/ SFeqb x x = false.
Proof.
  unfold SFltb, SFleb, SFeqb, SFcompare.
  destruct x as [sx|sx| |sx mx ex], a as [sa|sa| |sa ma ea];
    try discriminate; try (intros; right; reflexivity);
    repeat match goal with s : bool |- _ => destruct s end;
    try discriminate; try (intros; left; reflexivity);
    change (PosDef.Pos.compare_cont Eq) with Pos.compare;
    repeat match goal with
    | |- context [ (?p ?= ?q)%Z ] => destruct (Z.compare_spec p q)
    | |- context [ (?p ?= ?q)%positive ] => destruct (Pos.compare_spec p q)
    end; simpl; try discriminate; intros; try (left; reflexivity); lia.
Qed.

Lemma SFltb_le_trans x a b :
  SFltb x a = true -> SFleb a b = true -> SFltb x b = true.
Proof.
  unfold SFltb, SFleb, SFcompare.
  destruct x as [sx|sx| |sx mx ex], a as [sa|sa| |sa ma ea],
           b as [sb|sb| |sb mb eb];
    try discriminate;
    repeat match goal with s : bool |- _ => destruct s end;
    try discriminate; try reflexivity;
    change (PosDef.Pos.compare_cont Eq) with Pos.compare;
    repeat match goal with
    | |- context [ (?p ?= ?q)%Z ] => destruct (Z.compare_spec p q)
    | |- context [ (?p ?= ?q)%positive ] => destruct (Pos.compare_spec p q)
    end; simpl; try discriminate; try reflexivity; intros; lia.
Qed.

Lemma SFleb_not_lt a x : SFleb a x = true -> SFltb x a = false.
Proof.
  unfold SFltb, SFleb, SFcompare.
  destruct x as [sx|sx| |sx mx ex], a as [sa|sa| |sa ma ea];
    try discriminate; try reflexivity;
    repeat match goal with s : bool |- _ => destruct s end;
    try discriminate; try reflexivity;
    change (PosDef.Pos.compare_cont Eq) with Pos.compare;
    repeat match goal with
    | |- context [ (?p ?= ?q)%Z ] => destruct (Z.compare_spec p q)
    | |- context [ (?p ?= ?q)%positive ] => destruct (Pos.compare_spec p q)
    end; simpl; try discriminate; try reflexivity; intros; lia.
Qed.

Lemma SFeqb_nan x a :
  SFeqb x x = false -> SFltb x a = false /\ SFleb a x = false.
Proof.
  unfold SFltb, SFleb, SFeqb, SFcompare.
  destruct x as [sx|sx| |sx mx ex]; try (destruct a; split; reflexivity);
    repeat match goal with s : bool |- _ => destruct s end; try discriminate.
  all: change (PosDef.Pos.compare_cont Eq) with Pos.compare;
    rewrite ?Z.compare_refl, ?Pos.compare_refl; cbn;
    rewrite ?Z.compare_refl, ?Pos.compare_refl; try discriminate.
Qed.

(** The same against a float literal, on cells. *)
Lemma float_ltb_false x a :
  PrimFloat.is_nan a = false -> PrimFloat.ltb x a = false ->
  PrimFloat.leb a x = true \/ PrimFloat.is_nan x = true.
Proof.
  unfold PrimFloat.is_nan. rewrite !FloatAxioms.eqb_spec, ltb_spec, leb_spec.
  intros Ha Hx. apply negb_false_iff in Ha.
  destruct (SFltb_false _ _ Ha Hx) as [H | H]; [left; exact H|].
  right. rewrite H. reflexivity.
Qed.

Lemma float_ltb_le_trans x a b :
  PrimFloat.ltb x a = true -> PrimFloat.leb a b = true -> PrimFloat.ltb x b = true.
Proof. rewrite !ltb_spec, leb_spec. apply SFltb_le_trans. Qed.

Lemma float_leb_not_lt a x : PrimFloat.leb a x = true -> PrimFloat.ltb x a = false.
Proof. rewrite ltb_spec, leb_spec. apply SFleb_not_lt. Qed.

Lemma float_nan_unordered x a :
  PrimFloat.is_nan x = true ->
  PrimFloat.ltb x a = false /\ PrimFloat.leb a x = false.
Proof.
  unfold PrimFloat.is_nan. rewrite FloatAxioms.eqb_spec, ltb_spec, leb_spec.
  intros H. apply negb_true_iff in H. exact (SFeqb_nan _ _ H).
Qed.

(** The label of a cell stands for the band of the cell, and [Hot] for NaN
    as well. *)
Lemma categorize_temp_band v c :
  categorize_temp v = Ok c ->
  In c ["Freezing"; "Cold"; "Mild"; "Warm"; "Hot"] /\ band_of v c.
Proof.
  destruct v as [|b|n|x| | | |]; try discriminate.
  - destruct b; intros [= <-]; (split; [cbn; tauto|]);
      unfold band_of; cbn; intuition discriminate.
  - unfold categorize_temp, band_of, py_lt, py_ge, is_null.
    cbn [mbind result_bind].
    destruct (Z.ltb_spec n 32), (Z.ltb_spec n 50), (Z.ltb_spec n 70),
             (Z.ltb_spec n 85), (Z.leb_spec 32 n), (Z.leb_spec 50 n),
             (Z.leb_spec 70 n), (Z.leb_spec 85 n); try lia;
      intros [= <-]; (split; [cbn; tauto|]); intuition discriminate.
  - unfold categorize_temp, band_of, py_lt, py_ge, is_null.
    cbn [mbind result_bind].
    pose proof (float_ltb_false x (float_of_int 32) eq_refl) as T32.
    pose proof (float_ltb_false x (float_of_int 50) eq_refl) as T50.
    pose proof (float_ltb_false x (float_of_int 70) eq_refl) as T70.
    pose proof (float_ltb_false x (float_of_int 85) eq_refl) as T85.
    pose proof (fun H => float_ltb_le_trans x (float_of_int 32) (float_of_int 50) H eq_refl) as M1.
    pose proof (fun H => float_ltb_le_trans x (float_of_int 50) (float_of_int 70) H eq_refl) as M2.
    pose proof (fun H => float_ltb_le_trans x (float_of_int 70) (float_of_int 85) H eq_refl) as M3.
    pose proof (float_leb_not_lt (float_of_int 32) x) as G32.
    pose proof (float_leb_not_lt (float_of_int 50) x) as G50.
    pose proof (float_leb_not_lt (float_of_int 70) x) as G70.
    pose proof (float_leb_not_lt (float_of_int 85) x) as G85.
    pose proof (float_nan_unordered x (float_of_int 32)) as N32.
    pose proof (float_nan_unordered x (float_of_int 50)) as N50.
    pose proof (float_nan_unordered x (float_of_int 70)) as N70.
    pose proof (float_nan_unordered x (float_of_int 85)) as N85.
    destruct (PrimFloat.ltb x (float_of_int 32)),
             (PrimFloat.ltb x (float_of_int 50)),
             (PrimFloat.ltb x (float_of_int 70)),
             (PrimFloat.ltb x (float_of_int 85));
      try (specialize (M1 eq_refl)); try (specialize (M2 eq_refl));
      try (specialize (M3 eq_refl)); try discriminate;
      destruct (PrimFloat.leb (float_of_int 32) x),
               (PrimFloat.leb (float_of_int 50) x),
               (PrimFloat.leb (float_of_int 70) x),
               (PrimFloat.leb (float_of_int 85) x);
      try (specialize (G32 eq_refl)); try (specialize (G50 eq_refl));
      try (specialize (G70 eq_refl)); try (specialize (G85 eq_refl));
      try discriminate;
      destruct (PrimFloat.is_nan x);
      try (destruct (N32 eq_refl); discriminate);
      try (destruct (N50 eq_refl); discriminate);
      try (destruct (N70 eq_refl); discriminate);
      try (destruct (N85 eq_refl); discriminate);
      try (destruct (T32 eq_refl); discriminate);
      try (destruct (T50 eq_refl); discriminate);
      try (destruct (T70 eq_refl); discriminate);
      try (destruct (T85 eq_refl); discriminate);
      clear; intros [= <-]; (split; [cbn; tauto|]); intuition discriminate.
Qed.

Lemma categorize_temp_Raise v e : categorize_temp v = Raise e -> e = TypeError.
Proof.
  destruct v; cbn; try (intros [= <-]; reflexivity);
    repeat match goal with
    | |- context [if ?b then _ else _] => destruct b; cbn
    end; discriminate.
Qed.

Lemma categorized_Raise df e : categorized df = Raise e -> e = TypeError.
Proof.
  rewrite categorized_cases.
  destruct (getitem df "temp_avg") as [t|];
    [|destruct (getitem df "weather_main"); discriminate].
  destruct (categories_of t) as [cats|e'] eqn:Ec;
    [cbv zeta; destruct (getitem df "weather_main"); discriminate|].
  intros [= <-]. apply traverse_Raise_inv in Ec as (v & _ & Hv).
  destruct (categorize_temp v) as [c|e''] eqn:Ev; [discriminate|].
  injection Hv as <-. exact (categorize_temp_Raise _ _ Ev).
Qed.

(** X14. [create_weather_categories] returns a new table exactly when
    every cell of [temp_avg], if the table has such a column, is a number;
    otherwise it raises [TypeError], the only exception it raises. A table
    without [temp_avg] is always accepted, whatever [weather_main]
    holds. *)
Theorem create_weather_categories_outcome
  (h : store) (weather_df : ref) (df : DataFrame) :
  h !! weather_df = Some df ->
  (temp_avg_numeric df /\
   exists out df',
     create_weather_categories weather_df h = (Ok out, <[out := df']> h)) \/
  (~ temp_avg_numeric df /\
   exists h', create_weather_categories weather_df h = (Raise TypeError, h')).
Proof.
  intros Hr. rewrite (create_weather_categories_run h weather_df df Hr). cbv zeta.
  destruct (categorized df) as [df'|e] eqn:Hc.
  - left. split; [apply categorized_returns; exists df'; exact Hc|].
    eexists _, _. reflexivity.
  - right. split.
    + intros Hnum. apply categorized_returns in Hnum as [df' Hdf'].
      rewrite Hdf' in Hc. discriminate.
    + rewrite (categorized_Raise _ _ Hc). eexists. reflexivity.
Qed.

Lemma create_weather_categories_outcome_witness :
  (temp_avg_numeric unreadable_frame /\
   exists out df',
     create_weather_categories 1%positive {[ 1%positive := unreadable_frame ]}
       = (Ok out, <[out := df']> {[ 1%positive := unreadable_frame ]})) \/
  (~ temp_avg_numeric unreadable_frame /\
   exists h',
     create_weather_categories 1%positive {[ 1%positive := unreadable_frame ]}
       = (Raise TypeError, h')).
Proof.
  apply (create_weather_categories_outcome
           {[ 1%positive := unreadable_frame ]} 1%positive unreadable_frame).
  reflexivity.
Defined.

(** X15. The table [create_weather_categories] returns keeps every
    column of its argument, in order, and adds at most [temp_category],
    [is_clear], [is_rainy] and [is_snowy] after them; a column with
    another label is unchanged. Without [temp_avg] no [temp_category] is
    written, without [weather_main] no flag is written, and without both
    the table returned is a plain copy. *)
Theorem create_weather_categories_frame
  (h h' : store) (weather_df out : ref) (df : DataFrame) :
  h !! weather_df = Some df ->
  create_weather_categories weather_df h = (Ok out, h') ->
  exists df',
    h' !! out = Some df' /\
    (forall c, ~ In c category_columns -> getitem df' c = getitem df c) /\
    extends_by category_columns df df' /\
    (contains "temp_avg" (columns df) = false ->
     getitem df' "temp_category" = getitem df "temp_category") /\
    (contains "weather_main" (columns df) = false ->
     forall c, c <> "temp_category" -> getitem df' c = getitem df c) /\
    (contains "temp_avg" (columns df) = false ->
     contains "weather_main" (columns df) = false -> df' = df).
Proof.
  intros Hr. rewrite (create_weather_categories_run h weather_df df Hr). cbv zeta.
  destruct (categorized df) as [df'|e] eqn:Hc; [|discriminate].
  intros [= <- <-]. exists df'. split; [apply lookup_insert_eq|].
  assert (Hflags : forall d w, extends_by category_columns d (with_flags d w)).
  { intros d w. unfold with_flags.
    eapply extends_by_trans; [|apply setitem_extends_by; cbn; tauto].
    eapply extends_by_trans; apply setitem_extends_by; cbn; tauto. }
  assert (Hother : forall c, ~ In c category_columns ->
            c <> "temp_category" /\ c <> "is_clear" /\ c <> "is_rainy" /\
            c <> "is_snowy").
  { intros c Hin. repeat split; intros ->; apply Hin; cbn; tauto. }
  rewrite categorized_cases in Hc.
  destruct (contains "temp_avg" (columns df)) eqn:Et.
  - apply contains_getitem in Et as [t Ht]. rewrite Ht in Hc.
    destruct (categories_of t) as [cats|] eqn:Ecats; [|discriminate].
    cbv zeta in Hc.
    destruct (contains "weather_main" (columns df)) eqn:Ew.
    + apply contains_getitem in Ew as [w Hw]. rewrite Hw in Hc. injection Hc as <-.
      split; [|split; [|split; [discriminate|split; discriminate]]].
      * intros c Hin. destruct (Hother c Hin) as (H1 & H2 & H3 & H4).
        rewrite getitem_with_flags by assumption.
        apply getitem_setitem_ne. congruence.
      * eapply extends_by_trans; [apply setitem_extends_by; cbn; tauto|].
        apply Hflags.
    + rewrite (not_contains_getitem _ _ Ew) in Hc. injection Hc as <-.
      split; [|split; [|split; [discriminate|split; [|discriminate]]]].
      * intros c Hin. destruct (Hother c Hin) as (H1 & _).
        apply getitem_setitem_ne. congruence.
      * apply setitem_extends_by. cbn. tauto.
      * intros _ c Hne. apply getitem_setitem_ne. congruence.
  - rewrite (not_contains_getitem _ _ Et) in Hc.
    destruct (contains "weather_main" (columns df)) eqn:Ew.
    + apply contains_getitem in Ew as [w Hw]. rewrite Hw in Hc. injection Hc as <-.
      split; [|split; [|split; [|split; discriminate]]].
      * intros c Hin. destruct (Hother c Hin) as (H1 & H2 & H3 & H4).
        apply getitem_with_flags; assumption.
      * apply Hflags.
      * intros _. apply getitem_with_flags; discriminate.
    + rewrite (not_contains_getitem _ _ Ew) in Hc. injection Hc as <-.
      split; [reflexivity|]. split; [apply extends_by_refl|].
      split; [reflexivity|]. split; reflexivity.
Qed.

Lemma create_weather_categories_frame_witness :
  exists out h' df',
    create_weather_categories 1%positive sample_store = (Ok out, h') /\
    h' !! out = Some df' /\
    (forall c, ~ In c category_columns -> getitem df' c = getitem sample_frame c) /\
    extends_by category_columns sample_frame df' /\
    (contains "temp_avg" (columns sample_frame) = false ->
     getitem df' "temp_category" = getitem sample_frame "temp_category") /\
    (contains "weather_main" (columns sample_frame) = false ->
     forall c, c <> "temp_category" -> getitem df' c = getitem sample_frame c) /\
    (contains "temp_avg" (columns sample_frame) = false ->
     contains "weather_main" (columns sample_frame) = false -> df' = sample_frame).
Proof.
  destruct (create_weather_categories 1%positive sample_store) as [[out|e] h'] eqn:E;
    [|vm_compute in E; discriminate].
  destruct (create_weather_categories_frame
              sample_store h' 1%positive out sample_frame eq_refl E) as (df' & H).
  exists out, h', df'. split; [reflexivity | exact H].
Defined.

(** X16. Each label of [temp_category] stands for its band and for no
    other temperature: a row is Freezing exactly below 32, Cold exactly
    from 32 and below 50, Mild exactly from 50 and below 70, Warm exactly
    from 70 and below 85, and Hot exactly from 85 or when the temperature
    is NaN. A missing temperature is thus labelled Hot. *)
Theorem create_weather_categories_bands
  (h h' : store) (weather_df out : ref) (df : DataFrame) (temp_avg : Series) :
  h !! weather_df = Some df ->
  getitem df "temp_avg" = Ok temp_avg ->
  create_weather_categories weather_df h = (Ok out, h') ->
  exists df' temp_category,
    h' !! out = Some df' /\
    getitem df' "temp_category" = Ok temp_category /\
    length temp_category = length temp_avg /\
    forall i t, temp_avg !! i = Some t ->
      exists c, temp_category !! i = Some (VStr c) /\
                In c ["Freezing"; "Cold"; "Mild"; "Warm"; "Hot"] /\
                band_of t c.
Proof.
  intros Hr Ht. rewrite (create_weather_categories_run h weather_df df Hr). cbv zeta.
  destruct (categorized df) as [df'|e] eqn:Hc; [|discriminate].
  intros [= <- <-]. rewrite categorized_cases, Ht in Hc.
  destruct (categories_of temp_avg) as [cats|] eqn:Ecats; [|discriminate].
  cbv zeta in Hc. exists df', cats. split; [apply lookup_insert_eq|]. split.
  - destruct (getitem df "weather_main") as [w|]; injection Hc as <-.
    + rewrite getitem_with_flags by discriminate. apply getitem_setitem_eq.
    + apply getitem_setitem_eq.
  - split; [exact (traverse_length _ _ _ Ecats)|].
    intros i t Hi.
    destruct (categories_of_lookup _ _ _ _ Ecats Hi) as (c & Hcat & Hlk).
    exists c. split; [exact Hlk|]. exact (categorize_temp_band t c Hcat).
Qed.

Lemma create_weather_categories_bands_witness :
  exists out h' df' temp_category,
    create_weather_categories 1%positive sample_store = (Ok out, h') /\
    h' !! out = Some df' /\
    getitem df' "temp_category" = Ok temp_category /\
    length temp_category = length sample_temps /\
    forall i t, sample_temps !! i = Some t ->
      exists c, temp_category !! i = Some (VStr c) /\
                In c ["Freezing"; "Cold"; "Mild"; "Warm"; "Hot"] /\
                band_of t c.
Proof.
  destruct (create_weather_categories 1%positive sample_store) as [[out|e] h'] eqn:E;
    [|vm_compute in E; discriminate].
  destruct (create_weather_categories_bands
              sample_store h' 1%positive out sample_frame sample_temps
              eq_refl eq_refl E) as (df' & cats & H).
  exists out, h', df', cats. split; [reflexivity | exact H].
Defined.

(** X17. The three condition flags exclude one another: no row of the
    returned table is flagged clear and rainy, clear and snowy, or rainy
    and snowy, and a row whose [weather_main] is not a string has no
    flag. *)
Theorem create_weather_categories_flags_exclusive
  (h h' : store) (weather_df out : ref) (df : DataFrame) (weather_main : Series) :
  h !! weather_df = Some df ->
  getitem df "weather_main" = Ok weather_main ->
  create_weather_categories weather_df h = (Ok out, h') ->
  exists df' is_clear is_rainy is_snowy,
    h' !! out = Some df' /\
    getitem df' "is_clear" = Ok (VBool <$> is_clear) /\
    getitem df' "is_rainy" = Ok (VBool <$> is_rainy) /\
    getitem df' "is_snowy" = Ok (VBool <$> is_snowy) /\
    forall i v, weather_main !! i = Some v ->
      exists c r s,
        is_clear !! i = Some c /\ is_rainy !! i = Some r /\
        is_snowy !! i = Some s /\
        (c && r = false) /\ (c && s = false) /\ (r && s = false) /\
        ((forall w, v <> VStr w) -> c = false /\ r = false /\ s = false).
Proof.
  intros Hr Hw. rewrite (create_weather_categories_run h weather_df df Hr). cbv zeta.
  destruct (categorized df) as [df'|e] eqn:Hc; [|discriminate].
  intros [= <- <-].
  assert (Hdf' : exists d, df' = with_flags d weather_main).
  { rewrite categorized_cases, Hw in Hc.
    destruct (getitem df "temp_avg") as [t|].
    - destruct (categories_of t) as [cats|]; [|discriminate].
      injection Hc as <-. eexists. reflexivity.
    - injection Hc as <-. eexists. reflexivity. }
  destruct Hdf' as [d ->].
  destruct (with_flags_columns d weather_main) as (H1 & H2 & H3).
  exists (with_flags d weather_main),
    ((fun v => py_eq_str v "Clear") <$> weather_main),
    ((fun v => isin_cell ["Rain"; "Drizzle"; "Thunderstorm"] v) <$> weather_main),
    ((fun v => isin_cell ["Snow"; "Sleet"] v) <$> weather_main).
  rewrite <- !list_fmap_compose.
  split; [apply lookup_insert_eq|]. split; [exact H1|]. split; [exact H2|].
  split; [exact H3|].
  intros i v Hi. eexists _, _, _. rewrite !list_lookup_fmap, Hi. cbn [fmap option_fmap option_map].
  split; [reflexivity|]. split; [reflexivity|]. split; [reflexivity|].
  destruct v as [| | | |w| | |]; cbn.
  5: { split; [|split; [|split; [|intros Hno; destruct (Hno w eq_refl)]]];
         repeat match goal with
         | |- context [String.eqb w ?s] =>
             destruct (String.eqb_spec w s); subst; cbn
         end; try reflexivity; try discriminate. }
  all: do 3 (split; [reflexivity|]); intros _; split; [|split]; reflexivity.
Qed.

Lemma create_weather_categories_flags_exclusive_witness :
  exists out h' df' is_clear is_rainy is_snowy,
    create_weather_categories 1%positive sample_store = (Ok out, h') /\
    h' !! out = Some df' /\
    getitem df' "is_clear" = Ok (VBool <$> is_clear) /\
    getitem df' "is_rainy" = Ok (VBool <$> is_rainy) /\
    getitem df' "is_snowy" = Ok (VBool <$> is_snowy) /\
    forall i v, sample_conditions !! i = Some v ->
      exists c r s,
        is_clear !! i = Some c /\ is_rainy !! i = Some r /\
        is_snowy !! i = Some s /\
        (c && r = false) /\ (c && s = false) /\ (r && s = false) /\
        ((forall w, v <> VStr w) -> c = false /\ r = false /\ s = false).
Proof.
  destruct (create_weather_categories 1%positive sample_store) as [[out|e] h'] eqn:E;
    [|vm_compute in E; discriminate].
  destruct (create_weather_categories_flags_exclusive
              sample_store h' 1%positive out sample_frame sample_conditions
              eq_refl eq_refl E) as (df' & c & r & s & H).
  exists out, h', df', c, r, s. split; [reflexivity | exact H].
Defined.

(** X18. [create_weather_categories] keeps the rows: on a table whose
    columns have distinct labels and [n] rows each, every column of the
    table returned has [n] rows, the new ones included, and the labels
    are still distinct. *)
Theorem create_weather_categories_rows
  (h h' : store) (weather_df out : ref) (df : DataFrame) (n : nat) :
  h !! weather_df = Some df ->
  NoDup (columns df) -> rectangular n df ->
  create_weather_categories weather_df h = (Ok out, h') ->
  exists df', h' !! out = Some df' /\ NoDup (columns df') /\ rectangular n df'.
Proof.
  intros Hr Hnd Hrect.
  rewrite (create_weather_categories_run h weather_df df Hr). cbv zeta.
  destruct (categorized df) as [df'|e] eqn:Hc; [|discriminate].
  intros [= <- <-]. exists df'. split; [apply lookup_insert_eq|].
  rewrite categorized_cases in Hc.
  assert (Hcat : forall t cats, getitem df "temp_avg" = Ok t ->
            categories_of t = Ok cats ->
            NoDup (columns (setitem df "temp_category" cats)) /\
            rectangular n (setitem df "temp_category" cats)).
  { intros t cats Ht Hcs. split; [apply setitem_NoDup; exact Hnd|].
    apply setitem_rectangular; [exact Hrect|].
    rewrite (traverse_length _ _ _ Hcs). exact (getitem_rectangular _ _ _ _ Hrect Ht). }
  destruct (getitem df "temp_avg") as [t|] eqn:Et.
  - destruct (categories_of t) as [cats|] eqn:Ec; [|discriminate]. cbv zeta in Hc.
    destruct (Hcat t cats eq_refl Ec) as [Hnd1 Hrect1].
    destruct (getitem df "weather_main") as [w|] eqn:Ew; injection Hc as <-.
    + apply with_flags_well_formed; [assumption..|].
      exact (getitem_rectangular _ _ _ _ Hrect Ew).
    + split; assumption.
  - destruct (getitem df "weather_main") as [w|] eqn:Ew; injection Hc as <-.
    + apply with_flags_well_formed; [assumption..|].
      exact (getitem_rectangular _ _ _ _ Hrect Ew).
    + split; assumption.
Qed.

Lemma create_weather_categories_rows_witness :
  exists out h' df',
    create_weather_categories 1%positive sample_store = (Ok out, h') /\
    h' !! out = Some df' /\ NoDup (columns df') /\ rectangular 9 df'.
Proof.
  destruct (create_weather_categories 1%positive sample_store) as [[out|e] h'] eqn:E;
    [|vm_compute in E; discriminate].
  assert (Hnd : NoDup (columns sample_frame)).
  { cbn. repeat (apply NoDup_cons; split;
                 [repeat (rewrite not_elem_of_cons; split; [discriminate|]);
                  apply not_elem_of_nil|]).
    apply NoDup_nil_2. }
  assert (Hrect : rectangular 9 sample_frame).
  { unfold rectangular, sample_frame. repeat (constructor; [reflexivity|]). constructor. }
  destruct (create_weather_categories_rows
              sample_store h' 1%positive out sample_frame 9 eq_refl Hnd Hrect E)
    as (df' & H).
  exists out, h', df'. split; [reflexivity | exact H].
Defined.

(** ** Runs of get_weather_summary *)

Lemma dict_get_set_eq {V} (d : list (string * V)) k v :
  dict_get (dict_set d k v) k = Some v.
Proof.
  induction d as [|[k0 v0] d IH]; cbn [dict_set dict_get].
  - rewrite String.eqb_refl. reflexivity.
  - destruct (String.eqb k0 k) eqn:E; cbn [dict_get]; rewrite E;
      [reflexivity | exact IH].
Qed.

Lemma dict_get_set_ne {V} (d : list (string * V)) k k' v :
  k <> k' -> dict_get (dict_set d k v) k' = dict_get d k'.
Proof.
  intros Hk. induction d as [|[k0 v0] d IH]; cbn [dict_set dict_get].
  - apply String.eqb_neq in Hk. rewrite Hk. reflexivity.
  - destruct (String.eqb k0 k) eqn:E; cbn [dict_get].
    + apply String.eqb_eq in E. subst k0.
      apply String.eqb_neq in Hk. rewrite Hk. reflexivity.
    + rewrite IH. reflexivity.
Qed.

(** The three steps of a call that returns. *)
Lemma get_weather_summary_stages pd df summary :
  get_weather_summary pd df = Ok summary ->
  exists s1 s2,
    temperature_metrics pd df [] = Ok s1 /\
    precipitation_metrics pd df s1 = Ok s2 /\
    condition_metrics df s2 = Ok summary.
Proof.
  unfold get_weather_summary. cbv zeta.
  destruct (temperature_metrics pd df []) as [s1|] eqn:E1; cbn [mbind result_bind];
    [|discriminate].
  destruct (precipitation_metrics pd df s1) as [s2|] eqn:E2; cbn [mbind result_bind];
    [|discriminate].
  destruct (condition_metrics df s2) as [s3|] eqn:E3; cbn [mbind result_bind];
    [|discriminate].
  intros [= <-]. exists s1, s2. auto.
Qed.

(** One more occurrence is one more row accounted for, under a key that
    is a value. *)
Lemma count_one_counted d v : counted (count_one d v) = counted d + 1.
Proof.
  induction d as [|[k n] d IH]; cbn [count_one counted fold_right snd]; [lia|].
  destruct (py_eq k v); cbn [counted fold_right snd]; [lia|].
  fold (counted (count_one d v)). fold (counted d). lia.
Qed.

Lemma count_one_entries d v :
  is_null v = false ->
  Forall (fun item : value * Z => 1 <= item.2 /\ is_null item.1 = false) d ->
  Forall (fun item : value * Z => 1 <= item.2 /\ is_null item.1 = false)
    (count_one d v).
Proof.
  intros Hv. induction 1 as [|[k n] d [Hn Hk] Hd IH]; cbn [count_one].
  - constructor; [split; [cbn; lia | exact Hv] | constructor].
  - cbn [fst snd] in *. destruct (py_eq k v).
    + constructor; [split; [cbn; lia | exact Hk] | assumption].
    + constructor; [split; assumption | exact IH].
Qed.

Lemma fold_count_one l d :
  Forall (fun v => is_null v = false) l ->
  Forall (fun item : value * Z => 1 <= item.2 /\ is_null item.1 = false) d ->
  counted (fold_left count_one l d) = counted d + Z.of_nat (length l) /\
  Forall (fun item : value * Z => 1 <= item.2 /\ is_null item.1 = false)
    (fold_left count_one l d).
Proof.
  intros Hl. revert d. induction Hl as [|v l Hv _ IH]; intros d Hd;
    cbn [fold_left length].
  - split; [lia | exact Hd].
  - destruct (IH (count_one d v) (count_one_entries d v Hv Hd)) as [H1 H2].
    split; [rewrite H1, count_one_counted; lia | exact H2].
Qed.

Lemma present_not_null col : Forall (fun v => is_null v = false) (present col).
Proof.
  unfold present. apply List.Forall_forall. intros v Hv.
  apply filter_In in Hv as [_ Hv]. apply negb_true_iff in Hv. exact Hv.
Qed.

(** X19. The counts of [weather_distribution] account for every row of
    [weather_main] that holds a value, once: they add up to the number
    of rows that are neither [None] nor NaN, every count is at least 1,
    and no key is a missing value. *)
Theorem get_weather_summary_counts_rows pd df summary weather_main :
  get_weather_summary pd df = Ok summary ->
  getitem df "weather_main" = Ok weather_main ->
  exists counts,
    dict_get summary "weather_distribution" = Some (Counts counts) /\
    counted counts = Z.of_nat (length (present weather_main)) /\
    Forall (fun item : value * Z => 1 <= item.2 /\ is_null item.1 = false) counts.
Proof.
  intros Hrun Hw.
  destruct (get_weather_summary_stages _ _ _ Hrun) as (s1 & s2 & _ & _ & H3).
  revert H3. unfold condition_metrics.
  assert (Hc : contains "weather_main" (columns df) = true)
    by (apply contains_getitem; exists weather_main; exact Hw).
  rewrite Hc, Hw. cbn [mbind result_bind]. unfold value_counts. cbv zeta.
  fold (present weather_main).
  destruct (forallb hashable (present weather_main)); cbn [mbind result_bind];
    [|discriminate].
  intros [= <-]. eexists. split; [apply dict_get_set_eq|].
  destruct (fold_count_one (present weather_main) []
              (present_not_null weather_main)) as [H1 H2]; [constructor|].
  split; [rewrite H1; reflexivity | exact H2].
Qed.

Lemma get_weather_summary_counts_rows_witness :
  exists summary counts,
    get_weather_summary summary_pandas merged_frame = Ok summary /\
    dict_get summary "weather_distribution" = Some (Counts counts) /\
    counted counts = 3 /\
    Forall (fun item : value * Z => 1 <= item.2 /\ is_null item.1 = false) counts.
Proof.
  destruct (get_weather_summary_counts_rows
              summary_pandas merged_frame
              [("avg_temp", Scalar (VStr "mean")); ("min_temp", Scalar (VStr "min"));
               ("max_temp", Scalar (VStr "max")); ("total_precip", Scalar (VStr "sum"));
               ("rainy_days", Scalar (VInt 2));
               ("weather_distribution",
                Counts [(VStr "Rain", 2); (VStr "Clear", 1)])]
              [VStr "Rain"; VStr "Clear"; VStr "Rain"] eq_refl eq_refl)
    as (counts & H).
  eexists _, counts. split; [reflexivity | exact H].
Defined.

Lemma forallb_false {A} (f : A -> bool) l :
  forallb f l = false -> exists a, In a l /\ f a = false.
Proof.
  induction l as [|x l IH]; cbn [forallb]; [discriminate|].
  destruct (f x) eqn:Ex; cbn [andb].
  - intros H. destruct (IH H) as (a & Ha & Hf). exists a. split; [right|]; assumption.
  - intros _. exists x. split; [left; reflexivity | exact Ex].
Qed.

(** X20. [get_weather_summary] raises only what a reduction of pandas
    raises on a column the table has, or [TypeError]: for a
    [precipitation] cell that does not compare with 0, or a
    [weather_main] cell that cannot be hashed. It never raises for a
    column the table lacks. *)
Theorem get_weather_summary_raises pd df e :
  get_weather_summary pd df = Raise e ->
  (exists temp_avg,
     getitem df "temp_avg" = Ok temp_avg /\
     (Series_mean pd temp_avg = Raise e \/ Series_min pd temp_avg = Raise e \/
      Series_max pd temp_avg = Raise e)) \/
  (exists precipitation,
     getitem df "precipitation" = Ok precipitation /\
     (Series_sum pd precipitation = Raise e \/
      e = TypeError /\ exists v, In v precipitation /\ is_number v = false)) \/
  (exists weather_main,
     getitem df "weather_main" = Ok weather_main /\
     e = TypeError /\ exists v, In v weather_main /\ hashable v = false).
Proof.
  unfold get_weather_summary. cbv zeta.
  destruct (temperature_metrics pd df []) as [s1|e1] eqn:E1; cbn [mbind result_bind].
  - destruct (precipitation_metrics pd df s1) as [s2|e2] eqn:E2;
      cbn [mbind result_bind].
    + destruct (condition_metrics df s2) as [s3|e3] eqn:E3; cbn [mbind result_bind];
        [discriminate|].
      intros [= <-]. right. right. revert E3. unfold condition_metrics.
      destruct (contains "weather_main" (columns df)) eqn:Ec; [|discriminate].
      apply contains_getitem in Ec as [w Hw]. rewrite Hw. cbn [mbind result_bind].
      unfold value_counts. cbv zeta.
      destruct (forallb hashable _) eqn:Eh; cbn [mbind result_bind]; [discriminate|].
      intros [= <-]. exists w. split; [reflexivity|]. split; [reflexivity|].
      apply forallb_false in Eh as (v & Hv & Hh).
      exists v. apply filter_In in Hv as [Hv _]. auto.
    + intros [= <-]. right. left. revert E2. unfold precipitation_metrics.
      destruct (contains "precipitation" (columns df)) eqn:Ec; [|discriminate].
      apply contains_getitem in Ec as [p Hp]. rewrite Hp. cbn [mbind result_bind].
      exists p. split; [reflexivity|]. revert E2.
      destruct (Series_sum pd p) as [total|e'] eqn:Es; cbn [mbind result_bind];
        [|intros [= <-]; left; reflexivity].
      unfold series_gt.
      destruct (traverse _ p) as [mask|e'] eqn:Em; cbn [mbind result_bind];
        [discriminate|].
      intros [= <-]. right. apply traverse_Raise_inv in Em as (v & Hv & Hgt).
      split; [exact (py_gt_Raise _ _ _ Hgt)|]. exists v. split; [exact Hv|].
      destruct v; try reflexivity; discriminate.
  - intros [= <-]. left. revert E1. unfold temperature_metrics.
    destruct (contains "temp_avg" (columns df)) eqn:Ec; [|discriminate].
    apply contains_getitem in Ec as [t Ht]. rewrite Ht. cbn [mbind result_bind].
    exists t. split; [reflexivity|]. revert E1.
    destruct (Series_mean pd t) as [avg|e'] eqn:Ea; cbn [mbind result_bind];
      [|intros [= <-]; left; reflexivity].
    destruct (Series_min pd t) as [lo|e'] eqn:El; cbn [mbind result_bind];
      [|intros [= <-]; right; left; reflexivity].
    destruct (Series_max pd t) as [hi|e'] eqn:Eh; cbn [mbind result_bind];
      [discriminate|].
    intros [= <-]. right. right. reflexivity.
Qed.

Lemma get_weather_summary_raises_witness :
  exists e,
    get_weather_summary summary_pandas trace_precipitation = Raise e /\
    ((exists temp_avg,
        getitem trace_precipitation "temp_avg" = Ok temp_avg /\
        (Series_mean summary_pandas temp_avg = Raise e \/
         Series_min summary_pandas temp_avg = Raise e \/
         Series_max summary_pandas temp_avg = Raise e)) \/
     (exists precipitation,
        getitem trace_precipitation "precipitation" = Ok precipitation /\
        (Series_sum summary_pandas precipitation = Raise e \/
         e = TypeError /\ exists v, In v precipitation /\ is_number v = false)) \/
     (exists weather_main,
        getitem trace_precipitation "weather_main" = Ok weather_main /\
        e = TypeError /\ exists v, In v weather_main /\ hashable v = false)).
Proof.
  eexists. split; [reflexivity|].
  apply (get_weather_summary_raises summary_pandas trace_precipitation).
  reflexivity.
Defined.

(** ** From one function to the next *)

(** The columns of a fetched table. *)
Lemma fetch_historical_weather_columns
  env fuel start_date end_date api_key df effects :
  fetch_historical_weather env fuel start_date end_date api_key
    = Some (Ok df, effects) ->
  df = [] \/
  (columns df = record_keys /\ exists n, rectangular n df).
Proof.
  intros Hrun.
  destruct (fetch_historical_weather_returned _ _ _ _ _ _ _ Hrun)
    as (key & st' & _ & -> & _ & [Hkeys _] & _).
  destruct (weather_data st') as [|first rows]; [left; reflexivity|].
  right. destruct (DataFrame_of_records_keys first rows Hkeys) as (Hc & Hr & _).
  split; [exact Hc | eexists; exact Hr].
Qed.

Lemma contains_columns df c :
  contains c (columns df) = existsb (String.eqb c) (columns df).
Proof. reflexivity. Qed.

(** X21. On a table [fetch_historical_weather] returned,
    [create_weather_categories] always returns, and adds the three
    condition flags after the eight columns but never [temp_category]:
    the collector names its temperature column [temp], not [temp_avg].
    An empty fetched table comes back empty. *)
Theorem fetched_table_categories
  env fuel start_date end_date api_key df effects (h : store) (weather_df : ref) :
  fetch_historical_weather env fuel start_date end_date api_key
    = Some (Ok df, effects) ->
  h !! weather_df = Some df ->
  exists out df',
    create_weather_categories weather_df h = (Ok out, <[out := df']> h) /\
    contains "temp_category" (columns df') = false /\
    ((df = [] /\ df' = []) \/
     columns df' = record_keys ++ ["is_clear"; "is_rainy"; "is_snowy"]).
Proof.
  intros Hrun Hr.
  rewrite (create_weather_categories_run h weather_df df Hr). cbv zeta.
  rewrite categorized_cases.
  destruct (fetch_historical_weather_columns _ _ _ _ _ _ _ Hrun)
    as [-> | [Hcols _]].
  - cbn. eexists _, _. split; [reflexivity|]. split; [reflexivity|].
    left. split; reflexivity.
  - assert (Ht : contains "temp_avg" (columns df) = false)
      by (rewrite Hcols; reflexivity).
    assert (Hw : contains "weather_main" (columns df) = true)
      by (rewrite Hcols; reflexivity).
    rewrite (not_contains_getitem _ _ Ht).
    apply contains_getitem in Hw as [w Hw]. rewrite Hw.
    eexists _, _. split; [reflexivity|].
    unfold with_flags. rewrite !columns_setitem, Hcols. cbn.
    split; [reflexivity|]. right. reflexivity.
Qed.

Lemma fetched_table_categories_witness :
  exists df effects out df',
    fetch_historical_weather sample_env 3 (midnight 738886) (midnight 738887) None
      = Some (Ok df, effects) /\
    create_weather_categories 1%positive {[ 1%positive := df ]}
      = (Ok out, <[out := df']> {[ 1%positive := df ]}) /\
    contains "temp_category" (columns df') = false /\
    ((df = [] /\ df' = []) \/
     columns df' = record_keys ++ ["is_clear"; "is_rainy"; "is_snowy"]).
Proof.
  eexists _, _. 
  assert (Hrun : fetch_historical_weather sample_env 3 (midnight 738886)
                   (midnight 738887) None
                 = Some (Ok [("date", [VDate 738887]); ("temp", [VFloat 41.5]);
                             ("feels_like", [VFloat 38]); ("humidity", [VInt 60]);
                             ("clouds", [VInt 20]); ("wind_speed", [VFloat 5.5]);
                             ("weather_main", [VStr "Clear"]);
                             ("weather_desc", [VStr "clear sky"])], _))
    by reflexivity.
  destruct (fetched_table_categories _ _ _ _ _ _ _ _ 1%positive Hrun
              (lookup_singleton_eq _ _)) as (out & df' & H).
  exists out, df'. split; [exact Hrun | exact H].
Defined.

(** X22. The summary of a table [fetch_historical_weather] returned has
    no temperature and no precipitation metric, whatever pandas computes:
    it is the empty dict for an empty table and otherwise holds
    [weather_distribution] alone, unless a [weather_main] cell cannot be
    hashed, which is a [TypeError]. *)
Theorem fetched_table_summary
  env fuel start_date end_date api_key df effects pd :
  fetch_historical_weather env fuel start_date end_date api_key
    = Some (Ok df, effects) ->
  match get_weather_summary pd df with
  | Ok summary =>
      (df = [] /\ summary = []) \/
      (df <> [] /\ summary.*1 = ["weather_distribution"])
  | Raise e => e = TypeError
  end.
Proof.
  intros Hrun.
  destruct (fetch_historical_weather_columns _ _ _ _ _ _ _ Hrun)
    as [-> | [Hcols _]]; [left; split; reflexivity|].
  unfold get_weather_summary, temperature_metrics, precipitation_metrics,
    condition_metrics. cbv zeta. rewrite Hcols.
  change (contains "temp_avg" record_keys) with false.
  change (contains "precipitation" record_keys) with false.
  change (contains "weather_main" record_keys) with true.
  cbn [mbind result_bind].
  assert (Hw : contains "weather_main" (columns df) = true)
    by (rewrite Hcols; reflexivity).
  apply contains_getitem in Hw as [w ->]. cbn [mbind result_bind].
  unfold value_counts. cbv zeta.
  destruct (forallb hashable _); cbn [mbind result_bind]; [|reflexivity].
  right. split; [|reflexivity]. intros ->. discriminate.
Qed.

Lemma fetched_table_summary_witness :
  exists df effects,
    fetch_historical_weather sample_env 3 (midnight 738886) (midnight 738887) None
      = Some (Ok df, effects) /\
    match get_weather_summary summary_pandas df with
    | Ok summary =>
        (df = [] /\ summary = []) \/
        (df <> [] /\ summary.*1 = ["weather_distribution"])
    | Raise e => e = TypeError
    end.
Proof.
  eexists _, _. split; [reflexivity|].
  eapply (fetched_table_summary
            sample_env 3 (midnight 738886) (midnight 738887) None).
  reflexivity.
Defined.

Lemma series_truediv_floats s k mean :
  series_truediv s k = Ok mean -> Forall (fun v => exists x, v = VFloat x) mean.
Proof.
  unfold series_truediv. revert mean.
  induction s as [|a s IH]; intros mean; cbn [traverse].
  - intros [= <-]. constructor.
  - destruct (py_truediv a k) as [b|] eqn:Eb; cbn [mbind result_bind];
      [|discriminate].
    destruct (traverse _ s) as [m|]; cbn [mbind result_bind]; [|discriminate].
    intros [= <-]. constructor; [|apply IH; reflexivity].
    unfold py_truediv in Eb. destruct (to_float a) as [x|]; [|discriminate].
    injection Eb as <-. eexists. reflexivity.
Qed.

(** X23. A table the loader returned with both temperature columns
    always categorises: its [temp_avg] holds floats only, so
    [create_weather_categories] returns on it and labels every row. *)
Theorem loaded_table_categories
  pd file_path out (h : store) (weather_df : ref) :
  load_noaa_weather_data pd file_path = Ok out ->
  contains "temp_max" (columns out) = true ->
  contains "temp_min" (columns out) = true ->
  h !! weather_df = Some out ->
  exists new df' temp_avg temp_category,
    create_weather_categories weather_df h = (Ok new, <[new := df']> h) /\
    getitem out "temp_avg" = Ok temp_avg /\
    Forall (fun v => exists x, v = VFloat x) temp_avg /\
    getitem df' "temp_category" = Ok temp_category /\
    length temp_category = length temp_avg.
Proof.
  intros Hload Hmax Hmin Hr.
  destruct (load_noaa_weather_data_stages _ _ _ Hload)
    as (src & DATE & date & df1 & df2 & _ & _ & _ & _ & H2 & H3).
  assert (Hc : forall c, c <> "temp_avg" -> c <> "is_rainy" ->
            contains c (columns out) = contains c (columns df1)).
  { intros c Ha Hb. apply contains_of_getitem.
    rewrite (add_is_rainy_frame _ _ c H3 Hb). exact (add_temp_avg_frame _ _ c H2 Ha). }
  rewrite Hc in Hmax by discriminate. rewrite Hc in Hmin by discriminate.
  assert (Havg : exists avg, getitem out "temp_avg" = Ok avg /\
                   Forall (fun v => exists x, v = VFloat x) avg).
  { rewrite (add_is_rainy_frame _ _ "temp_avg" H3) by discriminate.
    revert H2. unfold add_temp_avg. rewrite Hmax, Hmin. cbn [andb].
    apply contains_getitem in Hmax as [a ->]. apply contains_getitem in Hmin as [b ->].
    cbn [mbind result_bind].
    destruct (series_add a b) as [total|]; cbn [mbind result_bind]; [|discriminate].
    destruct (series_truediv total 2) as [avg|] eqn:Ed; cbn [mbind result_bind];
      [|discriminate].
    intros [= <-]. exists avg. split; [apply getitem_setitem_eq|].
    exact (series_truediv_floats _ _ _ Ed). }
  destruct Havg as (avg & Ha & Hfl).
  rewrite (create_weather_categories_run h weather_df out Hr). cbv zeta.
  rewrite categorized_cases, Ha.
  destruct (categories_of_numbers avg) as [cats Hcats].
  { eapply Forall_impl; [exact Hfl|]. intros v [x ->]. reflexivity. }
  rewrite Hcats. cbv zeta.
  destruct (getitem out "weather_main") as [w|]; eexists _, _, avg, cats;
    (split; [reflexivity|]); (split; [reflexivity|]); (split; [exact Hfl|]);
    (split; [|exact (traverse_length _ _ _ Hcats)]).
  - rewrite getitem_with_flags by discriminate. apply getitem_setitem_eq.
  - apply getitem_setitem_eq.
Qed.

Lemma loaded_table_categories_witness :
  exists out new df' temp_avg temp_category,
    load_noaa_weather_data (sample_pandas station_file) "dca.csv" = Ok out /\
    create_weather_categories 1%positive {[ 1%positive := out ]}
      = (Ok new, <[new := df']> {[ 1%positive := out ]}) /\
    getitem out "temp_avg" = Ok temp_avg /\
    Forall (fun v => exists x, v = VFloat x) temp_avg /\
    getitem df' "temp_category" = Ok temp_category /\
    length temp_category = length temp_avg.
Proof.
  eexists _.
  assert (Hload : load_noaa_weather_data (sample_pandas station_file) "dca.csv"
                  = Ok _) by reflexivity.
  destruct (loaded_table_categories
              (sample_pandas station_file) "dca.csv" _
              {[ 1%positive := _ ]} 1%positive Hload eq_refl eq_refl
              (lookup_singleton_eq _ _))
    as (new & df' & avg & cats & H).
  exists new, df', avg, cats. split; [exact Hload | exact H].
Defined.

(** X24. On a table the loader returned with a [precipitation] column,
    the [rainy_days] of the summary is the number of rows the loader
    flagged in [is_rainy]: both come from the same comparison with 0. *)
Theorem loaded_table_rainy_days pd file_path out summary precipitation :
  load_noaa_weather_data pd file_path = Ok out ->
  getitem out "precipitation" = Ok precipitation ->
  get_weather_summary pd out = Ok summary ->
  exists is_rainy,
    getitem out "is_rainy" = Ok (VBool <$> is_rainy) /\
    length is_rainy = length precipitation /\
    dict_get summary "rainy_days" = Some (Scalar (VInt (count_true is_rainy))).
Proof.
  intros Hload Hp Hsum.
  destruct (load_noaa_weather_data_stages _ _ _ Hload)
    as (src & DATE & date & df1 & df2 & _ & _ & _ & _ & _ & H3).
  assert (Hp2 : getitem df2 "precipitation" = Ok precipitation).
  { rewrite <- (add_is_rainy_frame _ _ "precipitation" H3) by discriminate.
    exact Hp. }
  assert (Hmask : exists mask, series_gt precipitation 0 = Ok mask /\
                    out = setitem df2 "is_rainy" (VBool <$> mask)).
  { revert H3. unfold add_is_rainy.
    assert (Hc : contains "precipitation" (columns df2) = true)
      by (apply contains_getitem; eexists; exact Hp2).
    rewrite Hc, Hp2. cbn [mbind result_bind].
    destruct (series_gt precipitation 0) as [mask|]; cbn [mbind result_bind];
      [|discriminate].
    intros [= <-]. exists mask. split; reflexivity. }
  destruct Hmask as (mask & Hgt & Hout).
  exists mask. split; [rewrite Hout; apply getitem_setitem_eq|].
  split; [exact (traverse_length _ _ _ Hgt)|].
  destruct (get_weather_summary_stages _ _ _ Hsum) as (s1 & s2 & _ & Hs2 & Hs3).
  assert (H2 : dict_get s2 "rainy_days" = Some (Scalar (VInt (count_true mask)))).
  { revert Hs2. unfold precipitation_metrics.
    assert (Hc : contains "precipitation" (columns out) = true)
      by (apply contains_getitem; eexists; exact Hp).
    rewrite Hc, Hp. cbn [mbind result_bind].
    destruct (Series_sum pd precipitation) as [total|]; cbn [mbind result_bind];
      [|discriminate].
    rewrite Hgt. cbn [mbind result_bind]. intros [= <-]. apply dict_get_set_eq. }
  revert Hs3. unfold condition_metrics.
  destruct (contains "weather_main" (columns out)); [|intros [= <-]; exact H2].
  destruct (getitem out "weather_main") as [w|]; cbn [mbind result_bind];
    [|discriminate].
  destruct (value_counts w) as [counts|]; cbn [mbind result_bind]; [|discriminate].
  intros [= <-]. rewrite dict_get_set_ne by discriminate. exact H2.
Qed.

Lemma loaded_table_rainy_days_witness :
  exists out summary is_rainy,
    load_noaa_weather_data (sample_pandas station_file) "dca.csv" = Ok out /\
    get_weather_summary (sample_pandas station_file) out = Ok summary /\
    getitem out "is_rainy" = Ok (VBool <$> is_rainy) /\
    length is_rainy = length [VFloat 0; VFloat 0.25] /\
    dict_get summary "rainy_days" = Some (Scalar (VInt (count_true is_rainy))).
Proof.
  eexists _, _.
  assert (Hload : load_noaa_weather_data (sample_pandas station_file) "dca.csv"
                  = Ok _) by reflexivity.
  match type of Hload with
  | _ = Ok ?d =>
      assert (Hsum : get_weather_summary (sample_pandas station_file) d = Ok _)
        by reflexivity
  end.
  destruct (loaded_table_rainy_days _ _ _ _ [VFloat 0; VFloat 0.25]
              Hload eq_refl Hsum) as (is_rainy & H).
  exists is_rainy. split; [exact Hload|]. split; [exact Hsum | exact H].
Defined.
